(** * A FastAPI service: configuration loading, handlers and routing

    Shallow embedding of [src/config.py], [src/api/health.py],
    [src/api/hello.py] and [src/main.py].

    Modelling conventions.
    - A Python [str] is a Rocq [string] holding its UTF-8 bytes.  A value
      of the environment is decoded by the interpreter with the
      [surrogateescape] handler (the file system encoding is UTF-8), so
      every byte string is some [str]; the bytes that are not well-formed
      UTF-8 stand for the lone surrogates of that [str], which cannot be
      encoded again ([Py.utf8]).
    - [str.lower] and [int] are the built-ins on ASCII text; what they do
      to other characters is not modelled, and the theorems that depend
      on it say that the text is ASCII.
    - [os.environ] is a finite map from variable names to values.
    - An uncaught exception is the [Raise] outcome of the [result] monad;
      nothing in the program catches one.  [assert] statements are
      executed (the interpreter does not run with [-O]).
    - Module-level mutable state (the [lru_cache] behind [get_settings],
      object identities) is threaded explicitly through a state monad. *)

From Stdlib Require Import ZArith NArith String Ascii List Bool Lia.
From stdpp Require Import base option list strings gmap.

Set Default Proof Using "Type".

#[local] Arguments String.append !s1 s2 : simpl nomatch.

(** ** Exceptions and the two monads the program needs *)

Inductive exn : Type :=
  | ValueError
  | AssertionError
  | FastAPIError
  | UnicodeEncodeError.

Inductive result (A : Type) : Type :=
  | Return (a : A)
  | Raise (e : exn).
Arguments Return {A} a.
Arguments Raise {A} e.

Definition rbind {A B} (m : result A) (k : A -> result B) : result B :=
  match m with
  | Return a => k a
  | Raise e => Raise e
  end.

Definition assert (b : bool) : result unit :=
  if b then Return tt else Raise AssertionError.

Declare Scope result_scope.
Delimit Scope result_scope with result.
Notation "'let*' x ':=' m 'in' k" := (rbind m (fun x => k))
  (at level 10, x name, m at level 100, k at level 200) : result_scope.
Notation "m ';;;' k" := (rbind m (fun _ => k))
  (at level 100, k at level 200, right associativity) : result_scope.

Definition State (S A : Type) : Type := S -> A * S.

Definition sret {S A} (a : A) : State S A := fun st => (a, st).
Definition sbind {S A B} (m : State S A) (k : A -> State S B) : State S B :=
  fun st => let (a, st') := m st in k a st'.
Definition sget {S} : State S S := fun st => (st, st).
Definition sput {S} (st' : S) : State S unit := fun _ => (tt, st').

Declare Scope state_scope.
Delimit Scope state_scope with state.
Notation "'do' x '<-' m ';' k" := (sbind m (fun x => k))
  (at level 10, x name, m at level 100, k at level 200) : state_scope.

(** ** The Python built-ins the program calls *)

Module Py.

Definition code (c : ascii) : N := N_of_ascii c.

Definition in_range (lo hi : N) (c : ascii) : bool :=
  ((lo <=? code c) && (code c <=? hi))%N.

(** [str.lower] on ASCII text: 'A'..'Z' move to 'a'..'z'.  The other
    bytes are left as they are, which is not what [str.lower] does to
    the cased letters outside ASCII. *)
Definition lower_char (c : ascii) : ascii :=
  if in_range 65 90 c then ascii_of_N (code c + 32) else c.

Fixpoint lower (s : string) : string :=
  match s with
  | EmptyString => EmptyString
  | String c s' => String (lower_char c) (lower s')
  end.

(** [s.split(sep)] for a one-character separator: every occurrence of
    [sep] ends an item, nothing is trimmed and empty items are kept, so
    the result is never the empty list. *)
Fixpoint split (sep : ascii) (s : string) : list string :=
  match s with
  | EmptyString => [EmptyString]
  | String c s' =>
      if Ascii.eqb c sep then EmptyString :: split sep s'
      else match split sep s' with
           | w :: ws => String c w :: ws
           | [] => [String c EmptyString]
           end
  end.

(** [sep.join(items)]. *)
Fixpoint join (sep : string) (items : list string) : string :=
  match items with
  | [] => EmptyString
  | [w] => w
  | w :: ws => w +:+ sep +:+ join sep ws
  end.

Definition startswith (s p : string) : bool := String.prefix p s.

Fixpoint endswith_char (s : string) (c : ascii) : bool :=
  match s with
  | EmptyString => false
  | String a EmptyString => Ascii.eqb a c
  | String _ s' => endswith_char s' c
  end.

(** [s.rstrip(c)] for a one-character set. *)
Fixpoint rstrip_char (c : ascii) (s : string) : string :=
  match s with
  | EmptyString => EmptyString
  | String a s' =>
      match rstrip_char c s' with
      | EmptyString => if Ascii.eqb a c then EmptyString else String a EmptyString
      | r => String a r
      end
  end.

(** *** [int(s)], base 10, on ASCII text

    CPython skips white space on both sides, reads an optional sign, then
    groups of digits separated by single underscores, and refuses a
    literal of more digits than the interpreter's limit.  Outside ASCII
    the built-in also takes the decimal digits and the white space of
    Unicode; these are not modelled. *)

Definition isspace (c : ascii) : bool :=
  in_range 9 13 c || (code c =? 32)%N.

Definition isdigit (c : ascii) : bool := in_range 48 57 c.

Fixpoint lstrip (s : string) : string :=
  match s with
  | EmptyString => EmptyString
  | String c s' => if isspace c then lstrip s' else s
  end.

Fixpoint rstrip (s : string) : string :=
  match s with
  | EmptyString => EmptyString
  | String c s' =>
      match rstrip s' with
      | EmptyString => if isspace c then EmptyString else String c EmptyString
      | r => String c r
      end
  end.

Definition strip (s : string) : string := rstrip (lstrip s).

Fixpoint forallb_str (p : ascii -> bool) (s : string) : bool :=
  match s with
  | EmptyString => true
  | String c s' => p c && forallb_str p s'
  end.

(** A group of digits: not empty, digits only. *)
Definition digit_group (s : string) : bool :=
  negb (String.eqb s EmptyString) && forallb_str isdigit s.

Fixpoint digits_value (acc : Z) (s : string) : Z :=
  match s with
  | EmptyString => acc
  | String c s' => digits_value (10 * acc + Z.of_N (code c - 48)) s'
  end.

(** [sys.get_int_max_str_digits()], at the interpreter's default.  The
    limit can be set when the interpreter starts, to 0 (no limit) or to
    640 at least, so a literal of at most 640 digits is below it however
    the interpreter is started. *)
Definition int_max_str_digits : nat := 4300.

Definition unsigned_int (body : string) : result Z :=
  let groups := split "_" body in
  if forallb digit_group groups then
    let digits := join EmptyString groups in
    if (int_max_str_digits <? String.length digits)%nat then Raise ValueError
    else Return (digits_value 0 digits)
  else Raise ValueError.

Definition int (s : string) : result Z :=
  match strip s with
  | String "+" body => unsigned_int body
  | String "-" body =>
      match unsigned_int body with
      | Return v => Return (- v)%Z
      | Raise e => Raise e
      end
  | body => unsigned_int body
  end.

(** [str.isascii]. *)
Definition isascii (s : string) : bool :=
  forallb_str (fun c => (code c <? 128)%N) s.

(** *** [str.encode("utf-8")]

    A [str] can be encoded when it holds no surrogate, that is, when the
    bytes that carry it are well-formed UTF-8 (table 3-7 of the Unicode
    standard).  The bytes are read one at a time: the reader is either
    at the boundary of two characters or inside one, where the next byte
    lies between [lo] and [hi] and [more] continuation bytes follow it. *)

Inductive utf8_state : Type :=
  | Boundary
  | Inside (more : nat) (lo hi : N).

Definition utf8_step (st : utf8_state) (c : ascii) : option utf8_state :=
  match st with
  | Boundary =>
      if (code c <? 128)%N then Some Boundary
      else if in_range 194 223 c then Some (Inside 0 128 191)
      else if (code c =? 224)%N then Some (Inside 1 160 191)
      else if in_range 225 236 c || in_range 238 239 c
           then Some (Inside 1 128 191)
      else if (code c =? 237)%N then Some (Inside 1 128 159)
      else if (code c =? 240)%N then Some (Inside 2 144 191)
      else if in_range 241 243 c then Some (Inside 2 128 191)
      else if (code c =? 244)%N then Some (Inside 2 128 143)
      else None
  | Inside more lo hi =>
      if in_range lo hi c then
        Some (match more with
              | O => Boundary
              | S more' => Inside more' 128 191
              end)
      else None
  end.

(** The state of the reader after [s]; [None] when a byte is refused. *)
Fixpoint utf8_read (st : utf8_state) (s : string) : option utf8_state :=
  match s with
  | EmptyString => Some st
  | String c s' =>
      match utf8_step st c with
      | Some st' => utf8_read st' s'
      | None => None
      end
  end.

(** Well-formed: every byte is accepted and the last character is
    complete. *)
Definition utf8 (s : string) : bool :=
  match utf8_read Boundary s with
  | Some Boundary => true
  | _ => false
  end.

Definition encode (s : string) : result string :=
  if utf8 s then Return s else Raise UnicodeEncodeError.

(** [bytes.decode("latin-1")]: every byte is one character; a byte from
    128 on is carried by two bytes of UTF-8. *)
Fixpoint decode_latin1 (b : string) : string :=
  match b with
  | EmptyString => EmptyString
  | String c b' =>
      if (code c <? 128)%N then String c (decode_latin1 b')
      else String (ascii_of_N (192 + code c / 64))
             (String (ascii_of_N (128 + code c mod 64)) (decode_latin1 b'))
  end.

(** [str.strip()] on ASCII text: the white space of [str] also holds the
    four separators 28 to 31, which [int] does not skip. *)
Definition isspace_str (c : ascii) : bool := isspace c || in_range 28 31 c.

Fixpoint lstrip_str (s : string) : string :=
  match s with
  | EmptyString => EmptyString
  | String c s' => if isspace_str c then lstrip_str s' else s
  end.

Fixpoint rstrip_str (s : string) : string :=
  match s with
  | EmptyString => EmptyString
  | String c s' =>
      match rstrip_str s' with
      | EmptyString => if isspace_str c then EmptyString else String c EmptyString
      | r => String c r
      end
  end.

Definition strip_str (s : string) : string := rstrip_str (lstrip_str s).

End Py.

(** ** [src/config.py] *)

Module config.

(** [os.getenv(key, default)]. *)
Definition getenv (environ : gmap string string) (key dflt : string) : string :=
  default dflt (environ !! key).

(** The attributes of class [Settings].  They are class attributes: the
    class body runs once, when the module is imported, and every
    instance reads them from the class. *)
Record Settings : Type := {
  ENVIRONMENT : string;
  DEBUG : bool;
  LOG_LEVEL : string;
  API_PREFIX : string;
  API_VERSION : string;
  CORS_ORIGINS : list string;
  HOST : string;
  PORT : Z;
}.

(** The class body, statement by statement.  Only [int] can raise. *)
Definition Settings_body (environ : gmap string string) : result Settings :=
  (let ENVIRONMENT := getenv environ "ENVIRONMENT" "development" in
   let DEBUG := String.eqb (Py.lower (getenv environ "DEBUG" "false")) "true" in
   let LOG_LEVEL := getenv environ "LOG_LEVEL" "INFO" in
   let API_PREFIX := getenv environ "API_PREFIX" "/api" in
   let API_VERSION := getenv environ "API_VERSION" "1.0.0" in
   let CORS_ORIGINS := Py.split "," (getenv environ "CORS_ORIGINS" "*") in
   let HOST := getenv environ "HOST" "0.0.0.0" in
   let* PORT := Py.int (getenv environ "PORT" "8080") in
   Return {| ENVIRONMENT := ENVIRONMENT; DEBUG := DEBUG;
             LOG_LEVEL := LOG_LEVEL; API_PREFIX := API_PREFIX;
             API_VERSION := API_VERSION; CORS_ORIGINS := CORS_ORIGINS;
             HOST := HOST; PORT := PORT |})%result.

Definition is_production (self : Settings) : bool :=
  String.eqb (ENVIRONMENT self) "production".

Definition is_development (self : Settings) : bool :=
  String.eqb (ENVIRONMENT self) "development".

(** An instance of [Settings] is an object identity; it has no
    attributes of its own. *)
Definition instance : Type := nat.

(** The state of the imported module: the class, the allocator of
    object identities, and the [lru_cache] wrapped around
    [get_settings].  The function takes no argument, so the cache has
    one key and at most one entry. *)
Record module : Type := {
  Settings_class : Settings;
  next_object : instance;
  cache : option instance;
  hits : nat;
  misses : nat;
}.

(** [import config]: run the class body, start with an empty cache. *)
Definition import (environ : gmap string string) : result module :=
  (let* cls := Settings_body environ in
   Return {| Settings_class := cls; next_object := 0%nat;
             cache := None; hits := 0%nat; misses := 0%nat |})%result.

(** [Settings()]: a fresh object. *)
Definition Settings_new : State module instance :=
  fun m => (next_object m,
            {| Settings_class := Settings_class m;
               next_object := S (next_object m);
               cache := cache m; hits := hits m; misses := misses m |}).

(** [@lru_cache def get_settings(): return Settings()]. *)
Definition get_settings : State module instance :=
  fun m =>
    match cache m with
    | Some obj =>
        (obj, {| Settings_class := Settings_class m;
                 next_object := next_object m;
                 cache := cache m; hits := S (hits m); misses := misses m |})
    | None =>
        let (obj, m') := Settings_new m in
        (obj, {| Settings_class := Settings_class m';
                 next_object := next_object m';
                 cache := Some obj; hits := hits m'; misses := S (misses m') |})
    end.

(** Attribute access on an instance falls through to the class. *)
Definition getattr {A} (m : module) (obj : instance) (field : Settings -> A) : A :=
  field (Settings_class m).

(** [n] calls in a row: the objects returned, and the final state. *)
Fixpoint call_get_settings (n : nat) : State module (list instance) :=
  match n with
  | O => sret []
  | S n' =>
      (do obj <- get_settings;
       do objs <- call_get_settings n';
       sret (obj :: objs))%state
  end.

End config.

(** ** HTTP messages *)

#[local] Set Warnings "-register-all".
Inductive json : Type :=
  | JString (s : string)
  | JObject (fields : list (string * json)).
#[local] Set Warnings "register-all".

Inductive content : Type :=
  | JSONContent (j : json)
  | OpenAPISchema (title version description : string)
  | SwaggerUI (openapi_url title oauth2_redirect_url : string)
  | SwaggerUIRedirect
  | ReDoc (openapi_url title : string)
  | ValidationErrors (missing : list string)
  | PlainText (text : string)
  | Redirect (location : string).

Record Response : Type := {
  status_code : Z;
  body : content;
}.

(** The request as the router receives it: the method and the decoded
    path of the ASGI scope. *)
Record Request : Type := {
  method : string;
  path : string;
}.

(** The ASGI scope as the application receives it: the request, and the
    headers in the order of the message, as pairs of byte strings whose
    names the server has put in lower case. *)
Record Scope : Type := {
  request : Request;
  headers : list (string * string);
}.

Definition JSONResponse (status : Z) (j : json) : Response :=
  {| status_code := status; body := JSONContent j |}.

(** What the framework answers when an [HTTPException] reaches it. *)
Definition http_exception (status : Z) (detail : string) : Response :=
  JSONResponse status (JObject [("detail", JString detail)]).

Definition internal_server_error : Response :=
  {| status_code := 500; body := PlainText "Internal Server Error" |}.

(** ** The routing layer of the framework (Starlette's [routing.py])

    The program only registers routes; how a request finds one is the
    framework's.  The definitions below follow [compile_path],
    [Route.matches] and [Router.app]. *)

Module routing.

(** *** Path templates *)

Inductive convertor : Type :=
  | StringConvertor | PathConvertor | IntegerConvertor
  | FloatConvertor | UUIDConvertor.

Definition CONVERTOR_TYPES (name : string) : option convertor :=
  if String.eqb name "str" then Some StringConvertor
  else if String.eqb name "path" then Some PathConvertor
  else if String.eqb name "int" then Some IntegerConvertor
  else if String.eqb name "float" then Some FloatConvertor
  else if String.eqb name "uuid" then Some UUIDConvertor
  else None.

Definition ident_start (c : ascii) : bool :=
  Py.in_range 65 90 c || Py.in_range 97 122 c || Ascii.eqb c "_".

Definition ident_char (c : ascii) : bool := ident_start c || Py.isdigit c.

Fixpoint span (p : ascii -> bool) (s : string) : string * string :=
  match s with
  | EmptyString => (EmptyString, EmptyString)
  | String c s' =>
      if p c then let (a, b) := span p s' in (String c a, b)
      else (EmptyString, s)
  end.

(** [[a-zA-Z_][a-zA-Z0-9_]*] at the head of [s]. *)
Definition read_ident (s : string) : option (string * string) :=
  match s with
  | EmptyString => None
  | String c s' =>
      if ident_start c then
        let (a, b) := span ident_char s' in Some (String c a, b)
      else None
  end.

(** [PARAM_REGEX] just after an opening brace: the parameter name, the
    convertor name (["str"] when there is none) and the number of
    characters up to and including the closing brace. *)
Definition read_param (s : string) : option (string * string * nat) :=
  match read_ident s with
  | Some (name, String "}" _) => Some (name, "str", S (String.length name))
  | Some (name, String ":" s') =>
      match read_ident s' with
      | Some (conv, String "}" _) =>
          Some (name, conv, String.length name + 1 + String.length conv + 1)%nat
      | _ => None
      end
  | _ => None
  end.

Inductive piece : Type :=
  | Lit (c : ascii)
  | Param (name conv : string).

(** [PARAM_REGEX.finditer]: the matches from left to right; whatever
    lies between two matches is literal text.  [skip] counts the
    characters of the match being stepped over. *)
Fixpoint scan (s : string) (skip : nat) : list piece :=
  match s with
  | EmptyString => []
  | String c s' =>
      match skip with
      | S k => scan s' k
      | O =>
          if Ascii.eqb c "{" then
            match read_param s' with
            | Some (name, conv, n) => Param name conv :: scan s' n
            | None => Lit c :: scan s' O
            end
          else Lit c :: scan s' O
      end
  end.

Inductive atom : Type :=
  | Chr (c : ascii)
  | Group (name : string) (conv : convertor).

Fixpoint to_atoms (ps : list piece) : result (list atom) :=
  match ps with
  | [] => Return []
  | Lit c :: ps' =>
      (let* r := to_atoms ps' in Return (Chr c :: r))%result
  | Param name conv :: ps' =>
      match CONVERTOR_TYPES conv with
      | None => Raise AssertionError
      | Some cv => (let* r := to_atoms ps' in Return (Group name cv :: r))%result
      end
  end.

Fixpoint group_names (atoms : list atom) : list string :=
  match atoms with
  | [] => []
  | Chr _ :: atoms' => group_names atoms'
  | Group name _ :: atoms' => name :: group_names atoms'
  end.

Fixpoint has_duplicates (names : list string) : bool :=
  match names with
  | [] => false
  | n :: ns => existsb (String.eqb n) ns || has_duplicates ns
  end.

(** [compile_path]: an unknown convertor fails an assertion inside the
    loop; a repeated parameter name raises [ValueError] after it. *)
Definition compile_path (path : string) : result (list atom) :=
  (let* atoms := to_atoms (scan path O) in
   if has_duplicates (group_names atoms) then Raise ValueError
   else Return atoms)%result.

(** *** Matching *)

Definition ishex (c : ascii) : bool :=
  Py.isdigit c || Py.in_range 97 102 c || Py.in_range 65 70 c.

Fixpoint take (n : nat) (s : string) : string :=
  match n, s with
  | S n', String c s' => String c (take n' s')
  | _, _ => EmptyString
  end.

Fixpoint drop (n : nat) (s : string) : string :=
  match n, s with
  | S n', String _ s' => drop n' s'
  | _, _ => s
  end.

(** [n] hexadecimal digits, then an optional hyphen. *)
Definition hex_block (n : nat) (s : string) : option string :=
  if (String.length (take n s) =? n)%nat && Py.forallb_str ishex (take n s) then
    match drop n s with
    | String "-" r => Some r
    | r => Some r
    end
  else None.

(** The strings each convertor's regular expression matches in full. *)
Definition accepts (conv : convertor) (v : string) : bool :=
  match conv with
  | StringConvertor =>
      negb (String.eqb v EmptyString)
      && Py.forallb_str (fun c => negb (Ascii.eqb c "/")) v
  | PathConvertor =>
      Py.forallb_str (fun c => negb (Ascii.eqb c "010")) v
  | IntegerConvertor => Py.digit_group v
  | FloatConvertor =>
      match Py.split "." v with
      | [d] => Py.digit_group d
      | [d; f] => Py.digit_group d && Py.digit_group f
      | _ => false
      end
  | UUIDConvertor =>
      match hex_block 8 v with
      | Some v1 =>
          match hex_block 4 v1 with
          | Some v2 =>
              match hex_block 4 v2 with
              | Some v3 =>
                  match hex_block 4 v3 with
                  | Some v4 =>
                      (String.length v4 =? 12)%nat && Py.forallb_str ishex v4
                  | None => false
                  end
              | None => false
              end
          | None => false
          end
      | None => false
      end
  end.

(** A greedy group followed by the rest of the pattern: the longest
    prefix first, then shorter ones. *)
Fixpoint longest {A} (try : nat -> option A) (k : nat) : option A :=
  match try k with
  | Some r => Some r
  | None => match k with
            | O => None
            | S k' => longest try k'
            end
  end.

(** [path_regex.match(route_path)]: the groups captured, if the whole
    path matches.  The pattern ends in [$], which also matches just
    before a final newline. *)
Fixpoint regex_match (atoms : list atom) (s : string)
  : option (list (string * convertor * string)) :=
  match atoms with
  | [] =>
      if String.eqb s EmptyString || String.eqb s (String "010" EmptyString)
      then Some [] else None
  | Chr c :: atoms' =>
      match s with
      | String a s' => if Ascii.eqb a c then regex_match atoms' s' else None
      | EmptyString => None
      end
  | Group name conv :: atoms' =>
      longest
        (fun k =>
           if accepts conv (take k s) then
             match regex_match atoms' (drop k s) with
             | Some groups => Some ((name, conv, take k s) :: groups)
             | None => None
             end
           else None)
        (String.length s)
  end.

(** [convertor.convert(value)].  Only [int] can raise; the converted
    values of other types are not used by any endpoint of this program,
    so the parameter keeps its text. *)
Definition convert (conv : convertor) (v : string) : result string :=
  match conv with
  | IntegerConvertor =>
      (let* _ := Py.int v in Return v)%result
  | _ => Return v
  end.

Fixpoint convert_groups (groups : list (string * convertor * string))
  : result (gmap string string) :=
  match groups with
  | [] => Return ∅
  | (name, conv, v) :: groups' =>
      (let* v' := convert conv v in
       let* params := convert_groups groups' in
       Return (<[name := v']> params))%result
  end.

Inductive Match : Type :=
  | NONE
  | PARTIAL (path_params : gmap string string)
  | FULL (path_params : gmap string string).

Section Routes.

(** [W] is the state of the running process. *)
Context {W : Type}.

(** [in_schema]: the route is a path operation that the OpenAPI schema
    of the application lists. *)
Record Route : Type := {
  route_path : string;
  path_regex : list atom;
  methods : list string;
  endpoint : gmap string string -> State W Response;
  in_schema : bool;
}.

(** [Route.matches]. *)
Definition matches (r : Route) (scope : Request) : result Match :=
  match regex_match (path_regex r) (path scope) with
  | Some groups =>
      (let* params := convert_groups groups in
       if existsb (String.eqb (method scope)) (methods r)
       then Return (FULL params)
       else Return (PARTIAL params))%result
  | None => Return NONE
  end.

Inductive found : Type :=
  | found_full (r : Route) (path_params : gmap string string)
  | found_partial (r : Route)
  | found_none.

(** The first loop of [Router.app]: the first full match wins; the
    first partial match is remembered. *)
Fixpoint first_match (routes : list Route) (scope : Request)
    (partial : option Route) : result found :=
  match routes with
  | [] =>
      Return (match partial with
              | Some r => found_partial r
              | None => found_none
              end)
  | r :: routes' =>
      (let* m := matches r scope in
       match m with
       | FULL params => Return (found_full r params)
       | PARTIAL _ =>
           first_match routes' scope
             (match partial with Some p => Some p | None => Some r end)
       | NONE => first_match routes' scope partial
       end)%result
  end.

(** The second loop, over the path with its trailing slash toggled. *)
Fixpoint any_match (routes : list Route) (scope : Request) : result bool :=
  match routes with
  | [] => Return false
  | r :: routes' =>
      (let* m := matches r scope in
       match m with
       | NONE => any_match routes' scope
       | _ => Return true
       end)%result
  end.

Definition toggle_slash (p : string) : string :=
  if Py.endswith_char p "/" then Py.rstrip_char "/" p
  else p +:+ "/".

(** [Router.app] with [redirect_slashes] on, under the framework's
    exception handlers: an exception that escapes is answered 500. *)
Definition Router_app (routes : list Route) (scope : Request)
  : State W Response :=
  match first_match routes scope None with
  | Raise _ => sret internal_server_error
  | Return (found_full r params) => endpoint r params
  | Return (found_partial _) => sret (http_exception 405 "Method Not Allowed")
  | Return found_none =>
      if String.eqb (path scope) "/" then sret (http_exception 404 "Not Found")
      else
        let redirect_scope :=
          {| method := method scope; path := toggle_slash (path scope) |} in
        match any_match routes redirect_scope with
        | Raise _ => sret internal_server_error
        | Return true =>
            sret {| status_code := 307;
                    body := Redirect (path redirect_scope) |}
        | Return false => sret (http_exception 404 "Not Found")
        end
  end.

(** [starlette.routing.Route(path, endpoint)]: GET, and HEAD with it. *)
Definition Route_init (p : string) (ep : gmap string string -> State W Response)
  : result Route :=
  (let* _ := assert (Py.startswith p "/") in
   let* re := compile_path p in
   Return {| route_path := p; path_regex := re;
             methods := ["GET"; "HEAD"]; endpoint := ep;
             in_schema := false |})%result.

(** [fastapi.routing.APIRoute(path, endpoint, methods=...)]. *)
Definition APIRoute (p : string) (ep : gmap string string -> State W Response)
    (ms : list string) : result Route :=
  (let* re := compile_path p in
   Return {| route_path := p; path_regex := re;
             methods := ms; endpoint := ep; in_schema := true |})%result.

(** [@router.get(path)] on a router without a prefix. *)
Definition router_get (router : list Route) (p : string)
    (ep : gmap string string -> State W Response) : result (list Route) :=
  (let* r := APIRoute p ep ["GET"] in Return (router ++ [r]))%result.

Fixpoint add_api_routes (routes : list Route) (prefix : string)
    (included : list Route) : result (list Route) :=
  match included with
  | [] => Return routes
  | r :: included' =>
      (let* r' := APIRoute (prefix +:+ route_path r) (endpoint r) (methods r) in
       add_api_routes (routes ++ [r']) prefix included')%result
  end.

(** [include_router(router, prefix=prefix)]. *)
Definition include_router (routes : list Route) (router : list Route)
    (prefix : string) : result (list Route) :=
  (let* _ :=
     if negb (String.eqb prefix EmptyString) then
       (let* _ := assert (Py.startswith prefix "/") in
        assert (negb (Py.endswith_char prefix "/")))
     else if existsb (fun r => String.eqb (route_path r) EmptyString) router
          then Raise FastAPIError
          else Return tt in
   add_api_routes routes prefix router)%result.

End Routes.

Arguments Route W : clear implicits.

End routing.

(** ** The application object of the framework ([fastapi.FastAPI]) *)

Module fastapi.
Import routing.

Record CORSMiddleware : Type := {
  allow_origins : list string;
  allow_credentials : bool;
  allow_methods : list string;
  allow_headers : list string;
}.

(** *** The CORS middleware (Starlette's [middleware/cors.py]) *)

(** [Headers.get(key)] for a key in lower case: the value of the first
    header of that name, decoded as Latin-1. *)
Fixpoint Headers_get (hs : list (string * string)) (key : string) : option string :=
  match hs with
  | [] => None
  | (k, v) :: hs' =>
      if String.eqb k key then Some (Py.decode_latin1 v) else Headers_get hs' key
  end.

Definition ALL_METHODS : list string :=
  ["DELETE"; "GET"; "HEAD"; "OPTIONS"; "PATCH"; "POST"; "PUT"].

Definition SAFELISTED_HEADERS : list string :=
  ["Accept"; "Accept-Language"; "Content-Language"; "Content-Type"].

(** What the constructor derives from its arguments. *)
Definition cors_methods (mw : CORSMiddleware) : list string :=
  if existsb (String.eqb "*") (allow_methods mw) then ALL_METHODS
  else allow_methods mw.

Definition allow_all_origins (mw : CORSMiddleware) : bool :=
  existsb (String.eqb "*") (allow_origins mw).

Definition allow_all_headers (mw : CORSMiddleware) : bool :=
  existsb (String.eqb "*") (allow_headers mw).

Definition cors_headers (mw : CORSMiddleware) : list string :=
  map Py.lower (SAFELISTED_HEADERS ++ allow_headers mw).

Definition is_allowed_origin (mw : CORSMiddleware) (origin : string) : bool :=
  allow_all_origins mw || existsb (String.eqb origin) (allow_origins mw).

(** [preflight_response]: the failures are collected in this order, and
    the answer is plain text.  The headers of the answer are not
    modelled. *)
Definition preflight_response (mw : CORSMiddleware)
    (requested_origin requested_method : string)
    (requested_headers : option string) : Response :=
  let failures :=
    (if is_allowed_origin mw requested_origin then [] else ["origin"])
    ++ (if existsb (String.eqb requested_method) (cors_methods mw)
        then [] else ["method"])
    ++ (if allow_all_headers mw then []
        else match requested_headers with
             | Some hs =>
                 if forallb
                      (fun h => existsb (String.eqb (Py.strip_str (Py.lower h)))
                                  (cors_headers mw))
                      (Py.split "," hs)
                 then [] else ["headers"]
             | None => []
             end) in
  match failures with
  | [] => {| status_code := 200; body := PlainText "OK" |}
  | _ => {| status_code := 400;
            body := PlainText ("Disallowed CORS " +:+ Py.join ", " failures) |}
  end.

(** *** What a response is made of

    The texts that are encoded when the response is built: the strings
    of a JSON body, the page of a documentation UI, the location of a
    redirect. *)
Fixpoint json_texts (j : json) : list string :=
  match j with
  | JString s => [s]
  | JObject fields =>
      (fix members (l : list (string * json)) : list string :=
         match l with
         | [] => []
         | (k, v) :: l' => k :: json_texts v ++ members l'
         end) fields
  end.

Fixpoint encode_all (texts : list string) : result unit :=
  match texts with
  | [] => Return tt
  | t :: texts' => (let* _ := Py.encode t in encode_all texts')%result
  end.

(** [ServerErrorMiddleware]: an exception that reaches it is answered
    500. *)
Definition ServerErrorMiddleware (answer : result Response) : Response :=
  match answer with
  | Return r => r
  | Raise _ => internal_server_error
  end.

Section App.
Context {W : Type}.

Record FastAPI : Type := {
  title : string;
  description : string;
  version : string;
  openapi_url : string;
  docs_url : string;
  redoc_url : string;
  swagger_ui_oauth2_redirect_url : string;
  routes : list (Route W);
  user_middleware : list CORSMiddleware;
}.

Definition with_routes (app : FastAPI) (rs : list (Route W)) : FastAPI :=
  {| title := title app; description := description app;
     version := version app; openapi_url := openapi_url app;
     docs_url := docs_url app; redoc_url := redoc_url app;
     swagger_ui_oauth2_redirect_url := swagger_ui_oauth2_redirect_url app;
     routes := rs; user_middleware := user_middleware app |}.

(** What the framework does around a path operation function: take
    its arguments from the path parameters, call it, serialise what it
    returns through the response model, answer 200.  A parameter the
    path does not supply is a validation error (422).  The content is
    kept as a value here; it is encoded, and that can raise, when the
    response is built ([render] below). *)
Definition path_operation {A} (required : list string)
    (call : gmap string string -> option (State W A))
    (response_model : A -> json) : gmap string string -> State W Response :=
  fun params =>
    match call params with
    | Some f => (do r <- f; sret (JSONResponse 200 (response_model r)))%state
    | None => sret {| status_code := 422; body := ValidationErrors required |}
    end.

(** [FastAPI(title=, description=, version=, docs_url=, redoc_url=)]:
    the two assertions of the constructor, then [setup()], which adds
    the schema route and the documentation routes in this order. *)
Definition FastAPI_init (title_ description_ version_ docs_url_ redoc_url_ : string)
  : result FastAPI :=
  (let openapi_url_ := "/openapi.json" in
   let oauth2_ := "/docs/oauth2-redirect" in
   let* _ := assert (negb (String.eqb title_ EmptyString)) in
   let* _ := assert (negb (String.eqb version_ EmptyString)) in
   let* r_openapi :=
     Route_init openapi_url_
       (fun _ => sret {| status_code := 200;
                         body := OpenAPISchema title_ version_ description_ |}) in
   let* r_docs :=
     Route_init docs_url_
       (fun _ => sret {| status_code := 200;
                         body := SwaggerUI openapi_url_
                                   (title_ +:+ " - Swagger UI") oauth2_ |}) in
   let* r_oauth2 :=
     Route_init oauth2_
       (fun _ => sret {| status_code := 200; body := SwaggerUIRedirect |}) in
   let* r_redoc :=
     Route_init redoc_url_
       (fun _ => sret {| status_code := 200;
                         body := ReDoc openapi_url_ (title_ +:+ " - ReDoc") |}) in
   Return {| title := title_; description := description_;
             version := version_; openapi_url := openapi_url_;
             docs_url := docs_url_; redoc_url := redoc_url_;
             swagger_ui_oauth2_redirect_url := oauth2_;
             routes := [r_openapi; r_docs; r_oauth2; r_redoc];
             user_middleware := [] |})%result.

Definition add_middleware (app : FastAPI) (mw : CORSMiddleware) : FastAPI :=
  {| title := title app; description := description app;
     version := version app; openapi_url := openapi_url app;
     docs_url := docs_url app; redoc_url := redoc_url app;
     swagger_ui_oauth2_redirect_url := swagger_ui_oauth2_redirect_url app;
     routes := routes app; user_middleware := mw :: user_middleware app |}.

(** [app.include_router(router, prefix=prefix)]. *)
Definition app_include_router (app : FastAPI) (router : list (Route W))
    (prefix : string) : result FastAPI :=
  (let* rs := include_router (routes app) router prefix in
   Return (with_routes app rs))%result.

(** [@app.get(path)]. *)
Definition app_get (app : FastAPI) (p : string)
    (ep : gmap string string -> State W Response) : result FastAPI :=
  (let* rs := router_get (routes app) p ep in
   Return (with_routes app rs))%result.

(** One request at the router of the application: the status and the
    content it is answered with, before the content is encoded and
    below the middleware. *)
Definition handle (app : FastAPI) (scope : Request) : State W Response :=
  Router_app (routes app) scope.

(** A run of the server: the requests one after the other. *)
Fixpoint serve (app : FastAPI) (requests : list Request)
  : State W (list Response) :=
  match requests with
  | [] => sret []
  | rq :: requests' =>
      (do r <- handle app rq;
       do rs <- serve app requests';
       sret (r :: rs))%state
  end.

(** The texts of a response.  The schema lists the title, the version
    and the description of the application and the paths of its path
    operations. *)
Definition texts (app : FastAPI) (c : content) : list string :=
  match c with
  | JSONContent j => json_texts j
  | OpenAPISchema title_ version_ description_ =>
      title_ :: version_ :: description_
      :: map route_path (List.filter in_schema (routes app))
  | SwaggerUI openapi_url_ title_ oauth2_ => [openapi_url_; title_; oauth2_]
  | SwaggerUIRedirect => []
  | ReDoc openapi_url_ title_ => [openapi_url_; title_]
  | ValidationErrors missing => missing
  | PlainText text => [text]
  | Redirect location => [location]
  end.

(** Building the response encodes its texts; [UnicodeEncodeError] is
    raised when one of them holds a surrogate. *)
Definition render (app : FastAPI) (r : Response) : result Response :=
  (let* _ := encode_all (texts app (body r)) in Return r)%result.

(** [CORSMiddleware.__call__] around the application [inner].  Without
    an [Origin] header the request is passed on; an OPTIONS request
    with [Origin] and [Access-Control-Request-Method] is a preflight
    and is answered here; to any other request the middleware only adds
    headers, which are not modelled. *)
Definition CORSMiddleware_call (mw : CORSMiddleware)
    (inner : Scope -> State W (result Response)) (scope : Scope)
  : State W (result Response) :=
  match Headers_get (headers scope) "origin",
        Headers_get (headers scope) "access-control-request-method" with
  | Some origin, Some requested_method =>
      if String.eqb (method (request scope)) "OPTIONS" then
        sret (Return (preflight_response mw origin requested_method
                        (Headers_get (headers scope)
                           "access-control-request-headers")))
      else inner scope
  | _, _ => inner scope
  end.

(** The router as the innermost application: the route found builds its
    response, which can raise. *)
Definition router (app : FastAPI) (scope : Scope) : State W (result Response) :=
  (do r <- handle app (request scope);
   sret (render app r))%state.

(** [FastAPI.__call__]: [ServerErrorMiddleware] outermost, then the
    middleware added by the program, the first of the list first, then
    the router. *)
Definition call (app : FastAPI) (scope : Scope) : State W Response :=
  (do answer <- foldr CORSMiddleware_call (router app) (user_middleware app) scope;
   sret (ServerErrorMiddleware answer))%state.

(** A run of the server on whole scopes. *)
Fixpoint calls (app : FastAPI) (scopes : list Scope)
  : State W (list Response) :=
  match scopes with
  | [] => sret []
  | sc :: scopes' =>
      (do r <- call app sc;
       do rs <- calls app scopes';
       sret (r :: rs))%state
  end.

End App.

Arguments FastAPI W : clear implicits.

End fastapi.

(** ** [src/api/health.py] *)

Module health.

Record HealthResponse : Type := {
  status : string;
  message : string;
}.

Definition HealthResponse_json (r : HealthResponse) : json :=
  JObject [("status", JString (status r)); ("message", JString (message r))].

Definition get_health {W} : State W HealthResponse :=
  sret {| status := "healthy"; message := "OK" |}.

(** [router = APIRouter()] and its one decorated function. *)
Definition router {W} : result (list (routing.Route W)) :=
  routing.router_get [] "/health"
    (fastapi.path_operation [] (fun _ => Some get_health) HealthResponse_json).

End health.

(** ** [src/api/hello.py] *)

Module hello.

Record HelloResponse : Type := {
  message : string;
}.

Definition HelloResponse_json (r : HelloResponse) : json :=
  JObject [("message", JString (message r))].

Definition get_hello {W} : State W HelloResponse :=
  sret {| message := "Hello, World!" |}.

Definition get_hello_name {W} (name : string) : State W HelloResponse :=
  sret {| message := "Hello, " +:+ name +:+ "!" |}.

Definition router {W} : result (list (routing.Route W)) :=
  (let* r := routing.router_get [] "/hello"
               (fastapi.path_operation [] (fun _ => Some get_hello)
                  HelloResponse_json) in
   routing.router_get r "/hello/{name}"
     (fastapi.path_operation ["name"]
        (fun params => get_hello_name <$> params !! "name")
        HelloResponse_json))%result.

End hello.

(** ** [src/main.py] *)

Module main.
Import config.

(** [root()]: the attributes are read from [settings] when the request
    is handled. *)
Definition root (settings : instance) : State module json :=
  (do m <- sget;
   sret (JObject [("message", JString "OK 🚀");
                  ("version", JString (getattr m settings API_VERSION));
                  ("environment", JString (getattr m settings ENVIRONMENT))]))%state.

(** The module's globals once it is imported.  [debugger] records
    whether [debugpy.listen] was called. *)
Record globals : Type := {
  settings : instance;
  debugger : bool;
  app : fastapi.FastAPI module;
}.

(** The module body, top to bottom.  The state of [config] left by the
    import comes back with the globals.  Of the block under
    [if settings.DEBUG] only the decision is kept, in [debugger]:
    whether [import debugpy], [debugpy.listen] and the two [print] calls
    succeed depends on the machine (the package, the port, the encoding
    of the terminal) and not on the settings, so an import that returns
    here is one in which that block, if entered, went through. *)
Definition import (environ : gmap string string) : result (globals * module) :=
  (let* health_router := health.router in
   let* hello_router := hello.router in
   let* cfg := config.import environ in
   let (settings_, cfg) := get_settings cfg in
   let debugger_ := getattr cfg settings_ DEBUG in
   let prefix := getattr cfg settings_ API_PREFIX in
   let* app0 :=
     fastapi.FastAPI_init "FastAPI Cloud Deployment"
       "Production-ready FastAPI application for multi-cloud deployment"
       (getattr cfg settings_ API_VERSION)
       (prefix +:+ "/docs") (prefix +:+ "/redoc") in
   let app1 :=
     fastapi.add_middleware app0
       {| fastapi.allow_origins := getattr cfg settings_ CORS_ORIGINS;
          fastapi.allow_credentials := true;
          fastapi.allow_methods := ["*"];
          fastapi.allow_headers := ["*"] |} in
   let* app2 := fastapi.app_include_router app1 health_router prefix in
   let* app3 := fastapi.app_include_router app2 hello_router prefix in
   let* app4 :=
     fastapi.app_get app3 "/"
       (fastapi.path_operation [] (fun _ => Some (root settings_)) id) in
   Return ({| settings := settings_; debugger := debugger_; app := app4 |}, cfg))%result.



End main.

(** ** Specification-side definitions

    These follow the words of the specification, not the code; the
    theorems below compare the code with them. *)

Module spec.

Definition free_of (sep : ascii) (w : string) : bool :=
  Py.forallb_str (fun c => negb (Ascii.eqb c sep)) w.

Fixpoint count (sep : ascii) (s : string) : nat :=
  match s with
  | EmptyString => O
  | String c s' => (if Ascii.eqb c sep then 1 else 0) + count sep s'
  end.

(** [items] is the comma-split of [s], in order: joining the items
    with commas gives [s] back, and no item holds a comma. *)
Definition comma_split (s : string) (items : list string) : Prop :=
  items <> [] /\ Forall (fun w => free_of "," w = true) items
  /\ Py.join "," items = s.

(** A case-insensitive spelling of "true". *)
Definition spells_true (s : string) : Prop :=
  exists c1 c2 c3 c4 : ascii,
    s = String c1 (String c2 (String c3 (String c4 EmptyString)))
    /\ (c1 = "t" \/ c1 = "T")%char /\ (c2 = "r" \/ c2 = "R")%char
    /\ (c3 = "u" \/ c3 = "U")%char /\ (c4 = "e" \/ c4 = "E")%char.

(** A path prefix without template parameters. *)
Definition literal (p : string) : bool := free_of "{" p.

(** What the framework asks of the settings to build the application:
    a version that is not empty and a prefix that is empty or starts
    with a slash and does not end with one.  The prefix is also taken
    without template parameters. *)
Definition startable (cfg : config.Settings) : bool :=
  negb (String.eqb (config.API_VERSION cfg) EmptyString)
  && literal (config.API_PREFIX cfg)
  && (String.eqb (config.API_PREFIX cfg) EmptyString
      || (Py.startswith (config.API_PREFIX cfg) "/"
          && negb (Py.endswith_char (config.API_PREFIX cfg) "/"))).

(** The state of [config] once [main] is imported: the class, and the
    cache filled by the one call of [get_settings]. *)
Definition after_import (cfg : config.Settings) : config.module :=
  {| config.Settings_class := cfg; config.next_object := 1;
     config.cache := Some 0%nat; config.hits := 0; config.misses := 1 |}.

(** The settings an empty environment gives. *)
Definition defaults : config.Settings :=
  {| config.ENVIRONMENT := "development"; config.DEBUG := false;
     config.LOG_LEVEL := "INFO"; config.API_PREFIX := "/api";
     config.API_VERSION := "1.0.0"; config.CORS_ORIGINS := ["*"];
     config.HOST := "0.0.0.0"; config.PORT := 8080 |}.

(** The scenario of the specification: PORT=9999 and
    ENVIRONMENT=production, and the settings it gives. *)
Definition scenario_environ : gmap string string :=
  <["PORT" := "9999"]> (<["ENVIRONMENT" := "production"]> ∅).

Definition scenario : config.Settings :=
  {| config.ENVIRONMENT := "production"; config.DEBUG := false;
     config.LOG_LEVEL := "INFO"; config.API_PREFIX := "/api";
     config.API_VERSION := "1.0.0"; config.CORS_ORIGINS := ["*"];
     config.HOST := "0.0.0.0"; config.PORT := 9999 |}.


(** A path segment: not empty, no slash. *)
Definition segment (name : string) : bool :=
  negb (String.eqb name EmptyString) && free_of "/" name.

(** The scan and the pattern of a path without parameters: its
    characters. *)
Fixpoint lits (s : string) : list routing.piece :=
  match s with
  | EmptyString => []
  | String c s' => routing.Lit c :: lits s'
  end.

Fixpoint chrs (s : string) : list routing.atom :=
  match s with
  | EmptyString => []
  | String c s' => routing.Chr c :: chrs s'
  end.

(** Route [r] serves path template [p] for the methods [ms]; its
    endpoint answers [ep] and leaves the state of the process alone. *)
Definition route_is {W} (r : routing.Route W) (p : string) (ms : list string)
    (ep : gmap string string -> W -> Response) : Prop :=
  routing.route_path r = p
  /\ routing.compile_path p = Return (routing.path_regex r)
  /\ routing.methods r = ms
  /\ forall params st, routing.endpoint r params st = (ep params st, st).

Definition newline : string := String "010" EmptyString.

(** The route accepts the method of the request. *)
Definition allows {W} (r : routing.Route W) (scope : Request) : bool :=
  existsb (String.eqb (method scope)) (routing.methods r).

(** The answers of the application's routes. *)
Definition health_response : Response :=
  JSONResponse 200
    (JObject [("status", JString "healthy"); ("message", JString "OK")]).

Definition hello_response (greeting : string) : Response :=
  JSONResponse 200 (JObject [("message", JString greeting)]).

Definition root_response (cfg : config.Settings) : Response :=
  JSONResponse 200
    (JObject [("message", JString "OK 🚀");
              ("version", JString (config.API_VERSION cfg));
              ("environment", JString (config.ENVIRONMENT cfg))]).

(** An environment whose ENVIRONMENT is the one byte 255, which is not
    UTF-8, and the settings it gives. *)
Definition undecodable_environ : gmap string string :=
  <["ENVIRONMENT" := String "255" EmptyString]> ∅.

Definition undecodable : config.Settings :=
  {| config.ENVIRONMENT := String "255" EmptyString; config.DEBUG := false;
     config.LOG_LEVEL := "INFO"; config.API_PREFIX := "/api";
     config.API_VERSION := "1.0.0"; config.CORS_ORIGINS := ["*"];
     config.HOST := "0.0.0.0"; config.PORT := 8080 |}.

(** A CORS preflight: an OPTIONS request that carries an [Origin] and
    an [Access-Control-Request-Method] header. *)
Definition has_header (key : string) (scope : Scope) : bool :=
  existsb (fun kv => String.eqb (fst kv) key) (headers scope).

Definition preflight (scope : Scope) : bool :=
  String.eqb (method (request scope)) "OPTIONS"
  && has_header "origin" scope
  && has_header "access-control-request-method" scope.

(** A request for a path with a method, under any headers. *)
Definition request_for (mth p : string) (hs : list (string * string)) : Scope :=
  {| request := {| method := mth; path := p |}; headers := hs |}.

(** Settings whose texts are well-formed: the three that reach a
    response. *)
Definition text (cfg : config.Settings) : bool :=
  Py.utf8 (config.ENVIRONMENT cfg) && Py.utf8 (config.API_VERSION cfg)
  && Py.utf8 (config.API_PREFIX cfg).

(** The literal characters of a scanned template and of a pattern. *)
Fixpoint lit_count (ps : list routing.piece) : nat :=
  match ps with
  | [] => O
  | routing.Lit _ :: ps' => S (lit_count ps')
  | routing.Param _ _ :: ps' => lit_count ps'
  end.

Fixpoint chr_count (atoms : list routing.atom) : nat :=
  match atoms with
  | [] => O
  | routing.Chr _ :: atoms' => S (chr_count atoms')
  | routing.Group _ _ :: atoms' => chr_count atoms'
  end.

(** Inside a character the reader of UTF-8 expects a byte from 128 on. *)
Definition inside_ok (st : Py.utf8_state) : Prop :=
  match st with
  | Py.Boundary => True
  | Py.Inside _ lo _ => (128 <= lo)%N
  end.


(** The answer of the schema route. *)
Definition schema_response (cfg : config.Settings) : Response :=
  {| status_code := 200;
     body := OpenAPISchema "FastAPI Cloud Deployment" (config.API_VERSION cfg)
               "Production-ready FastAPI application for multi-cloud deployment" |}.

Definition docs_response : Response :=
  {| status_code := 200;
     body := SwaggerUI "/openapi.json" "FastAPI Cloud Deployment - Swagger UI"
               "/docs/oauth2-redirect" |}.

Definition redoc_response : Response :=
  {| status_code := 200;
     body := ReDoc "/openapi.json" "FastAPI Cloud Deployment - ReDoc" |}.

(** The answers the router of the application can give to a request,
    under the settings [cfg] the application was built with. *)
Inductive outcome (cfg : config.Settings) (scope : Request) (st : config.module)
  : Response -> Prop :=
  | out_schema : outcome cfg scope st (schema_response cfg)
  | out_docs : outcome cfg scope st docs_response
  | out_oauth2 :
      outcome cfg scope st {| status_code := 200; body := SwaggerUIRedirect |}
  | out_redoc : outcome cfg scope st redoc_response
  | out_health : outcome cfg scope st health_response
  | out_hello : outcome cfg scope st (hello_response "Hello, World!")
  | out_hello_name name :
      path scope = config.API_PREFIX cfg +:+ "/hello/" +:+ name ->
      segment name = true ->
      outcome cfg scope st (hello_response ("Hello, " +:+ name +:+ "!"))
  | out_root : outcome cfg scope st (root_response (config.Settings_class st))
  | out_405 : outcome cfg scope st (http_exception 405 "Method Not Allowed")
  | out_404 : outcome cfg scope st (http_exception 404 "Not Found")
  | out_307 :
      outcome cfg scope st
        {| status_code := 307;
           body := Redirect (routing.toggle_slash (path scope)) |}.

(** A run of slashes. *)
Fixpoint slashes (k : nat) : string :=
  match k with
  | O => EmptyString
  | S k' => String "/" (slashes k')
  end.

(** *** Integer text

    What the documentation of [int] calls an integer literal in base
    10: white space, an optional sign, decimal digits in groups
    separated by single underscores, white space. *)



(** The place of a character in a text, counted from [i]. *)
Fixpoint place (c : ascii) (s : string) (i : Z) : option Z :=
  match s with
  | EmptyString => None
  | String a s' => if Ascii.eqb c a then Some i else place c s' (i + 1)%Z
  end.

(** A decimal digit is worth its place among the ten. *)
Definition digit (c : ascii) : option Z := place c "0123456789" 0.

Definition digits (s : string) : bool :=
  negb (String.eqb s EmptyString)
  && Py.forallb_str (fun c => match digit c with Some _ => true | None => false end) s.



End spec.

(** * Properties *)

(** ** Strings *)

Lemma append_nil_r (s : string) : s +:+ "" = s.
Proof. induction s as [|c s IH]; simpl; [reflexivity | now rewrite IH]. Qed.

Lemma append_assoc (a b c : string) : (a +:+ b) +:+ c = a +:+ (b +:+ c).
Proof. induction a as [|x a IH]; simpl; [reflexivity | now rewrite IH]. Qed.

Lemma append_length (a b : string) :
  String.length (a +:+ b) = (String.length a + String.length b)%nat.
Proof. induction a as [|x a IH]; simpl; [reflexivity | now rewrite IH]. Qed.

Lemma append_inv_head (p a b : string) : p +:+ a = p +:+ b -> a = b.
Proof. induction p as [|x p IH]; simpl; intros H; [exact H | injection H; auto]. Qed.

Lemma split_not_nil sep s : Py.split sep s <> [].
Proof.
  destruct s as [|c s]; simpl; [discriminate|].
  destruct (Ascii.eqb c sep); [discriminate|].
  destruct (Py.split sep s); discriminate.
Qed.

Lemma join_cons_cons sep w w' ws :
  Py.join sep (w :: w' :: ws) = w +:+ sep +:+ Py.join sep (w' :: ws).
Proof. reflexivity. Qed.

Lemma join_split sep s : Py.join (String sep "") (Py.split sep s) = s.
Proof.
  induction s as [|c s IH]; [reflexivity|].
  pose proof (split_not_nil sep s) as Hne.
  cbn [Py.split]. destruct (Ascii.eqb_spec c sep) as [->|Hc].
  - destruct (Py.split sep s) as [|w ws]; [congruence|].
    rewrite join_cons_cons, IH. reflexivity.
  - destruct (Py.split sep s) as [|w ws]; [congruence|].
    destruct ws as [|w' ws].
    + simpl in *. congruence.
    + rewrite join_cons_cons in *. rewrite <- IH. reflexivity.
Qed.

Lemma split_items_free sep s :
  Forall (fun w => spec.free_of sep w = true) (Py.split sep s).
Proof.
  induction s as [|c s IH]; [repeat constructor|].
  cbn [Py.split]. destruct (Ascii.eqb_spec c sep) as [->|Hc].
  - constructor; [reflexivity | exact IH].
  - destruct (Py.split sep s) as [|w ws]; [repeat constructor|].
    + unfold spec.free_of; simpl.
      destruct (Ascii.eqb_spec c sep); [contradiction | reflexivity].
    + inversion IH as [|? ? Hw Hws]; subst. constructor; [|exact Hws].
      unfold spec.free_of in *; simpl. rewrite Hw.
      destruct (Ascii.eqb_spec c sep); [contradiction | reflexivity].
Qed.

Lemma split_length sep s :
  length (Py.split sep s) = S (spec.count sep s).
Proof.
  induction s as [|c s IH]; [reflexivity|].
  cbn [Py.split spec.count]. destruct (Ascii.eqb c sep); simpl.
  - now rewrite IH.
  - destruct (Py.split sep s); simpl in *; congruence.
Qed.

Lemma split_free sep s : spec.free_of sep s = true -> Py.split sep s = [s].
Proof.
  unfold spec.free_of. induction s as [|c s IH]; [reflexivity|].
  simpl. intros H. apply andb_true_iff in H as [Hc Hs].
  destruct (Ascii.eqb c sep); [discriminate|]. now rewrite IH.
Qed.

Lemma split_free_app sep w rest :
  spec.free_of sep w = true ->
  Py.split sep (w +:+ String sep rest) = w :: Py.split sep rest.
Proof.
  unfold spec.free_of. induction w as [|c w IH]; simpl; intros H.
  - now rewrite Ascii.eqb_refl.
  - apply andb_true_iff in H as [Hc Hs].
    destruct (Ascii.eqb c sep); [discriminate|]. now rewrite IH.
Qed.

Lemma split_join sep items :
  items <> [] -> Forall (fun w => spec.free_of sep w = true) items ->
  Py.split sep (Py.join (String sep "") items) = items.
Proof.
  induction items as [|w ws IH]; [congruence|].
  intros _ Hall. inversion Hall as [|? ? Hw Hws]; subst.
  destruct ws as [|w' ws].
  - simpl. now apply split_free.
  - cbn [Py.join]. change (String sep "" +:+ ?x) with (String sep x).
    rewrite split_free_app by exact Hw. f_equal. apply IH; [discriminate | exact Hws].
Qed.

(** The comma-split of a string exists and is unique: [Py.split] is it. *)
Lemma comma_split_unique s items :
  spec.comma_split s items <-> Py.split "," s = items.
Proof.
  unfold spec.comma_split. split.
  - intros (Hne & Hfree & <-). now apply split_join.
  - intros <-. split; [apply split_not_nil|].
    split; [apply split_items_free | apply join_split].
Qed.

Lemma lower_char_t c : Py.lower_char c = "t"%char <-> (c = "t" \/ c = "T")%char.
Proof.
  split.
  - destruct c as [[] [] [] [] [] [] [] []]; intros H; try discriminate H; auto.
  - intros [-> | ->]; reflexivity.
Qed.

Lemma lower_char_r c : Py.lower_char c = "r"%char <-> (c = "r" \/ c = "R")%char.
Proof.
  split.
  - destruct c as [[] [] [] [] [] [] [] []]; intros H; try discriminate H; auto.
  - intros [-> | ->]; reflexivity.
Qed.

Lemma lower_char_u c : Py.lower_char c = "u"%char <-> (c = "u" \/ c = "U")%char.
Proof.
  split.
  - destruct c as [[] [] [] [] [] [] [] []]; intros H; try discriminate H; auto.
  - intros [-> | ->]; reflexivity.
Qed.

Lemma lower_char_e c : Py.lower_char c = "e"%char <-> (c = "e" \/ c = "E")%char.
Proof.
  split.
  - destruct c as [[] [] [] [] [] [] [] []]; intros H; try discriminate H; auto.
  - intros [-> | ->]; reflexivity.
Qed.

Lemma lower_true s : Py.lower s = "true" <-> spec.spells_true s.
Proof.
  unfold spec.spells_true. split.
  - destruct s as [|c1 [|c2 [|c3 [|c4 [|c5 s]]]]]; simpl; intros H;
      try discriminate H.
    injection H as H1 H2 H3 H4.
    exists c1, c2, c3, c4. split; [reflexivity|].
    rewrite <- lower_char_t, <- lower_char_r, <- lower_char_u, <- lower_char_e.
    now repeat split.
  - intros (c1 & c2 & c3 & c4 & -> & H1 & H2 & H3 & H4). simpl.
    apply lower_char_t in H1. apply lower_char_r in H2.
    apply lower_char_u in H3. apply lower_char_e in H4. congruence.
Qed.

(** ** [int] *)






(** ** [config.py] *)

Lemma getenv_set (environ : gmap string string) key dflt v :
  environ !! key = Some v -> config.getenv environ key dflt = v.
Proof. unfold config.getenv. now intros ->. Qed.

Lemma getenv_unset (environ : gmap string string) key dflt :
  environ !! key = None -> config.getenv environ key dflt = dflt.
Proof. unfold config.getenv. now intros ->. Qed.

(** What a successful run of the class body computed. *)
Lemma Settings_body_inv (environ : gmap string string) cfg :
  config.Settings_body environ = Return cfg ->
  Py.int (config.getenv environ "PORT" "8080") = Return (config.PORT cfg)
  /\ config.ENVIRONMENT cfg = config.getenv environ "ENVIRONMENT" "development"
  /\ config.DEBUG cfg
     = String.eqb (Py.lower (config.getenv environ "DEBUG" "false")) "true"
  /\ config.LOG_LEVEL cfg = config.getenv environ "LOG_LEVEL" "INFO"
  /\ config.API_PREFIX cfg = config.getenv environ "API_PREFIX" "/api"
  /\ config.API_VERSION cfg = config.getenv environ "API_VERSION" "1.0.0"
  /\ config.CORS_ORIGINS cfg
     = Py.split "," (config.getenv environ "CORS_ORIGINS" "*")
  /\ config.HOST cfg = config.getenv environ "HOST" "0.0.0.0".
Proof.
  unfold config.Settings_body.
  destruct (Py.int _) as [p|e]; simpl; [|discriminate].
  intros [= <-]. simpl. repeat split.
Qed.


Lemma get_settings_miss m :
  config.cache m = None ->
  config.get_settings m
  = (config.next_object m,
     {| config.Settings_class := config.Settings_class m;
        config.next_object := S (config.next_object m);
        config.cache := Some (config.next_object m);
        config.hits := config.hits m;
        config.misses := S (config.misses m) |}).
Proof. unfold config.get_settings. now intros ->. Qed.

Lemma get_settings_hit m obj :
  config.cache m = Some obj ->
  config.get_settings m
  = (obj,
     {| config.Settings_class := config.Settings_class m;
        config.next_object := config.next_object m;
        config.cache := Some obj;
        config.hits := S (config.hits m);
        config.misses := config.misses m |}).
Proof. unfold config.get_settings. now intros ->. Qed.

(** Once the cache is filled, every further call is a hit on the same
    object; only the hit counter moves. *)
Lemma call_get_settings_cached n : forall m obj,
  config.cache m = Some obj ->
  config.call_get_settings n m
  = (repeat obj n,
     {| config.Settings_class := config.Settings_class m;
        config.next_object := config.next_object m;
        config.cache := Some obj;
        config.hits := (n + config.hits m)%nat;
        config.misses := config.misses m |}).
Proof.
  induction n as [|n IH]; intros m obj Hc.
  - destruct m; simpl in *. now subst.
  - cbn [config.call_get_settings]. unfold sbind.
    rewrite (get_settings_hit m obj Hc).
    erewrite IH by reflexivity. unfold sret. cbn.
    do 3 f_equal. lia.
Qed.

(** C3.  From the state the import of [config] leaves, the first call
    of [get_settings] is a cache miss that creates the one [Settings]
    object; each of the [n] calls after it is a hit that returns the very
    same object, through which the same class attributes are read. *)
Theorem get_settings_memoized (environ : gmap string string) (m0 : config.module) (n : nat) :
  config.import environ = Return m0 ->
  let first := fst (config.get_settings m0) in
  let after := snd (config.call_get_settings (S n) m0) in
  fst (config.call_get_settings (S n) m0) = repeat first (S n)
  /\ config.cache after = Some first
  /\ config.misses after = 1%nat /\ config.hits after = n
  /\ config.Settings_class after = config.Settings_class m0
  /\ (forall A (field : config.Settings -> A),
        config.getattr after first field = config.getattr m0 first field).
Proof.
  unfold config.import. destruct (config.Settings_body environ) as [cls|e];
    simpl; [|discriminate].
  intros [= <-].
  cbn [config.call_get_settings]. unfold sbind.
  rewrite get_settings_miss by reflexivity. cbn [fst snd].
  erewrite call_get_settings_cached by reflexivity.
  unfold sret. cbn. repeat split. lia.
Qed.

Lemma get_settings_memoized_witness :
  config.import ∅
  = Return {| config.Settings_class :=
                {| config.ENVIRONMENT := "development"; config.DEBUG := false;
                   config.LOG_LEVEL := "INFO"; config.API_PREFIX := "/api";
                   config.API_VERSION := "1.0.0"; config.CORS_ORIGINS := ["*"];
                   config.HOST := "0.0.0.0"; config.PORT := 8080 |};
              config.next_object := 0; config.cache := None;
              config.hits := 0; config.misses := 0 |}
  /\ fst (config.call_get_settings 3
            {| config.Settings_class :=
                 {| config.ENVIRONMENT := "development"; config.DEBUG := false;
                    config.LOG_LEVEL := "INFO"; config.API_PREFIX := "/api";
                    config.API_VERSION := "1.0.0"; config.CORS_ORIGINS := ["*"];
                    config.HOST := "0.0.0.0"; config.PORT := 8080 |};
               config.next_object := 0; config.cache := None;
               config.hits := 0; config.misses := 0 |})
     = [0; 0; 0]%nat.
Proof.
  split; [reflexivity|].
  exact (proj1 (get_settings_memoized ∅ _ 2 eq_refl)).
Defined.

(** ** Path templates and matching *)

Import routing.

Lemma literal_app a b : spec.literal (a +:+ b) = spec.literal a && spec.literal b.
Proof.
  unfold spec.literal, spec.free_of. induction a as [|c a IH]; simpl; [reflexivity|].
  now rewrite IH, andb_assoc.
Qed.

Lemma chrs_app a b : spec.chrs (a +:+ b) = spec.chrs a ++ spec.chrs b.
Proof. induction a as [|c a IH]; simpl; [reflexivity | now rewrite IH]. Qed.

Lemma scan_literal p rest :
  spec.literal p = true -> scan (p +:+ rest) 0 = spec.lits p ++ scan rest 0.
Proof.
  unfold spec.literal, spec.free_of. induction p as [|c p IH]; simpl; intros H; [reflexivity|].
  apply andb_true_iff in H as [Hc Hp].
  destruct (Ascii.eqb c "{"); [discriminate|]. now rewrite IH.
Qed.

Lemma to_atoms_lits p ps :
  to_atoms (spec.lits p ++ ps)
  = rbind (to_atoms ps) (fun r => Return (spec.chrs p ++ r)).
Proof.
  induction p as [|c p IH]; simpl.
  - now destruct (to_atoms ps).
  - rewrite IH. now destruct (to_atoms ps).
Qed.

Lemma group_names_chrs p atoms : group_names (spec.chrs p ++ atoms) = group_names atoms.
Proof. induction p as [|c p IH]; simpl; [reflexivity | exact IH]. Qed.

(** A literal prefix compiles to its characters, followed by what the
    rest of the template compiles to. *)
Lemma compile_path_prefix p rest atoms :
  spec.literal p = true -> compile_path rest = Return atoms ->
  compile_path (p +:+ rest) = Return (spec.chrs p ++ atoms).
Proof.
  unfold compile_path. intros Hp.
  rewrite (scan_literal p rest Hp), to_atoms_lits.
  destruct (to_atoms (scan rest 0)) as [r|e]; simpl; [|discriminate].
  rewrite group_names_chrs.
  destruct (has_duplicates (group_names r)); [discriminate|].
  now intros [= ->].
Qed.

Lemma regex_chrs_app l atoms s :
  regex_match (spec.chrs l ++ atoms) (l +:+ s) = regex_match atoms s.
Proof.
  induction l as [|c l IH]; simpl; [reflexivity|].
  now rewrite Ascii.eqb_refl.
Qed.

Lemma regex_chrs_inv l atoms s gs :
  regex_match (spec.chrs l ++ atoms) s = Some gs ->
  exists s', s = l +:+ s' /\ regex_match atoms s' = Some gs.
Proof.
  revert s. induction l as [|c l IH]; simpl; intros s H.
  - now exists s.
  - destruct s as [|a s]; [discriminate|].
    destruct (Ascii.eqb_spec a c) as [->|]; [|discriminate].
    destruct (IH s H) as (s' & -> & Hs'). now exists s'.
Qed.

Lemma regex_end s gs :
  regex_match [] s = Some gs <-> gs = [] /\ (s = "" \/ s = spec.newline).
Proof.
  simpl. destruct (String.eqb_spec s "") as [->|H1]; simpl.
  - split; [intros [= <-]; auto | intros [-> _]; reflexivity].
  - destruct (String.eqb_spec s (String "010" "")) as [->|H2].
    + split; [intros [= <-]; auto | intros [-> _]; reflexivity].
    + split; [discriminate | intros [_ [?|?]]; contradiction].
Qed.

Lemma take_all s : take (String.length s) s = s.
Proof. induction s as [|c s IH]; simpl; [reflexivity | now rewrite IH]. Qed.

Lemma drop_all s : drop (String.length s) s = "".
Proof. induction s as [|c s IH]; simpl; [reflexivity | exact IH]. Qed.

Lemma longest_some {A} (try : nat -> option A) k r :
  longest try k = Some r -> exists j, try j = Some r.
Proof.
  induction k as [|k IH]; simpl.
  - destruct (try 0%nat) eqn:E; [intros [= <-]; eauto | discriminate].
  - destruct (try (S k)) eqn:E; [intros [= <-]; eauto | exact IH].
Qed.

Lemma longest_first {A} (try : nat -> option A) k r :
  try k = Some r -> longest try k = Some r.
Proof. intros H. destruct k; simpl; now rewrite H. Qed.

Lemma regex_group_eq name conv atoms s :
  regex_match (Group name conv :: atoms) s
  = longest
      (fun k =>
         if accepts conv (take k s) then
           match regex_match atoms (drop k s) with
           | Some groups => Some ((name, conv, take k s) :: groups)
           | None => None
           end
         else None)
      (String.length s).
Proof. reflexivity. Qed.

(** The parameter at the end of a template takes a whole segment. *)
Lemma regex_segment name s :
  spec.segment s = true ->
  regex_match [Group name StringConvertor] s = Some [(name, StringConvertor, s)].
Proof.
  intros Hs. rewrite regex_group_eq. apply longest_first.
  rewrite take_all, drop_all.
  change (accepts StringConvertor s) with (spec.segment s). rewrite Hs.
  reflexivity.
Qed.

Lemma APIRoute_inv {W} p (ep : gmap string string -> State W Response) ms r :
  APIRoute p ep ms = Return r ->
  route_path r = p /\ compile_path p = Return (path_regex r)
  /\ methods r = ms /\ endpoint r = ep.
Proof.
  unfold APIRoute. destruct (compile_path p) as [re|e]; simpl; [|discriminate].
  intros [= <-]. simpl. auto.
Qed.

Lemma Route_init_inv {W} p (ep : gmap string string -> State W Response) r :
  Route_init p ep = Return r ->
  route_path r = p /\ compile_path p = Return (path_regex r)
  /\ methods r = ["GET"; "HEAD"] /\ endpoint r = ep.
Proof.
  unfold Route_init, assert. destruct (Py.startswith p "/"); simpl; [|discriminate].
  destruct (compile_path p) as [re|e]; simpl; [|discriminate].
  intros [= <-]. simpl. auto.
Qed.

Lemma route_is_intro {W} (r : Route W) p ms ep ep' :
  route_path r = p /\ compile_path p = Return (path_regex r)
  /\ methods r = ms /\ endpoint r = ep ->
  (forall params st, ep params st = (ep' params st, st)) ->
  spec.route_is r p ms ep'.
Proof.
  intros (H1 & H2 & H3 & H4) Hep. unfold spec.route_is.
  repeat split; try assumption. intros params st. rewrite H4. apply Hep.
Qed.

Lemma import_inv (environ : gmap string string) g m :
  main.import environ = Return (g, m) ->
  exists cls r1 r2 r3 r4 r5 r6 r7 r8,
    config.Settings_body environ = Return cls
    /\ m = {| config.Settings_class := cls; config.next_object := 1;
              config.cache := Some 0%nat; config.hits := 0; config.misses := 1 |}
    /\ main.settings g = 0%nat
    /\ main.debugger g = config.DEBUG cls
    /\ fastapi.version (main.app g) = config.API_VERSION cls
    /\ fastapi.docs_url (main.app g) = config.API_PREFIX cls +:+ "/docs"
    /\ fastapi.redoc_url (main.app g) = config.API_PREFIX cls +:+ "/redoc"
    /\ fastapi.user_middleware (main.app g)
       = [ {| fastapi.allow_origins := config.CORS_ORIGINS cls;
              fastapi.allow_credentials := true;
              fastapi.allow_methods := ["*"];
              fastapi.allow_headers := ["*"] |} ]
    /\ fastapi.routes (main.app g) = [r1; r2; r3; r4; r5; r6; r7; r8]
    /\ spec.route_is r1 "/openapi.json" ["GET"; "HEAD"]
         (fun _ _ => {| status_code := 200;
                        body := OpenAPISchema "FastAPI Cloud Deployment"
                                  (config.API_VERSION cls)
                                  "Production-ready FastAPI application for multi-cloud deployment" |})
    /\ spec.route_is r2 (config.API_PREFIX cls +:+ "/docs") ["GET"; "HEAD"]
         (fun _ _ => {| status_code := 200;
                        body := SwaggerUI "/openapi.json"
                                  "FastAPI Cloud Deployment - Swagger UI"
                                  "/docs/oauth2-redirect" |})
    /\ spec.route_is r3 "/docs/oauth2-redirect" ["GET"; "HEAD"]
         (fun _ _ => {| status_code := 200; body := SwaggerUIRedirect |})
    /\ spec.route_is r4 (config.API_PREFIX cls +:+ "/redoc") ["GET"; "HEAD"]
         (fun _ _ => {| status_code := 200;
                        body := ReDoc "/openapi.json" "FastAPI Cloud Deployment - ReDoc" |})
    /\ spec.route_is r5 (config.API_PREFIX cls +:+ "/health") ["GET"]
         (fun _ _ => spec.health_response)
    /\ spec.route_is r6 (config.API_PREFIX cls +:+ "/hello") ["GET"]
         (fun _ _ => spec.hello_response "Hello, World!")
    /\ spec.route_is r7 (config.API_PREFIX cls +:+ "/hello/{name}") ["GET"]
         (fun params _ =>
            match params !! "name" with
            | Some name => spec.hello_response ("Hello, " +:+ name +:+ "!")
            | None => {| status_code := 422; body := ValidationErrors ["name"] |}
            end)
    /\ spec.route_is r8 "/" ["GET"]
         (fun _ st => spec.root_response (config.Settings_class st)).
Proof.
  unfold main.import.
  change (@health.router config.module) with
    (Return [ {| route_path := "/health"; path_regex := spec.chrs "/health";
                 methods := ["GET"];
                 endpoint := fastapi.path_operation (W:=config.module) []
                               (fun _ => Some health.get_health)
                               health.HealthResponse_json;
                 in_schema := true |} ]).
  change (@hello.router config.module) with
    (Return [ {| route_path := "/hello"; path_regex := spec.chrs "/hello";
                 methods := ["GET"];
                 endpoint := fastapi.path_operation (W:=config.module) []
                               (fun _ => Some hello.get_hello)
                               hello.HelloResponse_json;
                 in_schema := true |};
              {| route_path := "/hello/{name}";
                 path_regex := spec.chrs "/hello/" ++ [Group "name" StringConvertor];
                 methods := ["GET"];
                 endpoint := fastapi.path_operation (W:=config.module) ["name"]
                               (fun params => hello.get_hello_name <$> params !! "name")
                               hello.HelloResponse_json;
                 in_schema := true |} ]).
  cbn [rbind]. unfold config.import.
  destruct (config.Settings_body environ) as [cls|e]; cbn [rbind]; [|discriminate].
  rewrite get_settings_miss by reflexivity.
  unfold config.getattr. cbn [config.Settings_class config.next_object].
  unfold fastapi.FastAPI_init, assert.
  cbn [String.eqb negb rbind Ascii.eqb Bool.eqb].
  destruct (String.eqb (config.API_VERSION cls) "") eqn:Hv; cbn [negb rbind]; [discriminate|].
  destruct (Route_init "/openapi.json" _) as [r1|] eqn:E1; cbn [rbind]; [|discriminate].
  destruct (Route_init (config.API_PREFIX cls +:+ "/docs") _) as [r2|] eqn:E2; cbn [rbind]; [|discriminate].
  destruct (Route_init "/docs/oauth2-redirect" _) as [r3|] eqn:E3; cbn [rbind]; [|discriminate].
  destruct (Route_init (config.API_PREFIX cls +:+ "/redoc") _) as [r4|] eqn:E4; cbn [rbind]; [|discriminate].
  unfold fastapi.app_include_router, fastapi.app_get, fastapi.add_middleware,
    fastapi.with_routes, include_router, router_get, assert.
  cbn [fastapi.routes fastapi.title fastapi.version fastapi.description
       fastapi.openapi_url fastapi.docs_url fastapi.redoc_url
       fastapi.user_middleware fastapi.swagger_ui_oauth2_redirect_url].
  destruct (negb (config.API_PREFIX cls =? "")%string) eqn:Hne;
    [ destruct (Py.startswith (config.API_PREFIX cls) "/") eqn:Hs;
        cbn [rbind]; [|discriminate];
      destruct (negb (Py.endswith_char (config.API_PREFIX cls) "/")) eqn:He;
        cbn [rbind]; [|discriminate]
    | cbn [existsb route_path String.eqb orb rbind] ].
  all: cbn [rbind add_api_routes route_path endpoint methods fastapi.routes app].
  all: destruct (APIRoute (config.API_PREFIX cls +:+ "/health") _ _) as [r5|] eqn:E5;
    cbn [rbind add_api_routes route_path endpoint methods fastapi.routes app];
    [|discriminate].
  all: destruct (APIRoute (config.API_PREFIX cls +:+ "/hello") _ _) as [r6|] eqn:E6;
    cbn [rbind add_api_routes route_path endpoint methods fastapi.routes app];
    [|discriminate].
  all: destruct (APIRoute (config.API_PREFIX cls +:+ "/hello/{name}") _ _) as [r7|] eqn:E7;
    cbn [rbind add_api_routes route_path endpoint methods fastapi.routes app];
    [|discriminate].
  all: destruct (APIRoute "/" _ _) as [r8|] eqn:E8; cbn [rbind]; [|discriminate].
  all: intros [= <- <-]; exists cls, r1, r2, r3, r4, r5, r6, r7, r8.
  all: cbn [main.settings main.debugger main.app fastapi.routes fastapi.version
            fastapi.docs_url fastapi.redoc_url fastapi.user_middleware app].
  all: repeat (split; [reflexivity|]).
  all: (split; [eapply route_is_intro; [eapply Route_init_inv; exact E1 | reflexivity]|]).
  all: (split; [eapply route_is_intro; [eapply Route_init_inv; exact E2 | reflexivity]|]).
  all: (split; [eapply route_is_intro; [eapply Route_init_inv; exact E3 | reflexivity]|]).
  all: (split; [eapply route_is_intro; [eapply Route_init_inv; exact E4 | reflexivity]|]).
  all: (split; [eapply route_is_intro; [eapply APIRoute_inv; exact E5 | reflexivity]|]).
  all: (split; [eapply route_is_intro; [eapply APIRoute_inv; exact E6 | reflexivity]|]).
  all: (split;
        [eapply route_is_intro;
         [eapply APIRoute_inv; exact E7
         |intros params st; unfold fastapi.path_operation;
          destruct (params !! "name"); reflexivity]|]).
  all: (eapply route_is_intro; [eapply APIRoute_inv; exact E8 | reflexivity]).
Qed.

Lemma regex_literal l s :
  regex_match (spec.chrs l) s
  = if String.eqb s l || String.eqb s (l +:+ spec.newline) then Some [] else None.
Proof.
  destruct (regex_match (spec.chrs l) s) as [gs|] eqn:E.
  - rewrite <- (app_nil_r (spec.chrs l)) in E.
    apply regex_chrs_inv in E as (s' & -> & E).
    apply regex_end in E as [-> [-> | ->]].
    + now rewrite append_nil_r, String.eqb_refl.
    + now rewrite String.eqb_refl, orb_true_r.
  - destruct (String.eqb_spec s l) as [->|H1]; simpl.
    + pose proof (regex_chrs_app l [] "") as H.
      rewrite app_nil_r, append_nil_r in H. rewrite H in E. discriminate E.
    + destruct (String.eqb_spec s (l +:+ spec.newline)) as [->|H2]; [|reflexivity].
      rewrite <- (app_nil_r (spec.chrs l)) in E.
      rewrite regex_chrs_app in E. discriminate E.
Qed.

Lemma take_drop j s : take j s +:+ drop j s = s.
Proof.
  revert s. induction j as [|j IH]; intros [|c s]; simpl; try reflexivity.
  now rewrite IH.
Qed.

Lemma free_of_app sep a b :
  spec.free_of sep (a +:+ b) = spec.free_of sep a && spec.free_of sep b.
Proof.
  unfold spec.free_of. induction a as [|c a IH]; simpl; [reflexivity|].
  now rewrite IH, andb_assoc.
Qed.

(** The string parameter at the end of a template takes the rest of the
    path whole, when that is one segment, and nothing otherwise. *)
Lemma regex_segment_eq name s :
  regex_match [Group name StringConvertor] s
  = if spec.segment s then Some [(name, StringConvertor, s)] else None.
Proof.
  destruct (spec.segment s) eqn:Hs; [now apply regex_segment|].
  destruct (regex_match _ s) as [gs|] eqn:E; [exfalso | reflexivity].
  rewrite regex_group_eq in E. apply longest_some in E as (j & E).
  destruct (accepts StringConvertor (take j s)) eqn:Ha; [|discriminate].
  destruct (regex_match [] (drop j s)) as [gs'|] eqn:E'; [|discriminate].
  apply regex_end in E' as [_ Hd].
  assert (Hfree : spec.free_of "/" (drop j s) = true)
    by (destruct Hd as [-> | ->]; reflexivity).
  change (accepts StringConvertor (take j s)) with (spec.segment (take j s)) in Ha.
  unfold spec.segment in Ha, Hs. apply andb_true_iff in Ha as [Hne Hf].
  rewrite <- (take_drop j s), free_of_app, Hf, Hfree in Hs.
  destruct (take j s); [discriminate Hne | discriminate Hs].
Qed.

Section Matching.
Context {W : Type}.
Implicit Types (r : Route W) (scope : Request).

(** A route without parameters matches its own path, with or without a
    final spec.newline, and nothing else. *)
Lemma matches_literal r l scope :
  path_regex r = spec.chrs l ->
  matches r scope
  = Return (if String.eqb (path scope) l || String.eqb (path scope) (l +:+ spec.newline)
            then if spec.allows r scope then FULL ∅ else PARTIAL ∅
            else NONE).
Proof.
  intros Hr. unfold matches, spec.allows. rewrite Hr, regex_literal.
  destruct (_ || _); [|reflexivity].
  cbn [convert_groups rbind]. now destruct (existsb _ _).
Qed.

Lemma matches_literal_none r l scope :
  path_regex r = spec.chrs l ->
  path scope <> l -> path scope <> l +:+ spec.newline ->
  matches r scope = Return NONE.
Proof.
  intros Hr H1 H2. rewrite (matches_literal r l scope Hr).
  apply String.eqb_neq in H1, H2. now rewrite H1, H2.
Qed.

Lemma matches_literal_full r l scope :
  path_regex r = spec.chrs l -> path scope = l -> spec.allows r scope = true ->
  matches r scope = Return (FULL ∅).
Proof.
  intros Hr Hp Ha. rewrite (matches_literal r l scope Hr), Hp.
  now rewrite String.eqb_refl, Ha.
Qed.

(** A route that ends in one string parameter. *)
Lemma matches_segment r l name scope v :
  path_regex r = spec.chrs l ++ [Group name StringConvertor] ->
  path scope = l +:+ v -> spec.segment v = true -> spec.allows r scope = true ->
  matches r scope = Return (FULL {[ name := v ]}).
Proof.
  intros Hr Hp Hv Ha. unfold matches.
  rewrite Hr, Hp, regex_chrs_app, (regex_segment name v Hv).
  cbn [convert_groups convert rbind]. fold (spec.allows r scope). now rewrite Ha.
Qed.

Lemma matches_segment_inv r l name scope :
  path_regex r = spec.chrs l ++ [Group name StringConvertor] ->
  matches r scope = Return NONE
  \/ exists v, path scope = l +:+ v /\ spec.segment v = true
       /\ matches r scope
          = Return (if spec.allows r scope then FULL {[ name := v ]}
                    else PARTIAL {[ name := v ]}).
Proof.
  intros Hr. unfold matches. rewrite Hr.
  destruct (regex_match _ (path scope)) as [gs|] eqn:E; [right | now left].
  apply regex_chrs_inv in E as (v & Hs & E).
  rewrite regex_segment_eq in E.
  destruct (spec.segment v) eqn:Hv; [|discriminate]. injection E as <-.
  exists v. repeat split; try assumption.
  cbn [convert_groups convert rbind]. unfold spec.allows.
  now destruct (existsb _ _).
Qed.

End Matching.

Section Router.
Context {W : Type}.
Implicit Types (r : Route W) (routes : list (Route W)) (scope : Request).

Lemma first_match_full r routes scope partial params :
  matches r scope = Return (FULL params) ->
  first_match (r :: routes) scope partial = Return (found_full r params).
Proof. intros H. cbn [first_match]. now rewrite H. Qed.

Lemma first_match_skip r routes scope partial :
  matches r scope = Return NONE ->
  first_match (r :: routes) scope partial = first_match routes scope partial.
Proof. intros H. cbn [first_match]. now rewrite H. Qed.

Lemma first_match_partial r routes scope params :
  matches r scope = Return (PARTIAL params) ->
  first_match (r :: routes) scope None = first_match routes scope (Some r).
Proof. intros H. cbn [first_match]. now rewrite H. Qed.

(** What the first loop found, read back. *)
Lemma first_match_inv routes : forall scope partial f,
  first_match routes scope partial = Return f ->
  match f with
  | found_full r params => In r routes /\ matches r scope = Return (FULL params)
  | found_partial r => partial = Some r \/ In r routes
  | found_none =>
      partial = None /\ Forall (fun r => matches r scope = Return NONE) routes
  end.
Proof.
  induction routes as [|r routes IH]; intros scope partial f; cbn [first_match].
  - intros [= <-]. destruct partial; auto.
  - destruct (matches r scope) as [[|ps|ps]|e] eqn:E; cbn [rbind]; [| | |discriminate].
    + intros H. apply IH in H. destruct f as [r' ps|r'|].
      * destruct H; split; [now right | assumption].
      * destruct H; [now left | right; now right].
      * destruct H; split; [assumption | now constructor].
    + intros H. apply IH in H. destruct f as [r' ps'|r'|].
      * destruct H; split; [now right | assumption].
      * destruct H as [H|H]; [|right; now right].
        destruct partial; injection H as <-; [now left | right; now left].
      * destruct H as [H _]. now destruct partial.
    + intros [= <-]. split; [now left | assumption].
Qed.

Lemma first_match_none routes scope :
  Forall (fun r => matches r scope = Return NONE) routes ->
  forall partial,
    first_match routes scope partial
    = Return (match partial with
              | Some r => found_partial r
              | None => found_none
              end).
Proof.
  induction 1 as [|r routes Hr _ IH]; intros partial; [reflexivity|].
  rewrite (first_match_skip r routes scope partial Hr). apply IH.
Qed.

Lemma any_match_none routes scope :
  Forall (fun r => matches r scope = Return NONE) routes ->
  any_match routes scope = Return false.
Proof.
  induction 1 as [|r routes Hr _ IH]; [reflexivity|].
  cbn [any_match]. rewrite Hr. exact IH.
Qed.

(** No exception leaves the loops when no route's [matches] raises. *)
Lemma first_match_returns routes scope :
  Forall (fun r => exists m, matches r scope = Return m) routes ->
  forall partial, exists f, first_match routes scope partial = Return f.
Proof.
  induction 1 as [|r routes [m Hm] _ IH]; intros partial; cbn [first_match].
  - eauto.
  - rewrite Hm. cbn [rbind]. destruct m; eauto.
Qed.

Lemma any_match_returns routes scope :
  Forall (fun r => exists m, matches r scope = Return m) routes ->
  exists b, any_match routes scope = Return b.
Proof.
  induction 1 as [|r routes [m Hm] _ IH]; cbn [any_match].
  - eauto.
  - rewrite Hm. cbn [rbind]. destruct m; eauto.
Qed.

Lemma Router_app_full r routes scope params st :
  first_match routes scope None = Return (found_full r params) ->
  Router_app routes scope st = endpoint r params st.
Proof. intros H. unfold Router_app. now rewrite H. Qed.

(** Handling a request leaves the state alone when every endpoint does. *)
Lemma Router_app_state routes :
  Forall (fun r => forall params st, snd (endpoint r params st) = st) routes ->
  forall scope st, snd (Router_app routes scope st) = st.
Proof.
  intros Hall scope st. unfold Router_app.
  destruct (first_match routes scope None) as [f|e] eqn:E; [|reflexivity].
  destruct f as [r ps|r|].
  - apply first_match_inv in E as [Hin _].
    rewrite List.Forall_forall in Hall. now apply Hall.
  - reflexivity.
  - destruct (String.eqb (path scope) "/"); [reflexivity|].
    destruct (any_match routes _) as [[]|]; reflexivity.
Qed.

(** The response depends on the state only through the endpoints. *)
Lemma Router_app_response routes (same : W -> W -> Prop) :
  Forall (fun r => forall params st1 st2, same st1 st2 ->
                   fst (endpoint r params st1) = fst (endpoint r params st2)) routes ->
  forall scope st1 st2, same st1 st2 ->
    fst (Router_app routes scope st1) = fst (Router_app routes scope st2).
Proof.
  intros Hall scope st1 st2 Hsame. unfold Router_app.
  destruct (first_match routes scope None) as [f|e] eqn:E; [|reflexivity].
  destruct f as [r ps|r|].
  - apply first_match_inv in E as [Hin _].
    rewrite List.Forall_forall in Hall. now apply Hall.
  - reflexivity.
  - destruct (String.eqb (path scope) "/"); [reflexivity|].
    destruct (any_match routes _) as [[]|]; reflexivity.
Qed.

End Router.

Lemma compile_path_literal p :
  spec.literal p = true -> compile_path p = Return (spec.chrs p).
Proof.
  intros Hp. pose proof (compile_path_prefix p "" [] Hp eq_refl) as H.
  now rewrite append_nil_r, app_nil_r in H.
Qed.

Lemma route_is_literal {W} (r : Route W) p ms ep :
  spec.route_is r p ms ep -> spec.literal p = true -> path_regex r = spec.chrs p.
Proof.
  intros (_ & Hc & _) Hp. rewrite (compile_path_literal p Hp) in Hc. congruence.
Qed.

Lemma route_is_segment {W} (r : Route W) p ms ep :
  spec.route_is r (p +:+ "/hello/{name}") ms ep -> spec.literal p = true ->
  path_regex r = spec.chrs (p +:+ "/hello/") ++ [Group "name" StringConvertor].
Proof.
  intros (_ & Hc & _) Hp.
  rewrite (compile_path_prefix p "/hello/{name}"
             (spec.chrs "/hello/" ++ [Group "name" StringConvertor]) Hp eq_refl) in Hc.
  injection Hc as <-. now rewrite chrs_app, <- app_assoc.
Qed.

(** Two paths differ: either they share the prefix and differ after it,
    or one is a constant, which the other cannot spell. *)
Ltac spell H :=
  repeat match type of H with
         | ?p +:+ _ = _ =>
             is_var p; destruct p; simpl in H;
             [ discriminate H | first [ discriminate H | injection H as _ H ] ]
         end.

Ltac path_neq :=
  let H := fresh "Hneq" in
  intros H; rewrite ?append_assoc in H;
  first [ discriminate H
        | apply append_inv_head in H; simpl in H; discriminate H
        | solve [ simpl in H; spell H ]
        | solve [ symmetry in H; simpl in H; spell H ] ].


Lemma literal_suffix p s :
  spec.literal p = true -> spec.literal s = true -> spec.literal (p +:+ s) = true.
Proof. intros Hp Hs. now rewrite literal_app, Hp, Hs. Qed.

(** The shape of the application a successful import builds, with the
    patterns of its routes when the prefix has no parameter. *)
Ltac app_shape Himport Hlit :=
  destruct (import_inv _ _ _ Himport)
    as (cls & r1 & r2 & r3 & r4 & r5 & r6 & r7 & r8 & Hbody & Hm & Hsettings
        & Hdebugger & Hversion & Hdocs & Hredoc & Hcors & Hroutes
        & H1 & H2 & H3 & H4 & H5 & H6 & H7 & H8);
  rewrite Hm in Hlit; cbn [config.Settings_class] in Hlit;
  pose proof (route_is_literal r1 _ _ _ H1 eq_refl) as Hre1;
  pose proof (route_is_literal r2 _ _ _ H2 (literal_suffix _ "/docs" Hlit eq_refl)) as Hre2;
  pose proof (route_is_literal r3 _ _ _ H3 eq_refl) as Hre3;
  pose proof (route_is_literal r4 _ _ _ H4 (literal_suffix _ "/redoc" Hlit eq_refl)) as Hre4;
  pose proof (route_is_literal r5 _ _ _ H5 (literal_suffix _ "/health" Hlit eq_refl)) as Hre5;
  pose proof (route_is_literal r6 _ _ _ H6 (literal_suffix _ "/hello" Hlit eq_refl)) as Hre6;
  pose proof (route_is_segment r7 _ _ _ H7 Hlit) as Hre7;
  pose proof (route_is_literal r8 _ _ _ H8 eq_refl) as Hre8.

Ltac skip_route Hre :=
  rewrite first_match_skip
    by (eapply matches_literal_none; [exact Hre | cbn [path]; path_neq | cbn [path]; path_neq]).

Ltac take_route Hre Hr :=
  apply first_match_full; eapply matches_literal_full;
  [ exact Hre | reflexivity
  | unfold spec.allows; rewrite (proj1 (proj2 (proj2 Hr))); reflexivity ].

Ltac answer Hr := rewrite (proj2 (proj2 (proj2 Hr))); reflexivity.

Section Dispatch.
Variables (environ : gmap string string) (g : main.globals) (m : config.module).
Hypothesis Himport : main.import environ = Return (g, m).
Hypothesis Hlit : spec.literal (config.API_PREFIX (config.Settings_class m)) = true.

Let prefix := config.API_PREFIX (config.Settings_class m).
Let GET (p : string) : Request := {| method := "GET"; path := p |}.

Lemma handle_docs st :
  fastapi.handle (main.app g) (GET (prefix +:+ "/docs")) st
  = ({| status_code := 200;
        body := SwaggerUI "/openapi.json" "FastAPI Cloud Deployment - Swagger UI"
                  "/docs/oauth2-redirect" |}, st).
Proof using Himport Hlit.
  subst prefix GET. app_shape Himport Hlit. subst m. cbn [config.Settings_class].
  set (p := config.API_PREFIX cls) in *. clearbody p.
  unfold fastapi.handle. rewrite Hroutes.
  erewrite Router_app_full; [answer H2|].
  skip_route Hre1. take_route Hre2 H2.
Qed.

Lemma handle_redoc st :
  fastapi.handle (main.app g) (GET (prefix +:+ "/redoc")) st
  = ({| status_code := 200;
        body := ReDoc "/openapi.json" "FastAPI Cloud Deployment - ReDoc" |}, st).
Proof using Himport Hlit.
  subst prefix GET. app_shape Himport Hlit. subst m. cbn [config.Settings_class].
  set (p := config.API_PREFIX cls) in *. clearbody p.
  unfold fastapi.handle. rewrite Hroutes.
  erewrite Router_app_full; [answer H4|].
  skip_route Hre1. skip_route Hre2. skip_route Hre3. take_route Hre4 H4.
Qed.

Lemma handle_health st :
  fastapi.handle (main.app g) (GET (prefix +:+ "/health")) st
  = (spec.health_response, st).
Proof using Himport Hlit.
  subst prefix GET. app_shape Himport Hlit. subst m. cbn [config.Settings_class].
  set (p := config.API_PREFIX cls) in *. clearbody p.
  unfold fastapi.handle. rewrite Hroutes.
  erewrite Router_app_full; [answer H5|].
  skip_route Hre1. skip_route Hre2. skip_route Hre3. skip_route Hre4.
  take_route Hre5 H5.
Qed.

Lemma handle_hello st :
  fastapi.handle (main.app g) (GET (prefix +:+ "/hello")) st
  = (spec.hello_response "Hello, World!", st).
Proof using Himport Hlit.
  subst prefix GET. app_shape Himport Hlit. subst m. cbn [config.Settings_class].
  set (p := config.API_PREFIX cls) in *. clearbody p.
  unfold fastapi.handle. rewrite Hroutes.
  erewrite Router_app_full; [answer H6|].
  skip_route Hre1. skip_route Hre2. skip_route Hre3. skip_route Hre4.
  skip_route Hre5. take_route Hre6 H6.
Qed.

Lemma handle_hello_name name st :
  spec.segment name = true ->
  fastapi.handle (main.app g) (GET (prefix +:+ "/hello/" +:+ name)) st
  = (spec.hello_response ("Hello, " +:+ name +:+ "!"), st).
Proof using Himport Hlit.
  intros Hname.
  subst prefix GET. app_shape Himport Hlit. subst m. cbn [config.Settings_class].
  set (p := config.API_PREFIX cls) in *. clearbody p.
  unfold fastapi.handle. rewrite Hroutes.
  erewrite Router_app_full.
  - rewrite (proj2 (proj2 (proj2 H7))). now rewrite lookup_singleton_eq.
  - skip_route Hre1. skip_route Hre2. skip_route Hre3. skip_route Hre4.
    skip_route Hre5. skip_route Hre6.
    apply first_match_full.
    eapply (matches_segment r7 _ "name" _ name);
      [ exact Hre7 | cbn [path]; now rewrite append_assoc | exact Hname
      | unfold spec.allows; rewrite (proj1 (proj2 (proj2 H7))); reflexivity ].
Qed.

End Dispatch.

(** ** Starting the application *)

Lemma startswith_slash_app p s :
  Py.startswith p "/" = true -> Py.startswith (p +:+ s) "/" = true.
Proof.
  unfold Py.startswith. destruct p as [|c p]; [discriminate|].
  change (String c p +:+ s) with (String c (p +:+ s)).
  cbn [String.prefix]. destruct (ascii_dec "/" c); [|exact id].
  intros _. now destruct (p +:+ s).
Qed.

Lemma Route_init_ok {W} p (ep : gmap string string -> State W Response) re :
  Py.startswith p "/" = true -> compile_path p = Return re ->
  Route_init p ep
  = Return {| route_path := p; path_regex := re;
              methods := ["GET"; "HEAD"]; endpoint := ep; in_schema := false |}.
Proof. intros Hs Hc. unfold Route_init, assert. now rewrite Hs, Hc. Qed.

Lemma APIRoute_ok {W} p (ep : gmap string string -> State W Response) ms re :
  compile_path p = Return re ->
  APIRoute p ep ms
  = Return {| route_path := p; path_regex := re; methods := ms; endpoint := ep;
              in_schema := true |}.
Proof. intros Hc. unfold APIRoute. now rewrite Hc. Qed.

(** With settings the framework accepts, the import of [main] succeeds
    and leaves [config] with its cache filled by the one call. *)
Lemma import_ok (environ : gmap string string) cfg :
  config.Settings_body environ = Return cfg ->
  spec.startable cfg = true ->
  exists g,
    main.import environ
    = Return (g, {| config.Settings_class := cfg; config.next_object := 1;
                    config.cache := Some 0%nat; config.hits := 0;
                    config.misses := 1 |}).
Proof.
  intros Hbody Hok. unfold spec.startable in Hok.
  apply andb_true_iff in Hok as [Hok Hp]. apply andb_true_iff in Hok as [Hv Hlit].
  set (p := config.API_PREFIX cfg) in *.
  assert (Hslash : forall s, Py.startswith s "/" = true ->
                             Py.startswith (p +:+ s) "/" = true).
  { intros s Hs. apply orb_true_iff in Hp as [Hp|Hp].
    - apply String.eqb_eq in Hp. now rewrite Hp.
    - apply andb_true_iff in Hp as [Hp _]. now apply startswith_slash_app. }
  unfold main.import.
  change (@health.router config.module) with
    (Return [ {| route_path := "/health"; path_regex := spec.chrs "/health";
                 methods := ["GET"];
                 endpoint := fastapi.path_operation (W:=config.module) []
                               (fun _ => Some health.get_health)
                               health.HealthResponse_json;
                 in_schema := true |} ]).
  change (@hello.router config.module) with
    (Return [ {| route_path := "/hello"; path_regex := spec.chrs "/hello";
                 methods := ["GET"];
                 endpoint := fastapi.path_operation (W:=config.module) []
                               (fun _ => Some hello.get_hello)
                               hello.HelloResponse_json;
                 in_schema := true |};
              {| route_path := "/hello/{name}";
                 path_regex := spec.chrs "/hello/" ++ [Group "name" StringConvertor];
                 methods := ["GET"];
                 endpoint := fastapi.path_operation (W:=config.module) ["name"]
                               (fun params => hello.get_hello_name <$> params !! "name")
                               hello.HelloResponse_json;
                 in_schema := true |} ]).
  cbn [rbind]. unfold config.import. rewrite Hbody. cbn [rbind].
  rewrite get_settings_miss by reflexivity.
  unfold config.getattr. cbn [config.Settings_class config.next_object].
  fold p.
  unfold fastapi.FastAPI_init, assert.
  cbn [String.eqb negb rbind Ascii.eqb Bool.eqb].
  rewrite Hv. cbn [rbind].
  rewrite (Route_init_ok "/openapi.json" _ _ eq_refl eq_refl). cbn [rbind].
  rewrite (Route_init_ok (p +:+ "/docs") _ _ (Hslash "/docs" eq_refl)
             (compile_path_literal _ (literal_suffix p "/docs" Hlit eq_refl))).
  cbn [rbind].
  rewrite (Route_init_ok "/docs/oauth2-redirect" _ _ eq_refl eq_refl). cbn [rbind].
  rewrite (Route_init_ok (p +:+ "/redoc") _ _ (Hslash "/redoc" eq_refl)
             (compile_path_literal _ (literal_suffix p "/redoc" Hlit eq_refl))).
  cbn [rbind].
  unfold fastapi.app_include_router, fastapi.app_get, fastapi.add_middleware,
    fastapi.with_routes, include_router, router_get.
  cbn [fastapi.routes fastapi.title fastapi.version fastapi.description
       fastapi.openapi_url fastapi.docs_url fastapi.redoc_url
       fastapi.user_middleware fastapi.swagger_ui_oauth2_redirect_url].
  cbn [existsb route_path String.eqb orb].
  assert (Hchk : String.eqb p "" = true
                 \/ (Py.startswith p "/" = true
                     /\ negb (Py.endswith_char p "/") = true)).
  { apply orb_true_iff in Hp as [Hp|Hp]; [now left | right].
    now apply andb_true_iff in Hp. }
  destruct Hchk as [Hchk | [Hchk1 Hchk2]];
    [ rewrite Hchk | rewrite Hchk1, Hchk2; destruct (String.eqb p "") ].
  all: cbn [negb assert rbind add_api_routes route_path endpoint methods
            fastapi.routes app].
  all: rewrite (APIRoute_ok (p +:+ "/health") _ _ _
             (compile_path_literal _ (literal_suffix p "/health" Hlit eq_refl))).
  all: cbn [rbind add_api_routes route_path endpoint methods fastapi.routes app].
  all: rewrite (APIRoute_ok (p +:+ "/hello") _ _ _
             (compile_path_literal _ (literal_suffix p "/hello" Hlit eq_refl))).
  all: cbn [rbind add_api_routes route_path endpoint methods fastapi.routes app].
  all: rewrite (APIRoute_ok (p +:+ "/hello/{name}") _ _ _
             (compile_path_prefix p "/hello/{name}" _ Hlit eq_refl)).
  all: cbn [rbind add_api_routes route_path endpoint methods fastapi.routes app].
  all: rewrite (APIRoute_ok "/" _ _ _ eq_refl); cbn [rbind].
  all: eexists; reflexivity.
Qed.

(** ** The endpoints of the application *)

Lemma app_endpoints_keep_state (environ : gmap string string) g m :
  main.import environ = Return (g, m) ->
  Forall (fun r => forall params st, snd (endpoint r params st) = st)
    (fastapi.routes (main.app g)).
Proof.
  intros Himport.
  destruct (import_inv _ _ _ Himport)
    as (cls & r1 & r2 & r3 & r4 & r5 & r6 & r7 & r8 & _ & _ & _ & _ & _ & _ & _ & _
        & -> & H1 & H2 & H3 & H4 & H5 & H6 & H7 & H8).
  repeat constructor; intros params st.
  - now rewrite (proj2 (proj2 (proj2 H1))).
  - now rewrite (proj2 (proj2 (proj2 H2))).
  - now rewrite (proj2 (proj2 (proj2 H3))).
  - now rewrite (proj2 (proj2 (proj2 H4))).
  - now rewrite (proj2 (proj2 (proj2 H5))).
  - now rewrite (proj2 (proj2 (proj2 H6))).
  - now rewrite (proj2 (proj2 (proj2 H7))).
  - now rewrite (proj2 (proj2 (proj2 H8))).
Qed.

Lemma app_endpoints_read_settings (environ : gmap string string) g m :
  main.import environ = Return (g, m) ->
  Forall (fun r => forall params st1 st2,
            config.Settings_class st1 = config.Settings_class st2 ->
            fst (endpoint r params st1) = fst (endpoint r params st2))
    (fastapi.routes (main.app g)).
Proof.
  intros Himport.
  destruct (import_inv _ _ _ Himport)
    as (cls & r1 & r2 & r3 & r4 & r5 & r6 & r7 & r8 & _ & _ & _ & _ & _ & _ & _ & _
        & -> & H1 & H2 & H3 & H4 & H5 & H6 & H7 & H8).
  repeat constructor; intros params st1 st2 Hsame.
  - now rewrite !(proj2 (proj2 (proj2 H1))).
  - now rewrite !(proj2 (proj2 (proj2 H2))).
  - now rewrite !(proj2 (proj2 (proj2 H3))).
  - now rewrite !(proj2 (proj2 (proj2 H4))).
  - now rewrite !(proj2 (proj2 (proj2 H5))).
  - now rewrite !(proj2 (proj2 (proj2 H6))).
  - now rewrite !(proj2 (proj2 (proj2 H7))).
  - rewrite !(proj2 (proj2 (proj2 H8))). cbn [fst]. now rewrite Hsame.
Qed.

Lemma matches_literal_returns {W} (r : Route W) l scope :
  path_regex r = spec.chrs l -> exists m, matches r scope = Return m.
Proof. intros Hr. rewrite (matches_literal r l scope Hr). eauto. Qed.

Lemma app_matches_return (environ : gmap string string) g m :
  main.import environ = Return (g, m) ->
  spec.literal (config.API_PREFIX (config.Settings_class m)) = true ->
  Forall (fun r => forall scope, exists mt, matches r scope = Return mt)
    (fastapi.routes (main.app g)).
Proof.
  intros Himport Hlit. app_shape Himport Hlit. rewrite Hroutes.
  repeat constructor; intros scope;
    try (eapply matches_literal_returns; eassumption).
  destruct (matches_segment_inv r7 _ "name" scope Hre7) as [-> | (v & _ & _ & ->)];
    eauto.
Qed.

(** When handling a request leaves the state alone, a run of the server
    is the list of its separate answers. *)
Lemma serve_pure {W} (app : fastapi.FastAPI W) :
  (forall scope st, snd (fastapi.handle app scope st) = st) ->
  forall requests st,
    fastapi.serve app requests st
    = (map (fun rq => fst (fastapi.handle app rq st)) requests, st).
Proof.
  intros Hpure requests st. induction requests as [|rq requests IH]; [reflexivity|].
  cbn [fastapi.serve map]. unfold sbind.
  pose proof (Hpure rq st) as Hrq.
  destruct (fastapi.handle app rq st) as [resp st'] eqn:E. cbn [snd fst] in *.
  subst st'. rewrite IH. reflexivity.
Qed.

Lemma handle_keeps_state (environ : gmap string string) g m :
  main.import environ = Return (g, m) ->
  forall scope st, snd (fastapi.handle (main.app g) scope st) = st.
Proof.
  intros Himport. unfold fastapi.handle.
  apply Router_app_state. now apply (app_endpoints_keep_state environ g m).
Qed.

(** ** Settings the framework accepts *)

Lemma startable_literal cfg :
  spec.startable cfg = true -> spec.literal (config.API_PREFIX cfg) = true.
Proof.
  unfold spec.startable. intros H.
  apply andb_true_iff in H as [H _]. now apply andb_true_iff in H as [_ H].
Qed.

(** The import succeeds, and the settings the application runs under are
    the ones the class body computed. *)
Lemma import_startable (environ : gmap string string) cfg :
  config.Settings_body environ = Return cfg ->
  spec.startable cfg = true ->
  exists g,
    main.import environ = Return (g, spec.after_import cfg)
    /\ spec.literal
         (config.API_PREFIX (config.Settings_class (spec.after_import cfg))) = true.
Proof.
  intros Hbody Hok. destruct (import_ok environ cfg Hbody Hok) as [g Hg].
  exists g. split; [exact Hg | now apply startable_literal].
Qed.

(** ** Requests no route answers *)

Section Router_more.
Context {W : Type}.
Implicit Types (r : Route W) (routes : list (Route W)) (scope : Request).

Lemma first_match_partial_no_full routes : forall scope partial r,
  first_match routes scope partial = Return (found_partial r) ->
  Forall (fun r' => forall params, matches r' scope <> Return (FULL params)) routes.
Proof.
  induction routes as [|r0 routes IH]; intros scope partial r; cbn [first_match].
  - constructor.
  - destruct (matches r0 scope) as [[|ps|ps]|e] eqn:E; cbn [rbind];
      [| |discriminate|discriminate].
    + intros H. constructor; [congruence | exact (IH _ _ _ H)].
    + intros H. constructor; [congruence | exact (IH _ _ _ H)].
Qed.

Lemma Router_app_partial r routes scope st :
  first_match routes scope None = Return (found_partial r) ->
  Router_app routes scope st = (http_exception 405 "Method Not Allowed", st).
Proof. intros H. unfold Router_app. now rewrite H. Qed.

Lemma any_match_skip r routes scope :
  matches r scope = Return NONE ->
  any_match (r :: routes) scope = any_match routes scope.
Proof. intros H. cbn [any_match]. now rewrite H. Qed.

Lemma any_match_hit r routes scope params :
  matches r scope = Return (FULL params) ->
  any_match (r :: routes) scope = Return true.
Proof. intros H. cbn [any_match]. now rewrite H. Qed.

Lemma Router_app_redirect routes scope st :
  first_match routes scope None = Return found_none ->
  path scope <> "/" ->
  any_match routes {| method := method scope; path := toggle_slash (path scope) |}
  = Return true ->
  Router_app routes scope st
  = ({| status_code := 307; body := Redirect (toggle_slash (path scope)) |}, st).
Proof.
  intros H1 Hp H2. unfold Router_app. rewrite H1.
  apply String.eqb_neq in Hp. rewrite Hp. cbn [path method] in *. now rewrite H2.
Qed.

End Router_more.

Lemma endswith_char_app a b c :
  b <> "" -> Py.endswith_char (a +:+ b) c = Py.endswith_char b c.
Proof.
  intros Hb. induction a as [|x a IH]; [reflexivity|].
  change (String x a +:+ b) with (String x (a +:+ b)).
  cbn [Py.endswith_char]. destruct (a +:+ b) eqn:E; [|exact IH].
  destruct a; [simpl in E; contradiction | discriminate E].
Qed.

Lemma rstrip_char_app a b c :
  Py.rstrip_char c b <> "" -> Py.rstrip_char c (a +:+ b) = a +:+ Py.rstrip_char c b.
Proof.
  intros Hb. induction a as [|x a IH]; [reflexivity|].
  change (String x a +:+ b) with (String x (a +:+ b)).
  cbn [Py.rstrip_char]. rewrite IH.
  change (String x a +:+ Py.rstrip_char c b)
    with (String x (a +:+ Py.rstrip_char c b)).
  destruct (a +:+ Py.rstrip_char c b) eqn:E; [|reflexivity].
  destruct a; [simpl in E; contradiction | discriminate E].
Qed.

Ltac skip_segment_route Hre :=
  rewrite first_match_skip;
  [| match goal with
     | |- matches ?r ?scope = _ =>
         let Hn := fresh "Hn" in
         let v := fresh "v" in
         let Hp := fresh "Hp" in
         destruct (matches_segment_inv r _ "name" scope Hre)
           as [Hn | (v & Hp & _)];
         [ exact Hn
         | exfalso; cbn [path] in Hp; revert Hp; path_neq ]
     end ].

Section Dispatch_errors.
Variables (environ : gmap string string) (g : main.globals) (m : config.module).
Hypothesis Himport : main.import environ = Return (g, m).
Hypothesis Hlit : spec.literal (config.API_PREFIX (config.Settings_class m)) = true.

Let prefix := config.API_PREFIX (config.Settings_class m).

(** The health path under another method than GET: the path matches,
    the method does not. *)
Lemma health_other_method mth st :
  existsb (String.eqb mth) ["GET"] = false ->
  Forall (fun r => forall params,
            matches r {| method := mth; path := prefix +:+ "/health" |}
            <> Return (FULL params))
    (fastapi.routes (main.app g))
  /\ fastapi.handle (main.app g)
       {| method := mth; path := prefix +:+ "/health" |} st
     = (http_exception 405 "Method Not Allowed", st).
Proof using Himport Hlit.
  intros Hmethod.
  subst prefix. app_shape Himport Hlit. subst m. cbn [config.Settings_class].
  set (p := config.API_PREFIX cls) in *. clearbody p.
  unfold fastapi.handle. rewrite Hroutes.
  assert (Hfound : first_match [r1; r2; r3; r4; r5; r6; r7; r8]
                     {| method := mth; path := p +:+ "/health" |} None
                   = Return (found_partial r5)).
  { skip_route Hre1. skip_route Hre2. skip_route Hre3. skip_route Hre4.
    rewrite (first_match_partial r5 _ _ ∅).
    2:{ rewrite (matches_literal r5 _ _ Hre5). cbn [path].
        rewrite String.eqb_refl. cbn [orb]. unfold spec.allows.
        rewrite (proj1 (proj2 (proj2 H5))). cbn [method]. now rewrite Hmethod. }
    skip_route Hre6. skip_segment_route Hre7. skip_route Hre8.
    reflexivity. }
  split.
  - exact (first_match_partial_no_full _ _ _ _ Hfound).
  - exact (Router_app_partial _ _ _ st Hfound).
Qed.

(** The health path with a slash too many: no route matches it, the
    path without the slash does. *)
Lemma health_trailing_slash st :
  Forall (fun r => matches r {| method := "GET"; path := prefix +:+ "/health/" |}
                   = Return NONE)
    (fastapi.routes (main.app g))
  /\ fastapi.handle (main.app g)
       {| method := "GET"; path := prefix +:+ "/health/" |} st
     = ({| status_code := 307; body := Redirect (prefix +:+ "/health") |}, st).
Proof using Himport Hlit.
  subst prefix. app_shape Himport Hlit. subst m. cbn [config.Settings_class].
  set (p := config.API_PREFIX cls) in *. clearbody p.
  rewrite Hroutes.
  assert (Hnone : Forall (fun r => matches r {| method := "GET";
                                                 path := p +:+ "/health/" |}
                                   = Return NONE) [r1; r2; r3; r4; r5; r6; r7; r8]).
  { repeat constructor;
      try (eapply matches_literal_none;
           [eassumption | cbn [path]; path_neq | cbn [path]; path_neq]).
    destruct (matches_segment_inv r7 _ "name"
                {| method := "GET"; path := p +:+ "/health/" |} Hre7)
      as [Hn | (v & Hp & _)]; [exact Hn|].
    exfalso. cbn [path] in Hp. revert Hp. path_neq. }
  split; [exact Hnone|].
  assert (Htoggle : toggle_slash (p +:+ "/health/") = p +:+ "/health").
  { unfold toggle_slash.
    rewrite (endswith_char_app p "/health/" "/") by discriminate.
    cbn [Py.endswith_char Ascii.eqb Bool.eqb].
    now rewrite (rstrip_char_app p "/health/" "/") by discriminate. }
  unfold fastapi.handle. rewrite Hroutes.
  rewrite Router_app_redirect; cbn [path method].
  - now rewrite Htoggle.
  - exact (first_match_none _ _ Hnone None).
  - path_neq.
  - rewrite Htoggle.
    rewrite any_match_skip
      by (eapply matches_literal_none; [exact Hre1 | cbn [path]; path_neq | cbn [path]; path_neq]).
    rewrite any_match_skip
      by (eapply matches_literal_none; [exact Hre2 | cbn [path]; path_neq | cbn [path]; path_neq]).
    rewrite any_match_skip
      by (eapply matches_literal_none; [exact Hre3 | cbn [path]; path_neq | cbn [path]; path_neq]).
    rewrite any_match_skip
      by (eapply matches_literal_none; [exact Hre4 | cbn [path]; path_neq | cbn [path]; path_neq]).
    eapply any_match_hit. eapply matches_literal_full;
      [ exact Hre5 | reflexivity
      | unfold spec.allows; rewrite (proj1 (proj2 (proj2 H5))); reflexivity ].
Qed.

End Dispatch_errors.

(** The paths of the routes, in the order of registration, for every
    environment under which the import succeeds. *)
Lemma import_route_paths (environ : gmap string string) g m :
  main.import environ = Return (g, m) ->
  map route_path (fastapi.routes (main.app g))
  = [ "/openapi.json";
      config.API_PREFIX (config.Settings_class m) +:+ "/docs";
      "/docs/oauth2-redirect";
      config.API_PREFIX (config.Settings_class m) +:+ "/redoc";
      config.API_PREFIX (config.Settings_class m) +:+ "/health";
      config.API_PREFIX (config.Settings_class m) +:+ "/hello";
      config.API_PREFIX (config.Settings_class m) +:+ "/hello/{name}";
      "/" ]
  /\ map methods (fastapi.routes (main.app g))
     = [ ["GET"; "HEAD"]; ["GET"; "HEAD"]; ["GET"; "HEAD"]; ["GET"; "HEAD"];
         ["GET"]; ["GET"]; ["GET"]; ["GET"] ]
  /\ fastapi.docs_url (main.app g)
     = config.API_PREFIX (config.Settings_class m) +:+ "/docs"
  /\ fastapi.redoc_url (main.app g)
     = config.API_PREFIX (config.Settings_class m) +:+ "/redoc".
Proof.
  intros Himport.
  destruct (import_inv _ _ _ Himport)
    as (cls & r1 & r2 & r3 & r4 & r5 & r6 & r7 & r8 & _ & -> & _ & _ & _ & Hdocs
        & Hredoc & _ & -> & H1 & H2 & H3 & H4 & H5 & H6 & H7 & H8).
  cbn [config.Settings_class map].
  rewrite (proj1 H1), (proj1 H2), (proj1 H3), (proj1 H4), (proj1 H5),
    (proj1 H6), (proj1 H7), (proj1 H8).
  rewrite (proj1 (proj2 (proj2 H1))), (proj1 (proj2 (proj2 H2))),
    (proj1 (proj2 (proj2 H3))), (proj1 (proj2 (proj2 H4))),
    (proj1 (proj2 (proj2 H5))), (proj1 (proj2 (proj2 H6))),
    (proj1 (proj2 (proj2 H7))), (proj1 (proj2 (proj2 H8))).
  auto.
Qed.

(** The flag in terms of the environment. *)
Lemma debug_spelling (environ : gmap string string) cfg :
  config.Settings_body environ = Return cfg ->
  (config.DEBUG cfg = true <->
     exists s, environ !! "DEBUG" = Some s /\ spec.spells_true s)
  /\ (environ !! "DEBUG" = None -> config.DEBUG cfg = false).
Proof.
  intros Hbody.
  destruct (Settings_body_inv environ cfg Hbody) as (_ & _ & Hdebug & _).
  rewrite Hdebug.
  destruct (environ !! "DEBUG") as [s|] eqn:E.
  - rewrite (getenv_set environ _ _ _ E), String.eqb_eq, lower_true.
    split; [|discriminate]. split.
    + intros H. now exists s.
    + intros (s' & [= <-] & H). exact H.
  - rewrite (getenv_unset environ _ _ E).
    split; [|reflexivity]. split; [discriminate | intros (s & [=] & _)].
Qed.

Lemma import_debugger (environ : gmap string string) g m :
  main.import environ = Return (g, m) ->
  config.Settings_body environ = Return (config.Settings_class m)
  /\ main.debugger g = config.DEBUG (config.Settings_class m).
Proof.
  intros Himport.
  destruct (import_inv _ _ _ Himport)
    as (cls & _ & _ & _ & _ & _ & _ & _ & _ & Hbody & -> & _ & Hdbg & _).
  cbn [config.Settings_class]. auto.
Qed.

(** ** Signed decimal ports *)



(** ** The server *)



(** ** More of the router's answers *)

Ltac literal_none Hre :=
  eapply matches_literal_none; [exact Hre | cbn [path]; path_neq | cbn [path]; path_neq].

Ltac segment_none Hre :=
  match goal with
  | |- matches ?r ?scope = _ =>
      let Hn := fresh "Hn" in
      let v := fresh "v" in
      let Hp := fresh "Hp" in
      destruct (matches_segment_inv r _ "name" scope Hre) as [Hn | (v & Hp & _)];
      [ exact Hn | exfalso; cbn [path] in Hp; revert Hp; path_neq ]
  end.

Ltac literal_partial Hre Hr Hmethod :=
  match goal with
  | |- first_match (?r :: _) ?scope None = _ =>
      rewrite (first_match_partial r _ scope ∅);
      [| rewrite (matches_literal r _ scope Hre); cbn [path];
         rewrite String.eqb_refl; cbn [orb]; unfold spec.allows;
         rewrite (proj1 (proj2 (proj2 Hr))); cbn [method]; now rewrite Hmethod ]
  end.

Section Dispatch_more.
Variables (environ : gmap string string) (g : main.globals) (m : config.module).
Hypothesis Himport : main.import environ = Return (g, m).
Hypothesis Hlit : spec.literal (config.API_PREFIX (config.Settings_class m)) = true.

Let prefix := config.API_PREFIX (config.Settings_class m).

Lemma hello_other_method mth st :
  existsb (String.eqb mth) ["GET"] = false ->
  fastapi.handle (main.app g) {| method := mth; path := prefix +:+ "/hello" |} st
  = (http_exception 405 "Method Not Allowed", st).
Proof using Himport Hlit.
  intros Hmethod.
  subst prefix. app_shape Himport Hlit. subst m. cbn [config.Settings_class].
  set (p := config.API_PREFIX cls) in *. clearbody p.
  unfold fastapi.handle. rewrite Hroutes.
  apply (Router_app_partial r6).
  skip_route Hre1. skip_route Hre2. skip_route Hre3. skip_route Hre4.
  skip_route Hre5. literal_partial Hre6 H6 Hmethod.
  skip_segment_route Hre7. skip_route Hre8. reflexivity.
Qed.

Lemma root_other_method mth st :
  existsb (String.eqb mth) ["GET"] = false ->
  fastapi.handle (main.app g) {| method := mth; path := "/" |} st
  = (http_exception 405 "Method Not Allowed", st).
Proof using Himport Hlit.
  intros Hmethod.
  subst prefix. app_shape Himport Hlit. subst m. cbn [config.Settings_class].
  set (p := config.API_PREFIX cls) in *. clearbody p.
  unfold fastapi.handle. rewrite Hroutes.
  apply (Router_app_partial r8).
  skip_route Hre1. skip_route Hre2. skip_route Hre3. skip_route Hre4.
  skip_route Hre5. skip_route Hre6. skip_segment_route Hre7.
  literal_partial Hre8 H8 Hmethod. reflexivity.
Qed.

Lemma hello_name_other_method mth name st :
  existsb (String.eqb mth) ["GET"] = false ->
  spec.segment name = true ->
  fastapi.handle (main.app g)
    {| method := mth; path := prefix +:+ "/hello/" +:+ name |} st
  = (http_exception 405 "Method Not Allowed", st).
Proof using Himport Hlit.
  intros Hmethod Hname.
  subst prefix. app_shape Himport Hlit. subst m. cbn [config.Settings_class].
  set (p := config.API_PREFIX cls) in *. clearbody p.
  unfold fastapi.handle. rewrite Hroutes.
  apply (Router_app_partial r7).
  skip_route Hre1. skip_route Hre2. skip_route Hre3. skip_route Hre4.
  skip_route Hre5. skip_route Hre6.
  rewrite (first_match_partial r7 _ _ {[ "name" := name ]}).
  2:{ destruct (matches_segment_inv r7 _ "name"
                  {| method := mth; path := p +:+ "/hello/" +:+ name |} Hre7)
        as [Hn | (v & Hp & Hv & Hmatch)].
      - exfalso. unfold matches in Hn. rewrite Hre7 in Hn. cbn [path] in Hn.
        rewrite <- append_assoc, regex_chrs_app, (regex_segment "name" name Hname) in Hn.
        cbn [convert_groups convert rbind] in Hn.
        destruct (existsb _ _) in Hn; discriminate Hn.
      - cbn [path] in Hp. rewrite <- append_assoc in Hp.
        apply append_inv_head in Hp. subst v.
        rewrite Hmatch. unfold spec.allows.
        rewrite (proj1 (proj2 (proj2 H7))). cbn [method]. now rewrite Hmethod. }
  skip_route Hre8. reflexivity.
Qed.

(** A name that is not one segment: no route takes the path. *)
Lemma hello_non_segment name mth :
  spec.segment name = false ->
  Forall (fun r => matches r {| method := mth;
                                path := prefix +:+ "/hello/" +:+ name |}
                   = Return NONE)
    (fastapi.routes (main.app g)).
Proof using Himport Hlit.
  intros Hname.
  subst prefix. app_shape Himport Hlit. subst m. cbn [config.Settings_class].
  set (p := config.API_PREFIX cls) in *. clearbody p.
  rewrite Hroutes.
  repeat constructor; try (literal_none Hre1); try (literal_none Hre2);
    try (literal_none Hre3); try (literal_none Hre4); try (literal_none Hre5);
    try (literal_none Hre6); try (literal_none Hre8).
  destruct (matches_segment_inv r7 _ "name"
              {| method := mth; path := p +:+ "/hello/" +:+ name |} Hre7)
    as [Hn | (v & Hp & Hv & _)]; [exact Hn|].
  exfalso. cbn [path] in Hp. rewrite <- append_assoc in Hp.
  apply append_inv_head in Hp. subst v. congruence.
Qed.

Lemma hello_trailing_slash st :
  fastapi.handle (main.app g)
    {| method := "GET"; path := prefix +:+ "/hello/" |} st
  = ({| status_code := 307; body := Redirect (prefix +:+ "/hello") |}, st).
Proof using Himport Hlit.
  pose proof (hello_non_segment "" "GET" eq_refl) as Hnone.
  subst prefix. app_shape Himport Hlit. subst m. cbn [config.Settings_class] in *.
  set (p := config.API_PREFIX cls) in *. clearbody p.
  change ("/hello/" +:+ "") with "/hello/" in Hnone.
  assert (Htoggle : toggle_slash (p +:+ "/hello/") = p +:+ "/hello").
  { unfold toggle_slash.
    rewrite (endswith_char_app p "/hello/" "/") by discriminate.
    cbn [Py.endswith_char Ascii.eqb Bool.eqb].
    now rewrite (rstrip_char_app p "/hello/" "/") by discriminate. }
  unfold fastapi.handle. rewrite Hroutes in *.
  rewrite Router_app_redirect; cbn [path method].
  - now rewrite Htoggle.
  - exact (first_match_none _ _ Hnone None).
  - path_neq.
  - rewrite Htoggle.
    rewrite any_match_skip by (literal_none Hre1).
    rewrite any_match_skip by (literal_none Hre2).
    rewrite any_match_skip by (literal_none Hre3).
    rewrite any_match_skip by (literal_none Hre4).
    rewrite any_match_skip by (literal_none Hre5).
    eapply any_match_hit. eapply matches_literal_full;
      [ exact Hre6 | reflexivity
      | unfold spec.allows; rewrite (proj1 (proj2 (proj2 H6))); reflexivity ].
Qed.

End Dispatch_more.

(** ** Text that can be encoded *)

Lemma utf8_read_app a : forall st b,
  Py.utf8_read st (a +:+ b)
  = match Py.utf8_read st a with
    | Some st' => Py.utf8_read st' b
    | None => None
    end.
Proof.
  induction a as [|c a IH]; intros st b; [reflexivity|].
  change (String c a +:+ b) with (String c (a +:+ b)).
  cbn [Py.utf8_read]. destruct (Py.utf8_step st c); [apply IH | reflexivity].
Qed.

Lemma utf8_step_inside st c st' :
  spec.inside_ok st -> Py.utf8_step st c = Some st' -> spec.inside_ok st'.
Proof.
  destruct st as [|more lo hi]; cbn [Py.utf8_step spec.inside_ok].
  - intros _.
    repeat match goal with
           | |- context [if ?b then _ else _] => destruct b
           end; intros [= <-]; cbn; lia.
  - intros _. destruct (Py.in_range lo hi c); [|discriminate].
    intros [= <-]. destruct more; cbn; lia.
Qed.

Lemma utf8_read_inside s : forall st st',
  spec.inside_ok st -> Py.utf8_read st s = Some st' -> spec.inside_ok st'.
Proof.
  induction s as [|c s IH]; intros st st' Hst; cbn [Py.utf8_read].
  - now intros [= <-].
  - destruct (Py.utf8_step st c) as [st1|] eqn:E; [|discriminate].
    apply IH. exact (utf8_step_inside st c st1 Hst E).
Qed.

Lemma utf8_step_ascii st c :
  spec.inside_ok st -> (Py.code c <? 128)%N = true ->
  Py.utf8_step st c = match st with Py.Boundary => Some Py.Boundary | _ => None end.
Proof.
  intros Hst Hc. destruct st as [|more lo hi]; cbn [Py.utf8_step].
  - now rewrite Hc.
  - cbn in Hst. unfold Py.in_range.
    apply N.ltb_lt in Hc.
    destruct (N.leb_spec lo (Py.code c)); [lia | reflexivity].
Qed.

Lemma utf8_read_ascii s : forall st,
  spec.inside_ok st -> Py.isascii s = true ->
  Py.utf8_read st s
  = match s, st with
    | EmptyString, _ => Some st
    | _, Py.Boundary => Some Py.Boundary
    | _, _ => None
    end.
Proof.
  unfold Py.isascii.
  induction s as [|c s IH]; intros st Hst Hs; [reflexivity|].
  cbn [Py.forallb_str] in Hs. apply andb_true_iff in Hs as [Hc Hs].
  cbn [Py.utf8_read]. rewrite (utf8_step_ascii st c Hst Hc).
  destruct st; [|reflexivity].
  rewrite (IH Py.Boundary I Hs). now destruct s.
Qed.

(** After a well-formed text, what follows decides. *)
Lemma utf8_app a b : Py.utf8 a = true -> Py.utf8 (a +:+ b) = Py.utf8 b.
Proof.
  unfold Py.utf8. rewrite utf8_read_app.
  destruct (Py.utf8_read Py.Boundary a) as [[|]|]; try discriminate. reflexivity.
Qed.

(** Before ASCII text that is not empty, what precedes decides. *)
Lemma utf8_app_ascii a b :
  Py.isascii b = true -> b <> "" -> Py.utf8 (a +:+ b) = Py.utf8 a.
Proof.
  intros Hb Hne. unfold Py.utf8. rewrite utf8_read_app.
  destruct (Py.utf8_read Py.Boundary a) as [st|] eqn:E; [|reflexivity].
  rewrite (utf8_read_ascii b st (utf8_read_inside a Py.Boundary st I E) Hb).
  destruct b; [contradiction|]. now destruct st.
Qed.

Lemma utf8_app_true a b :
  Py.utf8 a = true -> Py.utf8 b = true -> Py.utf8 (a +:+ b) = true.
Proof. intros Ha Hb. now rewrite utf8_app. Qed.

(** The greeting can be encoded exactly when the name can. *)
Lemma utf8_greeting name : Py.utf8 ("Hello, " +:+ name +:+ "!") = Py.utf8 name.
Proof.
  rewrite (utf8_app "Hello, ") by reflexivity.
  now rewrite utf8_app_ascii.
Qed.

Lemma slashes_ascii k : Py.isascii (spec.slashes k) = true.
Proof. induction k as [|k IH]; [reflexivity | exact IH]. Qed.
(** The router's rewrite of a path that matches no route: every slash
    at the end goes, or one is added when there is none. *)
Lemma rstrip_slashes s :
  exists k, s = Py.rstrip_char "/" s +:+ spec.slashes k
            /\ Py.endswith_char (Py.rstrip_char "/" s) "/" = false.
Proof.
  induction s as [|a s (k & IH & Hend)].
  - exists 0%nat. split; reflexivity.
  - cbn [Py.rstrip_char]. destruct (Py.rstrip_char "/" s) as [|b r] eqn:E.
    + destruct (Ascii.eqb_spec a "/") as [->|Hac].
      * exists (S k). split; [|reflexivity]. rewrite IH at 1. reflexivity.
      * exists k. split; [rewrite IH at 1; reflexivity|].
        cbn. now apply Ascii.eqb_neq.
    + exists k. split; [rewrite IH at 1; reflexivity|].
      cbn [Py.endswith_char]. exact Hend.
Qed.

Lemma endswith_slashes_0 s : Py.endswith_char (s +:+ spec.slashes 0) "/" = Py.endswith_char s "/".
Proof. cbn [spec.slashes]. now rewrite append_nil_r. Qed.

Lemma toggle_slash_strips p :
  Py.endswith_char p "/" = true ->
  exists k, p = toggle_slash p +:+ spec.slashes (S k)
            /\ Py.endswith_char (toggle_slash p) "/" = false.
Proof.
  intros Hp. unfold toggle_slash. rewrite Hp.
  destruct (rstrip_slashes p) as (k & Hk & Hend).
  destruct k as [|k].
  - exfalso. rewrite Hk, endswith_slashes_0, Hend in Hp. discriminate Hp.
  - exists k. split; [exact Hk | exact Hend].
Qed.

Lemma toggle_slash_adds p :
  Py.endswith_char p "/" = false -> toggle_slash p = p +:+ "/".
Proof. intros Hp. unfold toggle_slash. now rewrite Hp. Qed.

Lemma utf8_toggle_slash p : Py.utf8 p = true -> Py.utf8 (toggle_slash p) = true.
Proof.
  intros Hp. unfold toggle_slash. destruct (Py.endswith_char p "/").
  - destruct (rstrip_slashes p) as (k & Hk & _).
    rewrite Hk in Hp. destruct k as [|k].
    + cbn [spec.slashes] in Hp. now rewrite append_nil_r in Hp.
    + rewrite utf8_app_ascii in Hp; [exact Hp | apply slashes_ascii | discriminate].
  - now rewrite utf8_app.
Qed.

(** ** The middleware *)

Lemma Headers_get_has hs key :
  existsb (fun kv : string * string => String.eqb (fst kv) key) hs
  = match fastapi.Headers_get hs key with Some _ => true | None => false end.
Proof.
  induction hs as [|[k v] hs IH]; [reflexivity|].
  cbn [existsb fastapi.Headers_get fst]. destruct (String.eqb k key); [reflexivity | exact IH].
Qed.

Section Middleware.
Context {W : Type}.
Implicit Types (app : fastapi.FastAPI W) (scope : Scope) (mw : fastapi.CORSMiddleware).

(** What is not a preflight passes the middleware. *)
Lemma CORSMiddleware_call_passes mw inner scope :
  spec.preflight scope = false ->
  fastapi.CORSMiddleware_call (W:=W) mw inner scope = inner scope.
Proof.
  unfold spec.preflight, spec.has_header, fastapi.CORSMiddleware_call.
  rewrite !Headers_get_has.
  destruct (fastapi.Headers_get _ "origin"); [|reflexivity].
  destruct (fastapi.Headers_get _ "access-control-request-method"); [|reflexivity].
  rewrite !andb_true_r. now intros ->.
Qed.

(** A preflight is answered by the middleware, whatever lies below. *)
Lemma CORSMiddleware_call_preflight mw inner scope st :
  spec.preflight scope = true ->
  exists origin requested_method,
    fastapi.Headers_get (headers scope) "origin" = Some origin
    /\ fastapi.Headers_get (headers scope) "access-control-request-method"
       = Some requested_method
    /\ fastapi.CORSMiddleware_call (W:=W) mw inner scope st
       = (Return (fastapi.preflight_response mw origin requested_method
                    (fastapi.Headers_get (headers scope)
                       "access-control-request-headers")), st).
Proof.
  unfold spec.preflight, spec.has_header, fastapi.CORSMiddleware_call.
  rewrite !Headers_get_has.
  destruct (fastapi.Headers_get _ "origin") as [o|]; [|now rewrite andb_false_r].
  destruct (fastapi.Headers_get _ "access-control-request-method") as [rm|];
    [|now rewrite andb_false_r].
  rewrite !andb_true_r. intros ->. exists o, rm. repeat split.
Qed.

Lemma call_passes app mw scope st :
  fastapi.user_middleware app = [mw] ->
  spec.preflight scope = false ->
  fastapi.call app scope st
  = (fastapi.ServerErrorMiddleware
       (fastapi.render app (fst (fastapi.handle app (request scope) st))),
     snd (fastapi.handle app (request scope) st)).
Proof.
  intros Hmw Hp. unfold fastapi.call. rewrite Hmw. cbn [foldr].
  unfold sbind. rewrite (CORSMiddleware_call_passes mw _ scope Hp).
  unfold fastapi.router, sbind, sret.
  now destruct (fastapi.handle app (request scope) st).
Qed.

Lemma call_preflight app mw scope st :
  fastapi.user_middleware app = [mw] ->
  spec.preflight scope = true ->
  exists origin requested_method,
    fastapi.Headers_get (headers scope) "origin" = Some origin
    /\ fastapi.Headers_get (headers scope) "access-control-request-method"
       = Some requested_method
    /\ fastapi.call app scope st
       = (fastapi.preflight_response mw origin requested_method
            (fastapi.Headers_get (headers scope) "access-control-request-headers"),
          st).
Proof.
  intros Hmw Hp. unfold fastapi.call. rewrite Hmw. cbn [foldr]. unfold sbind.
  destruct (CORSMiddleware_call_preflight mw (fastapi.router app) scope st Hp)
    as (o & rm & Ho & Hrm & ->).
  exists o, rm. repeat split; assumption.
Qed.

(** When every call leaves the state alone, a run is the list of the
    separate answers. *)
Lemma calls_pure app :
  (forall scope st, snd (fastapi.call app scope st) = st) ->
  forall scopes st,
    fastapi.calls app scopes st
    = (map (fun sc => fst (fastapi.call app sc st)) scopes, st).
Proof.
  intros Hpure scopes st. induction scopes as [|sc scopes IH]; [reflexivity|].
  cbn [fastapi.calls map]. unfold sbind.
  pose proof (Hpure sc st) as Hsc.
  destruct (fastapi.call app sc st) as [resp st'] eqn:E. cbn [snd fst] in *.
  subst st'. rewrite IH. reflexivity.
Qed.

End Middleware.

(** The answer to a preflight when every method and every header is
    allowed: the origin and the requested method decide. *)
Lemma preflight_response_all origins origin requested_method requested_headers :
  let mw := {| fastapi.allow_origins := origins; fastapi.allow_credentials := true;
               fastapi.allow_methods := ["*"]; fastapi.allow_headers := ["*"] |} in
  let allowed := existsb (String.eqb "*") origins || existsb (String.eqb origin) origins in
  let known := existsb (String.eqb requested_method) fastapi.ALL_METHODS in
  fastapi.preflight_response mw origin requested_method requested_headers
  = if allowed && known then {| status_code := 200; body := PlainText "OK" |}
    else {| status_code := 400;
            body := PlainText
                      ("Disallowed CORS "
                       +:+ Py.join ", " ((if allowed then [] else ["origin"])
                                         ++ (if known then [] else ["method"]))) |}.
Proof.
  intros mw allowed known. unfold fastapi.preflight_response.
  change (fastapi.allow_all_headers mw) with true.
  change (fastapi.is_allowed_origin mw origin) with allowed.
  change (fastapi.cors_methods mw) with fastapi.ALL_METHODS. fold known.
  rewrite app_nil_r. destruct allowed, known; reflexivity.
Qed.
(** ** Templates with any prefix

    Whatever the prefix holds, parameters included, a template that ends
    in a slash and literal text matches no path shorter than that. *)

Lemma drop_length j s : (String.length (drop j s) <= String.length s)%nat.
Proof.
  revert s. induction j as [|j IH]; intros [|c s]; simpl; try lia.
  specialize (IH s). lia.
Qed.

Lemma regex_match_min atoms : forall s gs,
  regex_match atoms s = Some gs -> (spec.chr_count atoms <= String.length s)%nat.
Proof.
  induction atoms as [|[c|name conv] atoms IH]; intros s gs.
  - cbn. lia.
  - cbn [regex_match spec.chr_count]. destruct s as [|a s]; [discriminate|].
    destruct (Ascii.eqb a c); [|discriminate].
    intros H. apply IH in H. simpl. lia.
  - rewrite regex_group_eq. intros H. apply longest_some in H as (j & H).
    destruct (accepts conv (take j s)); [|discriminate].
    destruct (regex_match atoms (drop j s)) as [gs'|] eqn:E; [|discriminate].
    apply IH in E. cbn [spec.chr_count]. pose proof (drop_length j s). lia.
Qed.

Lemma to_atoms_count ps : forall atoms,
  to_atoms ps = Return atoms -> spec.chr_count atoms = spec.lit_count ps.
Proof.
  induction ps as [|[c|name conv] ps IH]; intros atoms; cbn [to_atoms spec.lit_count].
  - now intros [= <-].
  - destruct (to_atoms ps) as [r|]; cbn [rbind]; [|discriminate].
    intros [= <-]. cbn. now rewrite (IH r).
  - destruct (CONVERTOR_TYPES conv); [|discriminate].
    destruct (to_atoms ps) as [r|]; cbn [rbind]; [|discriminate].
    intros [= <-]. cbn. now rewrite (IH r).
Qed.

Lemma span_spec p s a b : span p s = (a, b) -> s = a +:+ b /\ Py.forallb_str p a = true.
Proof.
  revert a b. induction s as [|c s IH]; intros a b; cbn [span].
  - intros [= <- <-]. auto.
  - destruct (p c) eqn:Hc.
    + destruct (span p s) as [a' b'] eqn:E. intros [= <- <-].
      destruct (IH a' b' eq_refl) as [-> Ha]. split; [reflexivity|].
      cbn. now rewrite Hc, Ha.
    + intros [= <- <-]. auto.
Qed.

Lemma ident_char_not_slash c : ident_char c = true -> Ascii.eqb c "/" = false.
Proof. destruct c as [[] [] [] [] [] [] [] []]; intros H; try discriminate H; reflexivity. Qed.

Lemma ident_start_char c : ident_start c = true -> ident_char c = true.
Proof. unfold ident_char. now intros ->. Qed.

Lemma read_ident_spec s name rest :
  read_ident s = Some (name, rest) ->
  s = name +:+ rest /\ spec.free_of "/" name = true.
Proof.
  unfold read_ident. destruct s as [|c s]; [discriminate|].
  destruct (ident_start c) eqn:Hc; [|discriminate].
  destruct (span ident_char s) as [a b] eqn:E. intros [= <- <-].
  destruct (span_spec _ _ _ _ E) as [-> Ha]. split; [reflexivity|].
  unfold spec.free_of. cbn [Py.forallb_str].
  rewrite (ident_char_not_slash c (ident_start_char c Hc)). cbn [negb andb].
  clear E. induction a as [|x a IH]; [reflexivity|].
  cbn [Py.forallb_str] in *. apply andb_true_iff in Ha as [Hx Ha].
  now rewrite (ident_char_not_slash x Hx), (IH Ha).
Qed.

(** Text without a slash at the head of a string ends before the first
    slash of the string. *)
Lemma free_head u : forall p rest t,
  u +:+ rest = p +:+ String "/" t -> spec.free_of "/" u = true ->
  (String.length u <= String.length p)%nat.
Proof.
  unfold spec.free_of.
  induction u as [|x u IH]; intros p rest t Heq Hu; [simpl; lia|].
  cbn [Py.forallb_str] in Hu. apply andb_true_iff in Hu as [Hx Hu].
  destruct p as [|y p].
  - simpl in Heq. injection Heq as -> _. discriminate Hx.
  - simpl in Heq. injection Heq as _ Heq. simpl. specialize (IH p rest t Heq Hu). lia.
Qed.

(** A parameter lies before the first slash that follows its brace. *)
Lemma read_param_bound p t name conv n :
  read_param (p +:+ String "/" t) = Some (name, conv, n) ->
  (n <= String.length p)%nat.
Proof.
  unfold read_param.
  destruct (read_ident (p +:+ String "/" t)) as [[nm rest]|] eqn:E; [|discriminate].
  destruct (read_ident_spec _ _ _ E) as [Hs Hf].
  destruct rest as [|c rest]; [discriminate|].
  destruct (Ascii.eqb_spec c "}") as [->|Hc1].
  - intros [= <- <- <-].
    assert (Hfree : spec.free_of "/" (nm +:+ "}") = true)
      by (rewrite free_of_app, Hf; reflexivity).
    pose proof (free_head (nm +:+ "}") p rest t) as H.
    rewrite append_assoc in H. specialize (H (eq_sym Hs) Hfree).
    rewrite append_length in H. simpl in H. lia.
  - destruct (Ascii.eqb_spec c ":") as [->|Hc2].
    + destruct (read_ident rest) as [[cv rest']|] eqn:E'; [|discriminate].
      destruct (read_ident_spec _ _ _ E') as [-> Hf'].
      destruct rest' as [|c' rest']; [discriminate|].
      destruct (Ascii.eqb_spec c' "}") as [->|Hc3].
      * intros [= <- <- <-].
        assert (Hfree : spec.free_of "/" (nm +:+ ":" +:+ cv +:+ "}") = true)
          by (rewrite !free_of_app, Hf, Hf'; reflexivity).
        pose proof (free_head (nm +:+ ":" +:+ cv +:+ "}") p rest' t) as H.
        rewrite !append_assoc in H. specialize (H (eq_sym Hs) Hfree).
        rewrite !append_length in H. simpl in H. lia.
      * destruct c' as [[] [] [] [] [] [] [] []]; try discriminate; now destruct Hc3.
    + destruct c as [[] [] [] [] [] [] [] []]; try discriminate;
        [now destruct Hc2 | now destruct Hc1].
Qed.

Lemma scan_suffix x t p : forall k,
  Ascii.eqb x "{" = false -> (k <= String.length p)%nat ->
  (2 <= spec.lit_count (scan (p +:+ String "/" (String x t)) k))%nat.
Proof.
  intros k Hx. revert k. induction p as [|c p IH]; intros k Hk.
  - simpl in Hk. assert (k = 0%nat) as -> by lia.
    cbn [String.append scan]. change (Ascii.eqb "/" "{") with false. cbn iota.
    destruct t; cbn [scan]; rewrite Hx; cbn; lia.
  - change (String c p +:+ ?s) with (String c (p +:+ s)). cbn [scan].
    destruct k as [|k].
    + destruct (Ascii.eqb c "{").
      * destruct (read_param _) as [[[name conv] n]|] eqn:E.
        -- cbn [spec.lit_count]. apply IH. exact (read_param_bound _ _ _ _ _ E).
        -- cbn [spec.lit_count]. specialize (IH 0%nat ltac:(lia)). lia.
      * cbn [spec.lit_count]. specialize (IH 0%nat ltac:(lia)). lia.
    + apply IH. simpl in Hk. lia.
Qed.

(** Such a template does not match the path "/". *)
Lemma compile_suffix_not_root p x t re :
  Ascii.eqb x "{" = false ->
  compile_path (p +:+ String "/" (String x t)) = Return re ->
  regex_match re "/" = None.
Proof.
  intros Hx. unfold compile_path.
  destruct (to_atoms _) as [atoms|] eqn:E; cbn [rbind]; [|discriminate].
  destruct (has_duplicates _); [discriminate|]. intros [= <-].
  destruct (regex_match atoms "/") as [gs|] eqn:Em; [exfalso | reflexivity].
  apply regex_match_min in Em. rewrite (to_atoms_count _ _ E) in Em.
  pose proof (scan_suffix x t p 0%nat Hx ltac:(lia)). simpl in Em. lia.
Qed.

Lemma route_not_root {W} (r : Route W) p x t ms ep mth :
  Ascii.eqb x "{" = false ->
  spec.route_is r (p +:+ String "/" (String x t)) ms ep ->
  matches r {| method := mth; path := "/" |} = Return NONE.
Proof.
  intros Hx (_ & Hc & _). unfold matches. cbn [path].
  now rewrite (compile_suffix_not_root p x t _ Hx Hc).
Qed.

(** GET / reaches the root handler under every configuration with which
    the application starts. *)
Lemma handle_root_any (environ : gmap string string) g m st :
  main.import environ = Return (g, m) ->
  fastapi.handle (main.app g) {| method := "GET"; path := "/" |} st
  = (spec.root_response (config.Settings_class st), st).
Proof.
  intros Himport.
  destruct (import_inv _ _ _ Himport)
    as (cls & r1 & r2 & r3 & r4 & r5 & r6 & r7 & r8 & _ & _ & _ & _ & _ & _ & _ & _
        & Hroutes & H1 & H2 & H3 & H4 & H5 & H6 & H7 & H8).
  pose proof (route_is_literal r1 _ _ _ H1 eq_refl) as Hre1.
  pose proof (route_is_literal r3 _ _ _ H3 eq_refl) as Hre3.
  pose proof (route_is_literal r8 _ _ _ H8 eq_refl) as Hre8.
  unfold fastapi.handle. rewrite Hroutes.
  erewrite Router_app_full; [answer H8|].
  skip_route Hre1.
  rewrite first_match_skip by (eapply (route_not_root r2); [|exact H2]; reflexivity).
  skip_route Hre3.
  rewrite first_match_skip by (eapply (route_not_root r4); [|exact H4]; reflexivity).
  rewrite first_match_skip by (eapply (route_not_root r5); [|exact H5]; reflexivity).
  rewrite first_match_skip by (eapply (route_not_root r6); [|exact H6]; reflexivity).
  rewrite first_match_skip by (eapply (route_not_root r7); [|exact H7]; reflexivity).
  take_route Hre8 H8.
Qed.
(** ** Integer text

    [int] accepts exactly the integer texts of at most 4300 digits, and
    gives the number they denote. *)























(** ** What the application answers *)

Lemma Route_init_in_schema {W} p (ep : gmap string string -> State W Response) r :
  Route_init p ep = Return r -> in_schema r = false.
Proof.
  unfold Route_init, assert. destruct (Py.startswith p "/"); simpl; [|discriminate].
  destruct (compile_path p) as [re|e]; simpl; [|discriminate].
  now intros [= <-].
Qed.

Lemma APIRoute_in_schema {W} p (ep : gmap string string -> State W Response) ms r :
  APIRoute p ep ms = Return r -> in_schema r = true.
Proof.
  unfold APIRoute. destruct (compile_path p) as [re|e]; simpl; [|discriminate].
  now intros [= <-].
Qed.

(** The schema lists the four path operations of the program. *)
Lemma import_in_schema (environ : gmap string string) g m :
  main.import environ = Return (g, m) ->
  map in_schema (fastapi.routes (main.app g))
  = [false; false; false; false; true; true; true; true].
Proof.
  unfold main.import.
  change (@health.router config.module) with
    (Return [ {| route_path := "/health"; path_regex := spec.chrs "/health";
                 methods := ["GET"];
                 endpoint := fastapi.path_operation (W:=config.module) []
                               (fun _ => Some health.get_health)
                               health.HealthResponse_json;
                 in_schema := true |} ]).
  change (@hello.router config.module) with
    (Return [ {| route_path := "/hello"; path_regex := spec.chrs "/hello";
                 methods := ["GET"];
                 endpoint := fastapi.path_operation (W:=config.module) []
                               (fun _ => Some hello.get_hello)
                               hello.HelloResponse_json;
                 in_schema := true |};
              {| route_path := "/hello/{name}";
                 path_regex := spec.chrs "/hello/" ++ [Group "name" StringConvertor];
                 methods := ["GET"];
                 endpoint := fastapi.path_operation (W:=config.module) ["name"]
                               (fun params => hello.get_hello_name <$> params !! "name")
                               hello.HelloResponse_json;
                 in_schema := true |} ]).
  cbn [rbind]. unfold config.import.
  destruct (config.Settings_body environ) as [cls|e]; cbn [rbind]; [|discriminate].
  rewrite get_settings_miss by reflexivity.
  unfold config.getattr. cbn [config.Settings_class config.next_object].
  unfold fastapi.FastAPI_init, assert.
  cbn [String.eqb negb rbind Ascii.eqb Bool.eqb].
  destruct (String.eqb (config.API_VERSION cls) "") eqn:Hv; cbn [negb rbind]; [discriminate|].
  destruct (Route_init "/openapi.json" _) as [r1|] eqn:E1; cbn [rbind]; [|discriminate].
  destruct (Route_init (config.API_PREFIX cls +:+ "/docs") _) as [r2|] eqn:E2; cbn [rbind]; [|discriminate].
  destruct (Route_init "/docs/oauth2-redirect" _) as [r3|] eqn:E3; cbn [rbind]; [|discriminate].
  destruct (Route_init (config.API_PREFIX cls +:+ "/redoc") _) as [r4|] eqn:E4; cbn [rbind]; [|discriminate].
  unfold fastapi.app_include_router, fastapi.app_get, fastapi.add_middleware,
    fastapi.with_routes, include_router, router_get, assert.
  cbn [fastapi.routes fastapi.title fastapi.version fastapi.description
       fastapi.openapi_url fastapi.docs_url fastapi.redoc_url
       fastapi.user_middleware fastapi.swagger_ui_oauth2_redirect_url].
  destruct (negb (config.API_PREFIX cls =? "")%string) eqn:Hne;
    [ destruct (Py.startswith (config.API_PREFIX cls) "/") eqn:Hs;
        cbn [rbind]; [|discriminate];
      destruct (negb (Py.endswith_char (config.API_PREFIX cls) "/")) eqn:He;
        cbn [rbind]; [|discriminate]
    | cbn [existsb route_path String.eqb orb rbind] ].
  all: cbn [rbind add_api_routes route_path endpoint methods fastapi.routes app].
  all: destruct (APIRoute (config.API_PREFIX cls +:+ "/health") _ _) as [r5|] eqn:E5;
    cbn [rbind add_api_routes route_path endpoint methods fastapi.routes app];
    [|discriminate].
  all: destruct (APIRoute (config.API_PREFIX cls +:+ "/hello") _ _) as [r6|] eqn:E6;
    cbn [rbind add_api_routes route_path endpoint methods fastapi.routes app];
    [|discriminate].
  all: destruct (APIRoute (config.API_PREFIX cls +:+ "/hello/{name}") _ _) as [r7|] eqn:E7;
    cbn [rbind add_api_routes route_path endpoint methods fastapi.routes app];
    [|discriminate].
  all: destruct (APIRoute "/" _ _) as [r8|] eqn:E8; cbn [rbind]; [|discriminate].
  all: intros [= <- <-].
  all: cbn [main.app fastapi.routes app map].
  all: rewrite (Route_init_in_schema _ _ _ E1), (Route_init_in_schema _ _ _ E2),
         (Route_init_in_schema _ _ _ E3), (Route_init_in_schema _ _ _ E4),
         (APIRoute_in_schema _ _ _ _ E5), (APIRoute_in_schema _ _ _ _ E6),
         (APIRoute_in_schema _ _ _ _ E7), (APIRoute_in_schema _ _ _ _ E8).
  all: reflexivity.
Qed.

Lemma any_match_false {W} (rs : list (Route W)) : forall (scope : Request),
  any_match rs scope = Return false ->
  Forall (fun r => matches r scope = Return NONE) rs.
Proof.
  induction rs as [|r rs IH]; intros scope; [constructor|].
  cbn [any_match]. destruct (matches r scope) as [[|ps|ps]|e] eqn:E; cbn [rbind];
    try discriminate.
  intros H. constructor; [exact E | exact (IH _ H)].
Qed.

Section Outcomes.
Variables (environ : gmap string string) (g : main.globals) (m : config.module).
Hypothesis Himport : main.import environ = Return (g, m).
Hypothesis Hlit : spec.literal (config.API_PREFIX (config.Settings_class m)) = true.

Let prefix := config.API_PREFIX (config.Settings_class m).

Lemma handle_outcome scope st :
  spec.outcome (config.Settings_class m) scope st
    (fst (fastapi.handle (main.app g) scope st)).
Proof using Himport Hlit.
  pose proof (app_matches_return environ g m Himport Hlit) as Hret.
  subst prefix. app_shape Himport Hlit. subst m. cbn [config.Settings_class] in *.
  set (p := config.API_PREFIX cls) in *.
  unfold fastapi.handle, Router_app. rewrite Hroutes in *.
  assert (Hret' : forall sc, Forall (fun r => exists mt, matches r sc = Return mt)
                               [r1; r2; r3; r4; r5; r6; r7; r8]).
  { intros sc. rewrite List.Forall_forall in *. auto. }
  destruct (first_match_returns _ scope (Hret' scope) None) as [f Hf].
  rewrite Hf. destruct f as [r ps|r|].
  - apply first_match_inv in Hf as [Hin Hfull].
    cbn [In] in Hin.
    destruct Hin as [<-|[<-|[<-|[<-|[<-|[<-|[<-|[<-|[]]]]]]]]].
    + rewrite (proj2 (proj2 (proj2 H1))). constructor.
    + rewrite (proj2 (proj2 (proj2 H2))). constructor.
    + rewrite (proj2 (proj2 (proj2 H3))). constructor.
    + rewrite (proj2 (proj2 (proj2 H4))). constructor.
    + rewrite (proj2 (proj2 (proj2 H5))). constructor.
    + rewrite (proj2 (proj2 (proj2 H6))). constructor.
    + rewrite (proj2 (proj2 (proj2 H7))). cbn [fst].
      destruct (matches_segment_inv r7 _ "name" scope Hre7)
        as [Hn | (v & Hp & Hv & Hmatch)]; [congruence|].
      rewrite Hmatch in Hfull. destruct (spec.allows r7 scope); [|discriminate].
      injection Hfull as <-. rewrite lookup_singleton_eq.
      apply spec.out_hello_name; [|exact Hv]. now rewrite Hp, append_assoc.
    + rewrite (proj2 (proj2 (proj2 H8))). constructor.
  - constructor.
  - destruct (String.eqb (path scope) "/"); [constructor|].
    match goal with
    | |- context [any_match ?rs ?sc] =>
        destruct (any_match_returns rs sc (Hret' sc)) as [b ->]
    end.
    destruct b; constructor.
Qed.

(** The status of an outcome. *)
Lemma outcome_status scope st r :
  spec.outcome (config.Settings_class m) scope st r -> In (status_code r) [200; 307; 404; 405]%Z.
Proof. destruct 1; simpl; auto. Qed.

(** What the schema lists. *)
Lemma schema_paths :
  map route_path (List.filter in_schema (fastapi.routes (main.app g)))
  = [prefix +:+ "/health"; prefix +:+ "/hello"; prefix +:+ "/hello/{name}"; "/"].
Proof using Himport.
  pose proof (import_in_schema environ g m Himport) as Hflags.
  subst prefix.
  destruct (import_inv _ _ _ Himport)
    as (cls & r1 & r2 & r3 & r4 & r5 & r6 & r7 & r8 & _ & Hm & _ & _ & _ & _ & _ & _
        & Hroutes & H1 & H2 & H3 & H4 & H5 & H6 & H7 & H8).
  rewrite Hroutes in *. cbn [map] in Hflags.
  injection Hflags as F1 F2 F3 F4 F5 F6 F7 F8.
  cbn [List.filter]. rewrite F1, F2, F3, F4, F5, F6, F7, F8. cbn [map].
  rewrite (proj1 H5), (proj1 H6), (proj1 H7), (proj1 H8), Hm. reflexivity.
Qed.

(** With settings and a path that are text, every outcome can be
    encoded. *)
Lemma outcome_renders scope st r :
  spec.text (config.Settings_class m) = true ->
  spec.text (config.Settings_class st) = true ->
  Py.utf8 (path scope) = true ->
  spec.outcome (config.Settings_class m) scope st r ->
  fastapi.render (main.app g) r = Return r.
Proof using Himport.
  unfold spec.text. intros Hm Hst Hpath Hr.
  apply andb_true_iff in Hm as [Hm Hp]. apply andb_true_iff in Hm as [_ Hv].
  apply andb_true_iff in Hst as [Hst _]. apply andb_true_iff in Hst as [He' Hv'].
  fold prefix in Hp.
  assert (Hsuffix : forall s, Py.utf8 s = true -> Py.utf8 (prefix +:+ s) = true)
    by (intros s Hs; now apply utf8_app_true).
  unfold fastapi.render.
  destruct Hr; cbn [body spec.schema_response spec.docs_response spec.redoc_response
                    spec.health_response spec.hello_response spec.root_response
                    JSONResponse http_exception fastapi.texts fastapi.json_texts app].
  - rewrite schema_paths. unfold fastapi.encode_all, Py.encode.
    rewrite Hv, !Hsuffix by reflexivity. reflexivity.
  - reflexivity.
  - reflexivity.
  - reflexivity.
  - reflexivity.
  - reflexivity.
  - unfold fastapi.encode_all, Py.encode. rewrite utf8_greeting.
    rewrite H, <- append_assoc, utf8_app in Hpath by (now apply Hsuffix).
    now rewrite Hpath.
  - unfold fastapi.encode_all, Py.encode. cbn [app]. now rewrite Hv', He'.
  - reflexivity.
  - reflexivity.
  - unfold fastapi.encode_all, Py.encode. now rewrite utf8_toggle_slash.
Qed.

End Outcomes.
(** ** The application behind its middleware *)

Lemma preflight_needs_options mth p hs :
  mth <> "OPTIONS" -> spec.preflight (spec.request_for mth p hs) = false.
Proof.
  intros H. unfold spec.preflight, spec.request_for. cbn [request method].
  apply String.eqb_neq in H. now rewrite H.
Qed.

Section Behind_middleware.
Variables (environ : gmap string string) (g : main.globals) (m : config.module).
Hypothesis Himport : main.import environ = Return (g, m).

Let mw : fastapi.CORSMiddleware :=
  {| fastapi.allow_origins := config.CORS_ORIGINS (config.Settings_class m);
     fastapi.allow_credentials := true;
     fastapi.allow_methods := ["*"];
     fastapi.allow_headers := ["*"] |}.

Lemma import_middleware : fastapi.user_middleware (main.app g) = [mw].
Proof using Himport.
  destruct (import_inv _ _ _ Himport)
    as (cls & _ & _ & _ & _ & _ & _ & _ & _ & _ & -> & _ & _ & _ & _ & _ & Hmw & _).
  exact Hmw.
Qed.

(** A request that is no preflight gets the answer of the router,
    encoded. *)
Lemma call_router scope st :
  spec.preflight scope = false ->
  fastapi.call (main.app g) scope st
  = (fastapi.ServerErrorMiddleware
       (fastapi.render (main.app g)
          (fst (fastapi.handle (main.app g) (request scope) st))), st).
Proof using Himport.
  intros Hp. rewrite (call_passes _ mw scope st import_middleware Hp).
  now rewrite (handle_keeps_state environ g m Himport).
Qed.

(** A preflight gets the answer of the middleware. *)
Lemma call_cors scope st :
  spec.preflight scope = true ->
  exists origin requested_method,
    fastapi.Headers_get (headers scope) "origin" = Some origin
    /\ fastapi.Headers_get (headers scope) "access-control-request-method"
       = Some requested_method
    /\ fastapi.call (main.app g) scope st
       = (let allowed :=
            existsb (String.eqb "*") (config.CORS_ORIGINS (config.Settings_class m))
            || existsb (String.eqb origin)
                 (config.CORS_ORIGINS (config.Settings_class m)) in
          let known := existsb (String.eqb requested_method) fastapi.ALL_METHODS in
          if allowed && known then {| status_code := 200; body := PlainText "OK" |}
          else {| status_code := 400;
                  body := PlainText
                            ("Disallowed CORS "
                             +:+ Py.join ", "
                                   ((if allowed then [] else ["origin"])
                                    ++ (if known then [] else ["method"]))) |},
          st).
Proof using Himport.
  intros Hp.
  destruct (call_preflight _ mw scope st import_middleware Hp)
    as (o & rm & Ho & Hrm & Hcall).
  exists o, rm. split; [exact Ho|]. split; [exact Hrm|].
  rewrite Hcall. f_equal. apply preflight_response_all.
Qed.

Lemma call_keeps_state scope st : snd (fastapi.call (main.app g) scope st) = st.
Proof using Himport.
  destruct (spec.preflight scope) eqn:Hp.
  - destruct (call_cors scope st Hp) as (o & rm & _ & _ & ->). reflexivity.
  - now rewrite (call_router scope st Hp).
Qed.

(** The answer depends on the state through the settings alone. *)
Lemma call_reads_settings scope st1 st2 :
  config.Settings_class st1 = config.Settings_class st2 ->
  fst (fastapi.call (main.app g) scope st1) = fst (fastapi.call (main.app g) scope st2).
Proof using Himport.
  intros Hsame. destruct (spec.preflight scope) eqn:Hp.
  - destruct (call_cors scope st1 Hp) as (o & rm & Ho & Hrm & ->).
    destruct (call_cors scope st2 Hp) as (o' & rm' & Ho' & Hrm' & ->).
    rewrite Ho in Ho'. injection Ho' as <-.
    rewrite Hrm in Hrm'. injection Hrm' as <-. reflexivity.
  - rewrite !(call_router _ _ Hp). cbn [fst]. do 2 f_equal.
    unfold fastapi.handle.
    apply (Router_app_response _
             (fun a b => config.Settings_class a = config.Settings_class b));
      [|exact Hsame].
    exact (app_endpoints_read_settings environ g m Himport).
Qed.

Lemma calls_separate scopes st :
  fastapi.calls (main.app g) scopes st
  = (map (fun sc => fst (fastapi.call (main.app g) sc st)) scopes, st).
Proof using Himport. apply calls_pure. exact call_keeps_state. Qed.

(** GET / under any headers. *)
Lemma call_root hs st :
  fastapi.call (main.app g) (spec.request_for "GET" "/" hs) st
  = (if Py.utf8 (config.API_VERSION (config.Settings_class st))
        && Py.utf8 (config.ENVIRONMENT (config.Settings_class st))
     then spec.root_response (config.Settings_class st)
     else internal_server_error, st).
Proof using Himport.
  rewrite call_router by (now apply preflight_needs_options).
  cbn [request spec.request_for].
  rewrite (handle_root_any environ g m st Himport). cbn [fst].
  unfold fastapi.render, spec.root_response, JSONResponse.
  cbn [body fastapi.texts fastapi.json_texts app fastapi.encode_all].
  unfold Py.encode.
  change (Py.utf8 "message") with true. change (Py.utf8 "OK 🚀") with true.
  change (Py.utf8 "version") with true. change (Py.utf8 "environment") with true.
  cbn iota. cbn [rbind].
  destruct (Py.utf8 (config.API_VERSION _)); [|reflexivity].
  destruct (Py.utf8 (config.ENVIRONMENT _)); reflexivity.
Qed.

Hypothesis Hlit : spec.literal (config.API_PREFIX (config.Settings_class m)) = true.

(** The status of every answer. *)
Lemma call_status scope st :
  In (status_code (fst (fastapi.call (main.app g) scope st)))
    [200; 307; 400; 404; 405; 500]%Z.
Proof using Himport Hlit.
  destruct (spec.preflight scope) eqn:Hp.
  - destruct (call_cors scope st Hp) as (o & rm & _ & _ & ->). cbn [fst].
    destruct (_ && _); simpl; auto.
  - rewrite (call_router scope st Hp). cbn [fst].
    pose proof (outcome_status m _ _ _
                  (handle_outcome environ g m Himport Hlit (request scope) st)) as Hs.
    unfold fastapi.render.
    destruct (fastapi.encode_all _); cbn [rbind fastapi.ServerErrorMiddleware].
    + simpl in Hs. simpl. intuition.
    + simpl. auto 10.
Qed.

(** Text in, no server error out. *)
Lemma call_text scope st :
  spec.text (config.Settings_class m) = true ->
  config.Settings_class st = config.Settings_class m ->
  Py.utf8 (path (request scope)) = true ->
  (spec.preflight scope = false ->
     fastapi.call (main.app g) scope st
     = (fst (fastapi.handle (main.app g) (request scope) st), st)
     /\ In (status_code (fst (fastapi.call (main.app g) scope st)))
          [200; 307; 404; 405]%Z)
  /\ (spec.preflight scope = true ->
        In (status_code (fst (fastapi.call (main.app g) scope st))) [200; 400]%Z).
Proof using Himport Hlit.
  intros Htext Hst Hpath. split; intros Hp.
  - rewrite (call_router scope st Hp).
    pose proof (handle_outcome environ g m Himport Hlit (request scope) st) as Hout.
    rewrite (outcome_renders environ g m Himport _ _ _ Htext
               ltac:(now rewrite Hst) Hpath Hout).
    cbn [fastapi.ServerErrorMiddleware fst]. split; [reflexivity|].
    exact (outcome_status m _ _ _ Hout).
  - destruct (call_cors scope st Hp) as (o & rm & _ & _ & ->). cbn [fst].
    destruct (_ && _); simpl; auto.
Qed.

End Behind_middleware.



(** ** Not found *)

Section Not_found.
Context {W : Type}.
Implicit Types (rs : list (Route W)) (scope : Request).

(** No route for the path as it is nor as the router rewrites it: 404.
    The path "/" is not rewritten. *)
Lemma Router_app_404 rs scope st :
  Forall (fun r => matches r scope = Return NONE) rs ->
  (path scope <> "/" ->
   Forall (fun r => matches r {| method := method scope;
                                 path := toggle_slash (path scope) |}
                    = Return NONE) rs) ->
  Router_app rs scope st = (http_exception 404 "Not Found", st).
Proof.
  intros H1 H2. unfold Router_app.
  rewrite (first_match_none rs scope H1 None).
  destruct (String.eqb_spec (path scope) "/") as [|Hne]; [reflexivity|].
  now rewrite (any_match_none rs _ (H2 Hne)).
Qed.

(** And only then, when no endpoint answers 404 itself. *)
Lemma Router_app_404_inv rs scope st :
  Forall (fun r => forall params st',
            status_code (fst (endpoint r params st')) <> 404%Z) rs ->
  status_code (fst (Router_app rs scope st)) = 404%Z ->
  Forall (fun r => matches r scope = Return NONE) rs
  /\ (path scope <> "/" ->
      Forall (fun r => matches r {| method := method scope;
                                    path := toggle_slash (path scope) |}
                       = Return NONE) rs).
Proof.
  intros Hep. unfold Router_app.
  destruct (first_match rs scope None) as [f|e] eqn:E; [|discriminate].
  destruct f as [r ps|r|].
  - apply first_match_inv in E as [Hin _].
    rewrite List.Forall_forall in Hep. intros H. now destruct (Hep r Hin ps st).
  - discriminate.
  - apply first_match_inv in E as [_ Hnone].
    destruct (String.eqb_spec (path scope) "/") as [Hp|Hp].
    + intros _. split; [exact Hnone | intros Hne; contradiction].
    + destruct (any_match rs _) as [[]|] eqn:Ea; try discriminate.
      intros _. split; [exact Hnone|]. intros _. exact (any_match_false _ _ Ea).
Qed.

End Not_found.

Lemma app_endpoints_not_404 (environ : gmap string string) g m :
  main.import environ = Return (g, m) ->
  Forall (fun r => forall params st',
            status_code (fst (endpoint r params st')) <> 404%Z)
    (fastapi.routes (main.app g)).
Proof.
  intros Himport.
  destruct (import_inv _ _ _ Himport)
    as (cls & r1 & r2 & r3 & r4 & r5 & r6 & r7 & r8 & _ & _ & _ & _ & _ & _ & _ & _
        & -> & H1 & H2 & H3 & H4 & H5 & H6 & H7 & H8).
  repeat constructor; intros params st.
  - now rewrite (proj2 (proj2 (proj2 H1))).
  - now rewrite (proj2 (proj2 (proj2 H2))).
  - now rewrite (proj2 (proj2 (proj2 H3))).
  - now rewrite (proj2 (proj2 (proj2 H4))).
  - now rewrite (proj2 (proj2 (proj2 H5))).
  - now rewrite (proj2 (proj2 (proj2 H6))).
  - rewrite (proj2 (proj2 (proj2 H7))). now destruct (params !! "name").
  - now rewrite (proj2 (proj2 (proj2 H8))).
Qed.

(** The documentation pages are the answers of two routes only. *)
Lemma documentation_routes (environ : gmap string string) g m r params st :
  main.import environ = Return (g, m) ->
  In r (fastapi.routes (main.app g)) ->
  (forall u t o, body (fst (endpoint r params st)) = SwaggerUI u t o ->
     route_path r = config.API_PREFIX (config.Settings_class m) +:+ "/docs")
  /\ (forall u t, body (fst (endpoint r params st)) = ReDoc u t ->
        route_path r = config.API_PREFIX (config.Settings_class m) +:+ "/redoc").
Proof.
  intros Himport.
  destruct (import_inv _ _ _ Himport)
    as (cls & r1 & r2 & r3 & r4 & r5 & r6 & r7 & r8 & _ & -> & _ & _ & _ & _ & _ & _
        & -> & H1 & H2 & H3 & H4 & H5 & H6 & H7 & H8).
  cbn [In config.Settings_class].
  intros [<-|[<-|[<-|[<-|[<-|[<-|[<-|[<-|[]]]]]]]]].
  - rewrite (proj2 (proj2 (proj2 H1))). split; discriminate.
  - rewrite (proj2 (proj2 (proj2 H2))). split; [intros; exact (proj1 H2) | discriminate].
  - rewrite (proj2 (proj2 (proj2 H3))). split; discriminate.
  - rewrite (proj2 (proj2 (proj2 H4))). split; [discriminate | intros; exact (proj1 H4)].
  - rewrite (proj2 (proj2 (proj2 H5))). split; discriminate.
  - rewrite (proj2 (proj2 (proj2 H6))). split; discriminate.
  - rewrite (proj2 (proj2 (proj2 H7))). destruct (params !! "name"); split; discriminate.
  - rewrite (proj2 (proj2 (proj2 H8))). split; discriminate.
Qed.

Section Behind_middleware_more.
Variables (environ : gmap string string) (g : main.globals) (m : config.module).
Hypothesis Himport : main.import environ = Return (g, m).
Hypothesis Hlit : spec.literal (config.API_PREFIX (config.Settings_class m)) = true.

Let prefix := config.API_PREFIX (config.Settings_class m).

(** An answer of fixed ASCII text passes the encoding. *)
Lemma call_fixed scope st r :
  spec.preflight scope = false ->
  fastapi.handle (main.app g) (request scope) st = (r, st) ->
  fastapi.render (main.app g) r = Return r ->
  fastapi.call (main.app g) scope st = (r, st).
Proof using Himport.
  intros Hp Hh Hr. rewrite (call_router environ g m Himport scope st Hp).
  rewrite Hh. cbn [fst]. now rewrite Hr.
Qed.

Lemma call_docs hs st :
  fastapi.call (main.app g) (spec.request_for "GET" (prefix +:+ "/docs") hs) st
  = (spec.docs_response, st).
Proof using Himport Hlit.
  apply call_fixed; [now apply preflight_needs_options | | reflexivity].
  exact (handle_docs environ g m Himport Hlit st).
Qed.

Lemma call_redoc hs st :
  fastapi.call (main.app g) (spec.request_for "GET" (prefix +:+ "/redoc") hs) st
  = (spec.redoc_response, st).
Proof using Himport Hlit.
  apply call_fixed; [now apply preflight_needs_options | | reflexivity].
  exact (handle_redoc environ g m Himport Hlit st).
Qed.

Lemma call_health hs st :
  fastapi.call (main.app g) (spec.request_for "GET" (prefix +:+ "/health") hs) st
  = (spec.health_response, st).
Proof using Himport Hlit.
  apply call_fixed; [now apply preflight_needs_options | | reflexivity].
  exact (handle_health environ g m Himport Hlit st).
Qed.

Lemma call_hello hs st :
  fastapi.call (main.app g) (spec.request_for "GET" (prefix +:+ "/hello") hs) st
  = (spec.hello_response "Hello, World!", st).
Proof using Himport Hlit.
  apply call_fixed; [now apply preflight_needs_options | | reflexivity].
  exact (handle_hello environ g m Himport Hlit st).
Qed.

(** Not a preflight, no route for the path: 404, and only then. *)
Lemma call_404 scope st :
  spec.preflight scope = false ->
  Forall (fun r => matches r (request scope) = Return NONE)
    (fastapi.routes (main.app g)) ->
  (path (request scope) <> "/" ->
   Forall (fun r => matches r {| method := method (request scope);
                                 path := toggle_slash (path (request scope)) |}
                    = Return NONE)
     (fastapi.routes (main.app g))) ->
  fastapi.call (main.app g) scope st = (http_exception 404 "Not Found", st).
Proof using Himport.
  intros Hp H1 H2. apply call_fixed; [exact Hp | | reflexivity].
  unfold fastapi.handle. now apply Router_app_404.
Qed.

Lemma call_404_inv scope st :
  status_code (fst (fastapi.call (main.app g) scope st)) = 404%Z ->
  spec.preflight scope = false
  /\ Forall (fun r => matches r (request scope) = Return NONE)
       (fastapi.routes (main.app g))
  /\ (path (request scope) <> "/" ->
      Forall (fun r => matches r {| method := method (request scope);
                                    path := toggle_slash (path (request scope)) |}
                       = Return NONE)
        (fastapi.routes (main.app g))).
Proof using Himport.
  destruct (spec.preflight scope) eqn:Hp.
  - destruct (call_cors environ g m Himport scope st Hp) as (o & rm & _ & _ & ->).
    cbn [fst]. destruct (_ && _); discriminate.
  - rewrite (call_router environ g m Himport scope st Hp). cbn [fst].
    unfold fastapi.render.
    destruct (fastapi.encode_all _); cbn [rbind fastapi.ServerErrorMiddleware];
      [|discriminate].
    intros H. split; [reflexivity|].
    exact (Router_app_404_inv _ _ st (app_endpoints_not_404 environ g m Himport) H).
Qed.

(** A path no route of the application has, with its slash or without. *)
Lemma nowhere_unmatched mth :
  Forall (fun r => matches r {| method := mth; path := "/nowhere" |} = Return NONE)
    (fastapi.routes (main.app g))
  /\ Forall (fun r => matches r {| method := mth; path := "/nowhere/" |}
                      = Return NONE)
       (fastapi.routes (main.app g)).
Proof using Himport Hlit.
  subst prefix. app_shape Himport Hlit. subst m. cbn [config.Settings_class] in *.
  set (p := config.API_PREFIX cls) in *. clearbody p.
  rewrite Hroutes. split.
  - repeat constructor; try (literal_none Hre1); try (literal_none Hre2);
      try (literal_none Hre3); try (literal_none Hre4); try (literal_none Hre5);
      try (literal_none Hre6); try (literal_none Hre8).
    segment_none Hre7.
  - repeat constructor; try (literal_none Hre1); try (literal_none Hre2);
      try (literal_none Hre3); try (literal_none Hre4); try (literal_none Hre5);
      try (literal_none Hre6); try (literal_none Hre8).
    segment_none Hre7.
Qed.

End Behind_middleware_more.

(** * The claims *)

(** C1.  The greeting handler answers a name with "Hello, " followed by
    the name, unchanged, followed by "!".  Through the application: under
    settings the framework accepts, for every name that is one non-empty
    path segment, GET <prefix>/hello/<name> is answered 200 with that
    message as its JSON body, whatever the state of the process. *)
Theorem hello_name_greets (environ : gmap string string) cfg (name : string) :
  config.Settings_body environ = Return cfg ->
  spec.startable cfg = true ->
  spec.segment name = true ->
  (forall (W : Type) (st : W) (any : string),
      hello.get_hello_name any st
      = ({| hello.message := "Hello, " +:+ any +:+ "!" |}, st))
  /\ exists g,
       main.import environ = Return (g, spec.after_import cfg)
       /\ forall st,
            fastapi.handle (main.app g)
              {| method := "GET";
                 path := config.API_PREFIX cfg +:+ "/hello/" +:+ name |} st
            = ({| status_code := 200;
                  body := JSONContent
                            (JObject [("message",
                                       JString ("Hello, " +:+ name +:+ "!"))]) |},
               st).
Proof.
  intros Hbody Hok Hname. split; [reflexivity|].
  destruct (import_startable environ cfg Hbody Hok) as (g & Himport & Hlit).
  exists g. split; [exact Himport|]. intros st.
  exact (handle_hello_name environ g _ Himport Hlit name st Hname).
Qed.

Lemma hello_name_greets_witness :
  config.Settings_body ∅ = Return spec.defaults
  /\ spec.startable spec.defaults = true
  /\ spec.segment "Alice" = true
  /\ exists g,
       main.import ∅ = Return (g, spec.after_import spec.defaults)
       /\ fastapi.handle (main.app g)
            {| method := "GET"; path := "/api/hello/Alice" |}
            (spec.after_import spec.defaults)
          = ({| status_code := 200;
                body := JSONContent
                          (JObject [("message", JString "Hello, Alice!")]) |},
             spec.after_import spec.defaults).
Proof.
  assert (Hbody : config.Settings_body ∅ = Return spec.defaults) by reflexivity.
  assert (Hok : spec.startable spec.defaults = true) by reflexivity.
  assert (Hname : spec.segment "Alice" = true) by reflexivity.
  split; [exact Hbody|]. split; [exact Hok|]. split; [exact Hname|].
  destruct (proj2 (hello_name_greets ∅ spec.defaults "Alice" Hbody Hok Hname))
    as (g & Himport & Hhandle).
  exists g. split; [exact Himport | exact (Hhandle _)].
Defined.

(** C2, as the claim states it, fails.  With ENVIRONMENT set to a byte
    that is not UTF-8 text the application starts, the root handler
    returns its three fields, and the response cannot be encoded: GET /
    is answered 500 "Internal Server Error", not 200. *)
Lemma root_of_undecodable_environment :
  exists g,
    main.import spec.undecodable_environ
    = Return (g, spec.after_import spec.undecodable)
    /\ fst (main.root (main.settings g) (spec.after_import spec.undecodable))
       = JObject [("message", JString "OK 🚀"); ("version", JString "1.0.0");
                  ("environment", JString (String "255" ""))]
    /\ fastapi.call (main.app g) (spec.request_for "GET" "/" [])
         (spec.after_import spec.undecodable)
       = ({| status_code := 500; body := PlainText "Internal Server Error" |},
          spec.after_import spec.undecodable)
    /\ status_code
         (fst (fastapi.call (main.app g) (spec.request_for "GET" "/" [])
                 (spec.after_import spec.undecodable))) <> 200%Z.
Proof.
  assert (Hbody : config.Settings_body spec.undecodable_environ
                  = Return spec.undecodable) by (vm_compute; reflexivity).
  assert (Hok : spec.startable spec.undecodable = true) by reflexivity.
  destruct (import_startable _ _ Hbody Hok) as (g & Himport & _).
  exists g. split; [exact Himport|]. split; [reflexivity|].
  pose proof (call_root _ g _ Himport [] (spec.after_import spec.undecodable)) as H.
  cbn in H. split; [exact H|]. rewrite H. discriminate.
Qed.

(** C2, amended.  The root handler returns the message "OK" with the
    rocket, and the version and the environment name it reads from the
    settings, which are the values the class body loaded.  Through the
    application, whenever it starts: after any run of requests, and
    whatever the headers, GET / is answered 200 with exactly these three
    fields when the version and the environment name are well-formed
    UTF-8, and 500 when one of them is not. *)
Theorem root_reports_configuration (environ : gmap string string) g m :
  main.import environ = Return (g, m) ->
  (forall settings st,
      main.root settings st
      = (JObject [("message", JString "OK 🚀");
                  ("version", JString (config.API_VERSION (config.Settings_class st)));
                  ("environment",
                   JString (config.ENVIRONMENT (config.Settings_class st)))],
         st))
  /\ config.Settings_body environ = Return (config.Settings_class m)
  /\ config.API_VERSION (config.Settings_class m)
     = config.getenv environ "API_VERSION" "1.0.0"
  /\ config.ENVIRONMENT (config.Settings_class m)
     = config.getenv environ "ENVIRONMENT" "development"
  /\ forall scopes hs,
       let st := snd (fastapi.calls (main.app g) scopes m) in
       fastapi.call (main.app g) (spec.request_for "GET" "/" hs) st
       = (if Py.utf8 (config.API_VERSION (config.Settings_class m))
             && Py.utf8 (config.ENVIRONMENT (config.Settings_class m))
          then {| status_code := 200;
                  body := JSONContent
                            (JObject
                               [("message", JString "OK 🚀");
                                ("version",
                                 JString (config.API_VERSION (config.Settings_class m)));
                                ("environment",
                                 JString (config.ENVIRONMENT
                                            (config.Settings_class m)))]) |}
          else {| status_code := 500; body := PlainText "Internal Server Error" |},
          st).
Proof.
  intros Himport. split; [reflexivity|].
  destruct (import_debugger environ g m Himport) as [Hbody _].
  destruct (Settings_body_inv environ _ Hbody) as (_ & Henv & _ & _ & _ & Hver & _).
  split; [exact Hbody|]. split; [exact Hver|]. split; [exact Henv|].
  intros scopes hs st. subst st.
  rewrite (calls_separate environ g m Himport). cbn [snd].
  exact (call_root environ g m Himport hs m).
Qed.

Lemma root_reports_configuration_witness :
  exists g,
    main.import spec.scenario_environ = Return (g, spec.after_import spec.scenario)
    /\ fastapi.call (main.app g)
         (spec.request_for "GET" "/" [("origin", "https://a.com")])
         (spec.after_import spec.scenario)
       = ({| status_code := 200;
             body := JSONContent
                       (JObject [("message", JString "OK 🚀");
                                 ("version", JString "1.0.0");
                                 ("environment", JString "production")]) |},
          spec.after_import spec.scenario).
Proof.
  assert (Hbody : config.Settings_body spec.scenario_environ = Return spec.scenario)
    by (vm_compute; reflexivity).
  assert (Hok : spec.startable spec.scenario = true) by reflexivity.
  destruct (import_startable _ _ Hbody Hok) as (g & Himport & _).
  exists g. split; [exact Himport|].
  exact (proj2 (proj2 (proj2 (proj2
           (root_reports_configuration spec.scenario_environ g _ Himport))))
           [] [("origin", "https://a.com")]).
Defined.



(** C5.  The allowed origins are the comma-split of CORS_ORIGINS, in
    order: "https://a.com,https://b.com" gives exactly these two origins,
    an unset variable gives the wildcard alone, and for every value the
    list is the one list of comma-free items that, joined with commas,
    spells the value.  This list is what the CORS middleware of the
    application is configured with. *)
Theorem cors_origins_comma_split (environ : gmap string string) cfg :
  config.Settings_body environ = Return cfg ->
  (environ !! "CORS_ORIGINS" = Some "https://a.com,https://b.com" ->
     config.CORS_ORIGINS cfg = ["https://a.com"; "https://b.com"])
  /\ (environ !! "CORS_ORIGINS" = None -> config.CORS_ORIGINS cfg = ["*"])
  /\ (forall v, environ !! "CORS_ORIGINS" = Some v ->
        config.CORS_ORIGINS cfg = Py.split "," v
        /\ forall items,
             spec.comma_split v items <-> items = config.CORS_ORIGINS cfg)
  /\ (forall g m, main.import environ = Return (g, m) ->
        map fastapi.allow_origins (fastapi.user_middleware (main.app g))
        = [config.CORS_ORIGINS cfg]).
Proof.
  intros Hbody.
  destruct (Settings_body_inv environ cfg Hbody) as (_ & _ & _ & _ & _ & _ & Hcors & _).
  split; [|split; [|split]].
  - intros Hv. now rewrite Hcors, (getenv_set environ _ _ _ Hv).
  - intros Hv. now rewrite Hcors, (getenv_unset environ _ _ Hv).
  - intros v Hv. rewrite Hcors, (getenv_set environ _ _ _ Hv).
    split; [reflexivity|]. intros items.
    rewrite comma_split_unique. split; congruence.
  - intros g m Himport.
    destruct (import_inv _ _ _ Himport)
      as (cls & _ & _ & _ & _ & _ & _ & _ & _ & Hcls & _ & _ & _ & _ & _ & _ & Hmw & _).
    rewrite Hmw. cbn [map fastapi.allow_origins]. congruence.
Qed.

Lemma cors_origins_comma_split_witness :
  config.Settings_body (<["CORS_ORIGINS" := "https://a.com,https://b.com"]> ∅)
  = Return {| config.ENVIRONMENT := "development"; config.DEBUG := false;
              config.LOG_LEVEL := "INFO"; config.API_PREFIX := "/api";
              config.API_VERSION := "1.0.0";
              config.CORS_ORIGINS := ["https://a.com"; "https://b.com"];
              config.HOST := "0.0.0.0"; config.PORT := 8080 |}
  /\ spec.comma_split "https://a.com,https://b.com"
       ["https://a.com"; "https://b.com"].
Proof.
  assert (Hbody :
    config.Settings_body (<["CORS_ORIGINS" := "https://a.com,https://b.com"]> ∅)
    = Return {| config.ENVIRONMENT := "development"; config.DEBUG := false;
                config.LOG_LEVEL := "INFO"; config.API_PREFIX := "/api";
                config.API_VERSION := "1.0.0";
                config.CORS_ORIGINS := ["https://a.com"; "https://b.com"];
                config.HOST := "0.0.0.0"; config.PORT := 8080 |})
    by (vm_compute; reflexivity).
  assert (Hv : (<["CORS_ORIGINS" := "https://a.com,https://b.com"]> ∅
                : gmap string string) !! "CORS_ORIGINS"
               = Some "https://a.com,https://b.com") by (vm_compute; reflexivity).
  split; [exact Hbody|].
  exact (proj2 (proj2 (proj1 (proj2 (proj2
           (cors_origins_comma_split _ _ Hbody))) _ Hv) _) eq_refl).
Defined.

(** C6.  DEBUG is true exactly when the lower-cased text of the variable
    is "true", that is, when the text is one of the sixteen spellings of
    "true" in upper and lower case; "TRUE" and "True" give true, "1" and
    "yes" give false, and an unset variable gives false.  The five text
    settings are taken from the environment as they are. *)
Theorem debug_flag_coercion (environ : gmap string string) cfg :
  config.Settings_body environ = Return cfg ->
  (forall s, environ !! "DEBUG" = Some s ->
     (config.DEBUG cfg = true <-> Py.lower s = "true")
     /\ (config.DEBUG cfg = true <-> spec.spells_true s))
  /\ (environ !! "DEBUG" = None -> config.DEBUG cfg = false)
  /\ (environ !! "DEBUG" = Some "TRUE" -> config.DEBUG cfg = true)
  /\ (environ !! "DEBUG" = Some "True" -> config.DEBUG cfg = true)
  /\ (environ !! "DEBUG" = Some "1" -> config.DEBUG cfg = false)
  /\ (environ !! "DEBUG" = Some "yes" -> config.DEBUG cfg = false)
  /\ (forall v, environ !! "ENVIRONMENT" = Some v -> config.ENVIRONMENT cfg = v)
  /\ (forall v, environ !! "LOG_LEVEL" = Some v -> config.LOG_LEVEL cfg = v)
  /\ (forall v, environ !! "API_PREFIX" = Some v -> config.API_PREFIX cfg = v)
  /\ (forall v, environ !! "API_VERSION" = Some v -> config.API_VERSION cfg = v)
  /\ (forall v, environ !! "HOST" = Some v -> config.HOST cfg = v).
Proof.
  intros Hbody.
  destruct (Settings_body_inv environ cfg Hbody)
    as (_ & Henv & Hdebug & Hlog & Hprefix & Hver & _ & Hhost).
  assert (Hs : forall s, environ !! "DEBUG" = Some s ->
                 config.DEBUG cfg = String.eqb (Py.lower s) "true").
  { intros s Hv. now rewrite Hdebug, (getenv_set environ _ _ _ Hv). }
  split.
  { intros s Hv. rewrite (Hs s Hv), String.eqb_eq. split; [reflexivity|].
    apply lower_true. }
  split.
  { intros Hv. now rewrite Hdebug, (getenv_unset environ _ _ Hv). }
  split; [intros Hv; now rewrite (Hs _ Hv)|].
  split; [intros Hv; now rewrite (Hs _ Hv)|].
  split; [intros Hv; now rewrite (Hs _ Hv)|].
  split; [intros Hv; now rewrite (Hs _ Hv)|].
  split; [intros v Hv; now rewrite Henv, (getenv_set environ _ _ _ Hv)|].
  split; [intros v Hv; now rewrite Hlog, (getenv_set environ _ _ _ Hv)|].
  split; [intros v Hv; now rewrite Hprefix, (getenv_set environ _ _ _ Hv)|].
  split; [intros v Hv; now rewrite Hver, (getenv_set environ _ _ _ Hv)|].
  intros v Hv; now rewrite Hhost, (getenv_set environ _ _ _ Hv).
Qed.

Lemma debug_flag_coercion_witness :
  config.Settings_body (<["DEBUG" := "TrUe"]> ∅)
  = Return {| config.ENVIRONMENT := "development"; config.DEBUG := true;
              config.LOG_LEVEL := "INFO"; config.API_PREFIX := "/api";
              config.API_VERSION := "1.0.0"; config.CORS_ORIGINS := ["*"];
              config.HOST := "0.0.0.0"; config.PORT := 8080 |}
  /\ (true = true <-> spec.spells_true "TrUe").
Proof.
  assert (Hbody :
    config.Settings_body (<["DEBUG" := "TrUe"]> ∅)
    = Return {| config.ENVIRONMENT := "development"; config.DEBUG := true;
                config.LOG_LEVEL := "INFO"; config.API_PREFIX := "/api";
                config.API_VERSION := "1.0.0"; config.CORS_ORIGINS := ["*"];
                config.HOST := "0.0.0.0"; config.PORT := 8080 |})
    by (vm_compute; reflexivity).
  assert (Hv : (<["DEBUG" := "TrUe"]> ∅ : gmap string string) !! "DEBUG"
               = Some "TrUe") by (vm_compute; reflexivity).
  split; [exact Hbody|].
  exact (proj2 (proj1 (debug_flag_coercion _ _ Hbody) _ Hv)).
Defined.

(** C7.  The health handler returns the constant pair "healthy", "OK"
    and leaves the state alone.  Through the application: under settings
    the framework accepts, after any run of requests, GET <prefix>/health
    is answered 200 with exactly that body, and the state of the process
    is the one the import left. *)
Theorem health_always_ok (environ : gmap string string) cfg
    (requests : list Request) :
  config.Settings_body environ = Return cfg ->
  spec.startable cfg = true ->
  (forall (W : Type) (st : W),
      health.get_health st
      = ({| health.status := "healthy"; health.message := "OK" |}, st))
  /\ exists g,
       main.import environ = Return (g, spec.after_import cfg)
       /\ snd (fastapi.serve (main.app g) requests (spec.after_import cfg))
          = spec.after_import cfg
       /\ forall st,
            fastapi.handle (main.app g)
              {| method := "GET"; path := config.API_PREFIX cfg +:+ "/health" |} st
            = ({| status_code := 200;
                  body := JSONContent
                            (JObject [("status", JString "healthy");
                                      ("message", JString "OK")]) |},
               st).
Proof.
  intros Hbody Hok. split; [reflexivity|].
  destruct (import_startable environ cfg Hbody Hok) as (g & Himport & Hlit).
  exists g. split; [exact Himport|]. split.
  - now rewrite (serve_pure (main.app g) (handle_keeps_state environ g _ Himport)).
  - intros st. exact (handle_health environ g _ Himport Hlit st).
Qed.

Lemma health_always_ok_witness :
  config.Settings_body ∅ = Return spec.defaults
  /\ spec.startable spec.defaults = true
  /\ exists g,
       main.import ∅ = Return (g, spec.after_import spec.defaults)
       /\ fst (fastapi.handle (main.app g)
                 {| method := "GET"; path := "/api/health" |}
                 (snd (fastapi.serve (main.app g)
                         [ {| method := "GET"; path := "/api/hello/Bob" |};
                           {| method := "POST"; path := "/nowhere" |} ]
                         (spec.after_import spec.defaults))))
          = {| status_code := 200;
               body := JSONContent
                         (JObject [("status", JString "healthy");
                                   ("message", JString "OK")]) |}.
Proof.
  assert (Hbody : config.Settings_body ∅ = Return spec.defaults) by reflexivity.
  assert (Hok : spec.startable spec.defaults = true) by reflexivity.
  split; [exact Hbody|]. split; [exact Hok|].
  destruct (proj2 (health_always_ok ∅ spec.defaults
                     [ {| method := "GET"; path := "/api/hello/Bob" |};
                       {| method := "POST"; path := "/nowhere" |} ] Hbody Hok))
    as (g & Himport & Hstate & Hhealth).
  exists g. split; [exact Himport|].
  rewrite Hstate. exact (f_equal fst (Hhealth _)).
Defined.

(** C8, as the claim states it, fails.  Under the default settings:
    no registered route matches the method and path of POST /api/health,
    and the answer is 405, not 404; no registered route matches the path
    of GET /api/health/ at all, and the answer is 307, not 404; and no
    registered route matches the path of an OPTIONS request for /nowhere
    that carries the headers of a CORS preflight, with its slash or
    without, and the answer is 200, not 404. *)
Lemma unmatched_request_not_404 :
  exists g,
    main.import ∅ = Return (g, spec.after_import spec.defaults)
    /\ Forall (fun r => forall params,
                 matches r {| method := "POST"; path := "/api/health" |}
                 <> Return (FULL params))
         (fastapi.routes (main.app g))
    /\ fst (fastapi.call (main.app g) (spec.request_for "POST" "/api/health" [])
              (spec.after_import spec.defaults))
       = {| status_code := 405;
            body := JSONContent (JObject [("detail", JString "Method Not Allowed")]) |}
    /\ Forall (fun r => matches r {| method := "GET"; path := "/api/health/" |}
                        = Return NONE)
         (fastapi.routes (main.app g))
    /\ fst (fastapi.call (main.app g) (spec.request_for "GET" "/api/health/" [])
              (spec.after_import spec.defaults))
       = {| status_code := 307; body := Redirect "/api/health" |}
    /\ Forall (fun r => matches r {| method := "OPTIONS"; path := "/nowhere" |}
                        = Return NONE)
         (fastapi.routes (main.app g))
    /\ Forall (fun r => matches r {| method := "OPTIONS"; path := "/nowhere/" |}
                        = Return NONE)
         (fastapi.routes (main.app g))
    /\ fst (fastapi.call (main.app g)
              (spec.request_for "OPTIONS" "/nowhere"
                 [("origin", "https://a.com");
                  ("access-control-request-method", "GET")])
              (spec.after_import spec.defaults))
       = {| status_code := 200; body := PlainText "OK" |}.
Proof.
  assert (Hbody : config.Settings_body ∅ = Return spec.defaults) by reflexivity.
  assert (Hok : spec.startable spec.defaults = true) by reflexivity.
  destruct (import_startable ∅ spec.defaults Hbody Hok) as (g & Himport & Hlit).
  exists g. split; [exact Himport|].
  destruct (health_other_method ∅ g _ Himport Hlit "POST"
              (spec.after_import spec.defaults) eq_refl) as [Hno Hpost].
  destruct (health_trailing_slash ∅ g _ Himport Hlit
              (spec.after_import spec.defaults)) as [Hnone Hslash].
  destruct (nowhere_unmatched ∅ g _ Himport Hlit "OPTIONS") as [Hn1 Hn2].
  cbn [spec.after_import config.Settings_class spec.defaults config.API_PREFIX]
    in Hno, Hpost, Hnone, Hslash.
  change ("/api" +:+ "/health") with "/api/health" in Hno, Hpost, Hslash.
  change ("/api" +:+ "/health/") with "/api/health/" in Hnone, Hslash.
  split; [exact Hno|].
  split.
  { erewrite (call_fixed ∅ g _ Himport (spec.request_for "POST" "/api/health" []));
      [reflexivity | reflexivity | exact Hpost | reflexivity]. }
  split; [exact Hnone|].
  split.
  { erewrite (call_fixed ∅ g _ Himport (spec.request_for "GET" "/api/health/" []));
      [reflexivity | reflexivity | exact Hslash | reflexivity]. }
  split; [exact Hn1|]. split; [exact Hn2|].
  destruct (call_cors ∅ g _ Himport
              (spec.request_for "OPTIONS" "/nowhere"
                 [("origin", "https://a.com");
                  ("access-control-request-method", "GET")])
              (spec.after_import spec.defaults) eq_refl)
    as (o & rm & Ho & Hrm & ->).
  injection Ho as <-. injection Hrm as <-. reflexivity.
Qed.

(** C8, amended.  Whenever the application starts with a prefix that
    holds no template parameter, it has eight routes, in this order: the
    schema, the documentation at <prefix>/docs, its OAuth2 redirect page,
    the documentation at <prefix>/redoc, health and the two greetings
    under the prefix, and the root at "/".  The two documentation pages
    are the answers of the routes at exactly <prefix>/docs and
    <prefix>/redoc and of no other route.  GET on each of these paths,
    whatever the headers, reaches the handler registered for it.  A
    request that is not a CORS preflight and whose path matches no route,
    neither as it is sent nor as the router rewrites it, is answered 404
    "Not Found", and nothing else is answered 404.  The router rewrites a
    path other than "/" by taking every slash off its end or, when it has
    none there, by adding one. *)
Theorem routes_registered (environ : gmap string string) g m :
  main.import environ = Return (g, m) ->
  spec.literal (config.API_PREFIX (config.Settings_class m)) = true ->
  let prefix := config.API_PREFIX (config.Settings_class m) in
  map route_path (fastapi.routes (main.app g))
  = [ "/openapi.json"; prefix +:+ "/docs"; "/docs/oauth2-redirect";
      prefix +:+ "/redoc"; prefix +:+ "/health"; prefix +:+ "/hello";
      prefix +:+ "/hello/{name}"; "/" ]
  /\ fastapi.docs_url (main.app g) = prefix +:+ "/docs"
  /\ fastapi.redoc_url (main.app g) = prefix +:+ "/redoc"
  /\ (forall r params st,
        In r (fastapi.routes (main.app g)) ->
        (forall u t o, body (fst (endpoint r params st)) = SwaggerUI u t o ->
           route_path r = prefix +:+ "/docs")
        /\ (forall u t, body (fst (endpoint r params st)) = ReDoc u t ->
              route_path r = prefix +:+ "/redoc"))
  /\ (forall hs st,
        fastapi.call (main.app g) (spec.request_for "GET" (prefix +:+ "/docs") hs) st
        = ({| status_code := 200;
              body := SwaggerUI "/openapi.json"
                        "FastAPI Cloud Deployment - Swagger UI"
                        "/docs/oauth2-redirect" |}, st))
  /\ (forall hs st,
        fastapi.call (main.app g) (spec.request_for "GET" (prefix +:+ "/redoc") hs) st
        = ({| status_code := 200;
              body := ReDoc "/openapi.json" "FastAPI Cloud Deployment - ReDoc" |},
           st))
  /\ (forall hs st,
        fastapi.call (main.app g) (spec.request_for "GET" (prefix +:+ "/health") hs) st
        = (spec.health_response, st))
  /\ (forall hs st,
        fastapi.call (main.app g) (spec.request_for "GET" (prefix +:+ "/hello") hs) st
        = (spec.hello_response "Hello, World!", st))
  /\ (forall hs st,
        fastapi.handle (main.app g) (request (spec.request_for "GET" "/" hs)) st
        = (spec.root_response (config.Settings_class st), st))
  /\ (forall scope st,
        spec.preflight scope = false ->
        Forall (fun r => matches r (request scope) = Return NONE)
          (fastapi.routes (main.app g)) ->
        (path (request scope) <> "/" ->
         Forall (fun r => matches r {| method := method (request scope);
                                       path := toggle_slash (path (request scope)) |}
                          = Return NONE)
           (fastapi.routes (main.app g))) ->
        fastapi.call (main.app g) scope st
        = ({| status_code := 404;
              body := JSONContent (JObject [("detail", JString "Not Found")]) |},
           st))
  /\ (forall scope st,
        status_code (fst (fastapi.call (main.app g) scope st)) = 404%Z ->
        spec.preflight scope = false
        /\ Forall (fun r => matches r (request scope) = Return NONE)
             (fastapi.routes (main.app g))
        /\ (path (request scope) <> "/" ->
            Forall (fun r => matches r {| method := method (request scope);
                                          path := toggle_slash
                                                    (path (request scope)) |}
                             = Return NONE)
              (fastapi.routes (main.app g))))
  /\ (forall p,
        (Py.endswith_char p "/" = true ->
         exists k, p = toggle_slash p +:+ spec.slashes (S k)
                   /\ Py.endswith_char (toggle_slash p) "/" = false)
        /\ (Py.endswith_char p "/" = false -> toggle_slash p = p +:+ "/")).
Proof.
  intros Himport Hlit prefix. subst prefix.
  destruct (import_route_paths environ g _ Himport) as (Hpaths & _ & Hdocs & Hredoc).
  split; [exact Hpaths|]. split; [exact Hdocs|]. split; [exact Hredoc|].
  split; [intros r params st Hin;
          exact (documentation_routes environ g m r params st Himport Hin)|].
  split; [intros hs st; exact (call_docs environ g m Himport Hlit hs st)|].
  split; [intros hs st; exact (call_redoc environ g m Himport Hlit hs st)|].
  split; [intros hs st; exact (call_health environ g m Himport Hlit hs st)|].
  split; [intros hs st; exact (call_hello environ g m Himport Hlit hs st)|].
  split; [intros hs st; exact (handle_root_any environ g m st Himport)|].
  split; [intros scope st; exact (call_404 environ g m Himport scope st)|].
  split; [intros scope st; exact (call_404_inv environ g m Himport scope st)|].
  intros p. split; [apply toggle_slash_strips | apply toggle_slash_adds].
Qed.

Lemma routes_registered_witness :
  exists g,
    main.import ∅ = Return (g, spec.after_import spec.defaults)
    /\ map route_path (fastapi.routes (main.app g))
       = [ "/openapi.json"; "/api/docs"; "/docs/oauth2-redirect";
           "/api/redoc"; "/api/health"; "/api/hello";
           "/api/hello/{name}"; "/" ]
    /\ fst (fastapi.call (main.app g) (spec.request_for "GET" "/nowhere" [])
              (spec.after_import spec.defaults))
       = {| status_code := 404;
            body := JSONContent (JObject [("detail", JString "Not Found")]) |}.
Proof.
  assert (Hbody : config.Settings_body ∅ = Return spec.defaults) by reflexivity.
  assert (Hok : spec.startable spec.defaults = true) by reflexivity.
  destruct (import_startable ∅ spec.defaults Hbody Hok) as (g & Himport & Hlit).
  destruct (nowhere_unmatched ∅ g _ Himport Hlit "GET") as [Hn1 Hn2].
  destruct (routes_registered ∅ g _ Himport Hlit)
    as (Hpaths & _ & _ & _ & _ & _ & _ & _ & _ & H404 & _).
  exists g. split; [exact Himport|]. split; [exact Hpaths|].
  exact (f_equal fst
           (H404 (spec.request_for "GET" "/nowhere" []) _ eq_refl Hn1 (fun _ => Hn2))).
Defined.

(** C9.  The four handlers return their value and leave the state of
    the process as it was, and what they return is the same from any two
    states that hold the same settings.  Through the application,
    middleware and encoding included, whenever it starts: answering a
    request leaves the state as it was; the answer is the same from any
    two states that hold the same settings, so it depends neither on
    the cache nor on the requests served before; and a run of requests
    yields, request by request, the answers each would get alone.  With
    a prefix that holds no template parameter every request is
    answered, with status 200, 307, 400, 404, 405 or 500; when the
    settings and the path are well-formed UTF-8 no request is answered
    500, a request that is no CORS preflight gets the router's answer
    with status 200, 307, 404 or 405, and a preflight gets 200 or 400. *)
Theorem handlers_deterministic_and_stateless (environ : gmap string string) g m :
  main.import environ = Return (g, m) ->
  (forall (W : Type) (st1 st2 : W) (name : string),
      health.get_health st1 = ({| health.status := "healthy";
                                  health.message := "OK" |}, st1)
      /\ hello.get_hello st1 = ({| hello.message := "Hello, World!" |}, st1)
      /\ hello.get_hello_name name st1
         = ({| hello.message := "Hello, " +:+ name +:+ "!" |}, st1)
      /\ fst (health.get_health st1) = fst (health.get_health st2)
      /\ fst (hello.get_hello st1) = fst (hello.get_hello st2)
      /\ fst (hello.get_hello_name name st1) = fst (hello.get_hello_name name st2))
  /\ (forall settings st1 st2,
        snd (main.root settings st1) = st1
        /\ (config.Settings_class st1 = config.Settings_class st2 ->
            fst (main.root settings st1) = fst (main.root settings st2)))
  /\ (forall scope st, snd (fastapi.call (main.app g) scope st) = st)
  /\ (forall scope st1 st2,
        config.Settings_class st1 = config.Settings_class st2 ->
        fst (fastapi.call (main.app g) scope st1)
        = fst (fastapi.call (main.app g) scope st2))
  /\ (forall scopes st,
        fastapi.calls (main.app g) scopes st
        = (map (fun scope => fst (fastapi.call (main.app g) scope st)) scopes, st))
  /\ (spec.literal (config.API_PREFIX (config.Settings_class m)) = true ->
      (forall scope st,
          In (status_code (fst (fastapi.call (main.app g) scope st)))
            [200; 307; 400; 404; 405; 500]%Z)
      /\ (forall scope st,
            spec.text (config.Settings_class m) = true ->
            config.Settings_class st = config.Settings_class m ->
            Py.utf8 (path (request scope)) = true ->
            (spec.preflight scope = false ->
             fastapi.call (main.app g) scope st
             = (fst (fastapi.handle (main.app g) (request scope) st), st)
             /\ In (status_code (fst (fastapi.call (main.app g) scope st)))
                  [200; 307; 404; 405]%Z)
            /\ (spec.preflight scope = true ->
                In (status_code (fst (fastapi.call (main.app g) scope st)))
                  [200; 400]%Z))).
Proof.
  intros Himport.
  split; [intros W st1 st2 name; repeat split|].
  split; [intros settings st1 st2; split; [reflexivity|]|].
  { intros Hsame. unfold main.root, sbind, sget, sret. cbn [fst].
    unfold config.getattr. now rewrite Hsame. }
  split; [exact (call_keeps_state environ g m Himport)|].
  split; [exact (call_reads_settings environ g m Himport)|].
  split; [exact (calls_separate environ g m Himport)|].
  intros Hlit.
  split; [exact (call_status environ g m Himport Hlit)|].
  intros scope st. exact (call_text environ g m Himport Hlit scope st).
Qed.

Lemma handlers_deterministic_and_stateless_witness :
  exists g,
    main.import ∅ = Return (g, spec.after_import spec.defaults)
    /\ fastapi.calls (main.app g)
         [spec.request_for "GET" "/api/hello/Alice" [];
          spec.request_for "GET" "/" []]
         (spec.after_import spec.defaults)
       = ([fst (fastapi.call (main.app g)
                  (spec.request_for "GET" "/api/hello/Alice" [])
                  (spec.after_import spec.defaults));
           fst (fastapi.call (main.app g) (spec.request_for "GET" "/" [])
                  (spec.after_import spec.defaults))],
          spec.after_import spec.defaults).
Proof.
  assert (Hbody : config.Settings_body ∅ = Return spec.defaults) by reflexivity.
  assert (Hok : spec.startable spec.defaults = true) by reflexivity.
  destruct (import_startable ∅ spec.defaults Hbody Hok) as (g & Himport & _).
  exists g. split; [exact Himport|].
  destruct (handlers_deterministic_and_stateless ∅ g _ Himport)
    as (_ & _ & _ & _ & Hruns & _).
  exact (Hruns _ _).
Defined.

(** C10.  The split keeps everything: an empty CORS_ORIGINS gives the one
    empty origin, "a, b" keeps the blank before "b", and for every value
    the list has one item more than the value has commas and joins back
    to the value, character for character. *)
Theorem cors_origins_kept_verbatim (environ : gmap string string) cfg :
  config.Settings_body environ = Return cfg ->
  (environ !! "CORS_ORIGINS" = Some "" -> config.CORS_ORIGINS cfg = [""])
  /\ (environ !! "CORS_ORIGINS" = Some "a, b" ->
        config.CORS_ORIGINS cfg = ["a"; " b"])
  /\ (forall v, environ !! "CORS_ORIGINS" = Some v ->
        length (config.CORS_ORIGINS cfg) = S (spec.count "," v)
        /\ Py.join "," (config.CORS_ORIGINS cfg) = v).
Proof.
  intros Hbody.
  destruct (Settings_body_inv environ cfg Hbody) as (_ & _ & _ & _ & _ & _ & Hcors & _).
  split; [|split].
  - intros Hv. now rewrite Hcors, (getenv_set environ _ _ _ Hv).
  - intros Hv. now rewrite Hcors, (getenv_set environ _ _ _ Hv).
  - intros v Hv. rewrite Hcors, (getenv_set environ _ _ _ Hv).
    split; [apply split_length | apply join_split].
Qed.

Lemma cors_origins_kept_verbatim_witness :
  config.Settings_body (<["CORS_ORIGINS" := "a, b"]> ∅)
  = Return {| config.ENVIRONMENT := "development"; config.DEBUG := false;
              config.LOG_LEVEL := "INFO"; config.API_PREFIX := "/api";
              config.API_VERSION := "1.0.0"; config.CORS_ORIGINS := ["a"; " b"];
              config.HOST := "0.0.0.0"; config.PORT := 8080 |}
  /\ length ["a"; " b"] = 2%nat /\ Py.join "," ["a"; " b"] = "a, b".
Proof.
  assert (Hbody :
    config.Settings_body (<["CORS_ORIGINS" := "a, b"]> ∅)
    = Return {| config.ENVIRONMENT := "development"; config.DEBUG := false;
                config.LOG_LEVEL := "INFO"; config.API_PREFIX := "/api";
                config.API_VERSION := "1.0.0"; config.CORS_ORIGINS := ["a"; " b"];
                config.HOST := "0.0.0.0"; config.PORT := 8080 |})
    by (vm_compute; reflexivity).
  assert (Hv : (<["CORS_ORIGINS" := "a, b"]> ∅ : gmap string string)
               !! "CORS_ORIGINS" = Some "a, b") by (vm_compute; reflexivity).
  split; [exact Hbody|].
  exact (proj2 (proj2 (cors_origins_kept_verbatim _ _ Hbody)) _ Hv).
Defined.

(** * Further properties of the code *)

(** X1.  The plain greeting: GET <prefix>/hello is answered 200 with
    "Hello, World!"; the parameterized route does not take it, and the
    same path with a trailing slash, that is with an empty name, is not
    greeted either but redirected to it. *)
Theorem hello_world_greets (environ : gmap string string) cfg :
  config.Settings_body environ = Return cfg ->
  spec.startable cfg = true ->
  (forall (W : Type) (st : W),
      hello.get_hello st = ({| hello.message := "Hello, World!" |}, st))
  /\ exists g,
       main.import environ = Return (g, spec.after_import cfg)
       /\ (forall st,
             fastapi.handle (main.app g)
               {| method := "GET"; path := config.API_PREFIX cfg +:+ "/hello" |} st
             = ({| status_code := 200;
                   body := JSONContent
                             (JObject [("message", JString "Hello, World!")]) |},
                st))
       /\ (forall st,
             fastapi.handle (main.app g)
               {| method := "GET"; path := config.API_PREFIX cfg +:+ "/hello/" |} st
             = ({| status_code := 307;
                   body := Redirect (config.API_PREFIX cfg +:+ "/hello") |}, st)).
Proof.
  intros Hbody Hok. split; [reflexivity|].
  destruct (import_startable environ cfg Hbody Hok) as (g & Himport & Hlit).
  exists g. split; [exact Himport|]. split; intros st.
  - exact (handle_hello environ g _ Himport Hlit st).
  - exact (hello_trailing_slash environ g _ Himport Hlit st).
Qed.

Lemma hello_world_greets_witness :
  config.Settings_body ∅ = Return spec.defaults
  /\ spec.startable spec.defaults = true
  /\ exists g,
       main.import ∅ = Return (g, spec.after_import spec.defaults)
       /\ fst (fastapi.handle (main.app g)
                 {| method := "GET"; path := "/api/hello" |}
                 (spec.after_import spec.defaults))
          = {| status_code := 200;
               body := JSONContent
                         (JObject [("message", JString "Hello, World!")]) |}.
Proof.
  assert (Hbody : config.Settings_body ∅ = Return spec.defaults) by reflexivity.
  assert (Hok : spec.startable spec.defaults = true) by reflexivity.
  split; [exact Hbody|]. split; [exact Hok|].
  destruct (proj2 (hello_world_greets ∅ spec.defaults Hbody Hok))
    as (g & Himport & Hhello & _).
  exists g. split; [exact Himport | exact (f_equal fst (Hhello _))].
Defined.

(** X2.  [is_production] holds exactly when ENVIRONMENT is set to
    "production", [is_development] exactly when it is set to
    "development" or not set at all; the comparison is exact, so another
    spelling gives neither, and the two never hold together. *)
Theorem environment_properties (environ : gmap string string) cfg :
  config.Settings_body environ = Return cfg ->
  (config.is_production cfg = true <-> environ !! "ENVIRONMENT" = Some "production")
  /\ (config.is_development cfg = true <->
        environ !! "ENVIRONMENT" = Some "development"
        \/ environ !! "ENVIRONMENT" = None)
  /\ (config.is_production cfg && config.is_development cfg = false)
  /\ (forall v, environ !! "ENVIRONMENT" = Some v ->
        v <> "production" -> v <> "development" ->
        config.is_production cfg = false /\ config.is_development cfg = false).
Proof.
  intros Hbody.
  destruct (Settings_body_inv environ cfg Hbody) as (_ & Henv & _).
  unfold config.is_production, config.is_development. rewrite Henv.
  destruct (environ !! "ENVIRONMENT") as [v|] eqn:E;
    [ rewrite (getenv_set environ _ _ _ E) | rewrite (getenv_unset environ _ _ E) ].
  - split; [|split; [|split]].
    + rewrite String.eqb_eq. split; [intros ->; reflexivity | intros [= ->]; reflexivity].
    + rewrite String.eqb_eq.
      split; [intros ->; now left | intros [[= ->]|[=]]; reflexivity].
    + destruct (String.eqb_spec v "production") as [->|]; [reflexivity|reflexivity].
    + intros v' [= <-] H1 H2. now rewrite !(proj2 (String.eqb_neq _ _)).
  - split; [|split; [|split]].
    + split; discriminate.
    + split; [now right | reflexivity].
    + reflexivity.
    + discriminate.
Qed.

Lemma environment_properties_witness :
  config.Settings_body spec.scenario_environ = Return spec.scenario
  /\ config.is_production spec.scenario = true
  /\ config.is_development spec.scenario = false.
Proof.
  assert (Hbody : config.Settings_body spec.scenario_environ = Return spec.scenario)
    by (vm_compute; reflexivity).
  assert (Hv : spec.scenario_environ !! "ENVIRONMENT" = Some "production")
    by (vm_compute; reflexivity).
  split; [exact Hbody|].
  destruct (environment_properties _ _ Hbody) as (Hprod & _ & Hexcl & _).
  pose proof (proj2 Hprod Hv) as Hp.
  split; [exact Hp|]. rewrite Hp in Hexcl. exact Hexcl.
Defined.

(** X3.  Importing [main] starts the debugger exactly when DEBUG is set
    to one of the spellings of "true"; with DEBUG unset it is never
    started. *)
Theorem debugger_only_when_debug (environ : gmap string string) g m :
  main.import environ = Return (g, m) ->
  (main.debugger g = true <->
     exists s, environ !! "DEBUG" = Some s /\ spec.spells_true s)
  /\ (environ !! "DEBUG" = None -> main.debugger g = false)
  /\ main.debugger g = config.DEBUG (config.Settings_class m).
Proof.
  intros Himport.
  destruct (import_debugger environ g m Himport) as [Hbody Hdbg].
  destruct (debug_spelling environ _ Hbody) as [Hset Hunset].
  rewrite Hdbg. split; [exact Hset|]. split; [exact Hunset | reflexivity].
Qed.

Lemma debugger_only_when_debug_witness :
  exists g,
    main.import ∅ = Return (g, spec.after_import spec.defaults)
    /\ main.debugger g = false.
Proof.
  assert (Hbody : config.Settings_body ∅ = Return spec.defaults) by reflexivity.
  assert (Hok : spec.startable spec.defaults = true) by reflexivity.
  destruct (import_startable ∅ spec.defaults Hbody Hok) as (g & Himport & _).
  exists g. split; [exact Himport|].
  exact (proj1 (proj2 (debugger_only_when_debug ∅ g _ Himport)) eq_refl).
Defined.

(** X5.  The handlers are registered for GET alone.  Whenever the
    application starts with a prefix that holds no template parameter, a
    request with any other method, HEAD included, on the path of the
    root, of health or of a greeting is answered 405 "Method Not
    Allowed", unless it is a CORS preflight: that one is an OPTIONS
    request and the middleware answers it 200 or 400 before any route
    is looked at.  Either way the state is left as it was. *)
Theorem other_methods_not_allowed (environ : gmap string string) g m
    (mth name p : string) (hs : list (string * string)) :
  main.import environ = Return (g, m) ->
  spec.literal (config.API_PREFIX (config.Settings_class m)) = true ->
  mth <> "GET" ->
  spec.segment name = true ->
  In p [ "/"; config.API_PREFIX (config.Settings_class m) +:+ "/health";
         config.API_PREFIX (config.Settings_class m) +:+ "/hello";
         config.API_PREFIX (config.Settings_class m) +:+ "/hello/" +:+ name ] ->
  forall st,
    (spec.preflight (spec.request_for mth p hs) = false ->
     fastapi.call (main.app g) (spec.request_for mth p hs) st
     = ({| status_code := 405;
           body := JSONContent (JObject [("detail", JString "Method Not Allowed")]) |},
        st))
    /\ (spec.preflight (spec.request_for mth p hs) = true ->
        mth = "OPTIONS"
        /\ In (status_code (fst (fastapi.call (main.app g)
                                   (spec.request_for mth p hs) st)))
             [200; 400]%Z
        /\ snd (fastapi.call (main.app g) (spec.request_for mth p hs) st) = st).
Proof.
  intros Himport Hlit Hmth Hname Hp st.
  assert (Hmethod : existsb (String.eqb mth) ["GET"] = false).
  { cbn [existsb]. apply String.eqb_neq in Hmth. now rewrite Hmth. }
  split; intros Hpre.
  - apply (call_fixed environ g m Himport); [exact Hpre | | reflexivity].
    cbn [request spec.request_for].
    destruct Hp as [<- | [<- | [<- | [<- | []]]]].
    + exact (root_other_method environ g m Himport Hlit mth st Hmethod).
    + exact (proj2 (health_other_method environ g m Himport Hlit mth st Hmethod)).
    + exact (hello_other_method environ g m Himport Hlit mth st Hmethod).
    + exact (hello_name_other_method environ g m Himport Hlit mth name st
               Hmethod Hname).
  - split.
    { destruct (String.eqb_spec mth "OPTIONS") as [E | E]; [exact E|].
      rewrite (preflight_needs_options mth p hs E) in Hpre. discriminate. }
    split; [|exact (call_keeps_state environ g m Himport _ st)].
    destruct (call_cors environ g m Himport _ st Hpre) as (o & rm & _ & _ & ->).
    cbn [fst]. destruct (_ && _); simpl; auto.
Qed.

Lemma other_methods_not_allowed_witness :
  exists g,
    main.import ∅ = Return (g, spec.after_import spec.defaults)
    /\ fastapi.call (main.app g) (spec.request_for "HEAD" "/api/hello/Alice" [])
         (spec.after_import spec.defaults)
       = ({| status_code := 405;
             body := JSONContent
                       (JObject [("detail", JString "Method Not Allowed")]) |},
          spec.after_import spec.defaults).
Proof.
  assert (Hbody : config.Settings_body ∅ = Return spec.defaults) by reflexivity.
  assert (Hok : spec.startable spec.defaults = true) by reflexivity.
  destruct (import_startable ∅ spec.defaults Hbody Hok) as (g & Himport & Hlit).
  exists g. split; [exact Himport|].
  assert (Hmth : "HEAD" <> "GET") by discriminate.
  assert (Hname : spec.segment "Alice" = true) by reflexivity.
  assert (Hp : In "/api/hello/Alice"
                 [ "/"; "/api" +:+ "/health"; "/api" +:+ "/hello";
                   "/api" +:+ "/hello/" +:+ "Alice" ])
    by (right; right; right; left; reflexivity).
  exact (proj1 (other_methods_not_allowed ∅ g _ "HEAD" "Alice" "/api/hello/Alice" []
                  Himport Hlit Hmth Hname Hp (spec.after_import spec.defaults))
           eq_refl).
Defined.

(** X6.  The greeting handler is never called with a name that is not
    one path segment.  Whenever the application starts with a prefix
    that holds no template parameter and the text after <prefix>/hello/
    is empty or holds a slash, no route matches the path, whatever the
    method; a request for it that is no CORS preflight is answered with
    a redirect (307) or "Not Found" (404) when its path is well-formed
    UTF-8, and a preflight is answered 200 or 400 by the middleware. *)
Theorem non_segment_never_greeted (environ : gmap string string) g m
    (mth name : string) (hs : list (string * string)) :
  main.import environ = Return (g, m) ->
  spec.literal (config.API_PREFIX (config.Settings_class m)) = true ->
  spec.segment name = false ->
  let p := config.API_PREFIX (config.Settings_class m) +:+ "/hello/" +:+ name in
  Forall (fun r => matches r {| method := mth; path := p |} = Return NONE)
    (fastapi.routes (main.app g))
  /\ forall st,
       (spec.preflight (spec.request_for mth p hs) = false ->
        Py.utf8 p = true ->
        In (status_code (fst (fastapi.call (main.app g)
                                (spec.request_for mth p hs) st)))
          [307; 404]%Z)
       /\ (spec.preflight (spec.request_for mth p hs) = true ->
           In (status_code (fst (fastapi.call (main.app g)
                                   (spec.request_for mth p hs) st)))
             [200; 400]%Z).
Proof.
  intros Himport Hlit Hname p.
  pose proof (hello_non_segment environ g m Himport Hlit name mth Hname) as Hnone.
  fold p in Hnone. split; [exact Hnone|]. intros st. split.
  - intros Hpre Hutf.
    rewrite (call_router environ g m Himport _ st Hpre). cbn [fst].
    cbn [request spec.request_for].
    unfold fastapi.handle, Router_app.
    rewrite (first_match_none _ _ Hnone None). cbn [path method].
    destruct (String.eqb p "/"); [cbn; auto|].
    match goal with
    | |- context [any_match ?routes ?sc] =>
        destruct (any_match_returns routes sc) as [b Hb]
    end.
    { apply List.Forall_forall. intros r Hr.
      pose proof (app_matches_return environ g m Himport Hlit) as Hret.
      rewrite List.Forall_forall in Hret. exact (Hret r Hr _). }
    rewrite Hb. destruct b; [|cbn; auto].
    unfold sret. cbn [fst]. unfold fastapi.render.
    cbn [body fastapi.texts fastapi.encode_all]. unfold Py.encode.
    rewrite (utf8_toggle_slash p Hutf). cbn. auto.
  - intros Hpre.
    destruct (call_cors environ g m Himport _ st Hpre) as (o & rm & _ & _ & ->).
    cbn [fst]. destruct (_ && _); simpl; auto.
Qed.

Lemma non_segment_never_greeted_witness :
  exists g,
    main.import ∅ = Return (g, spec.after_import spec.defaults)
    /\ In (status_code
             (fst (fastapi.call (main.app g)
                     (spec.request_for "GET" "/api/hello/a/b" [])
                     (spec.after_import spec.defaults))))
         [307; 404]%Z.
Proof.
  assert (Hbody : config.Settings_body ∅ = Return spec.defaults) by reflexivity.
  assert (Hok : spec.startable spec.defaults = true) by reflexivity.
  assert (Hname : spec.segment "a/b" = false) by reflexivity.
  destruct (import_startable ∅ spec.defaults Hbody Hok) as (g & Himport & Hlit).
  exists g. split; [exact Himport|].
  exact (proj1 (proj2 (non_segment_never_greeted ∅ g _ "GET" "a/b" []
                         Himport Hlit Hname) (spec.after_import spec.defaults))
           eq_refl eq_refl).
Defined.



(** X9.  The settings object bound when [main] is imported is the one
    [get_settings] keeps returning: after any run of requests a call is a
    cache hit that returns that same object, creates none, and reads the
    same attributes through it. *)
Theorem settings_object_survives_requests (environ : gmap string string) g m
    (requests : list Request) :
  main.import environ = Return (g, m) ->
  let st := snd (fastapi.serve (main.app g) requests m) in
  fst (config.get_settings st) = main.settings g
  /\ config.next_object (snd (config.get_settings st)) = config.next_object m
  /\ config.hits (snd (config.get_settings st)) = S (config.hits m)
  /\ config.misses (snd (config.get_settings st)) = config.misses m
  /\ (forall A (field : config.Settings -> A),
        config.getattr (snd (config.get_settings st))
          (fst (config.get_settings st)) field
        = config.getattr m (main.settings g) field).
Proof.
  intros Himport st. subst st.
  rewrite (serve_pure (main.app g) (handle_keeps_state environ g m Himport)).
  cbn [snd].
  destruct (import_inv _ _ _ Himport)
    as (cls & _ & _ & _ & _ & _ & _ & _ & _ & _ & -> & Hset & _).
  erewrite get_settings_hit by reflexivity. rewrite Hset. cbn. repeat split.
Qed.

Lemma settings_object_survives_requests_witness :
  exists g,
    main.import ∅ = Return (g, spec.after_import spec.defaults)
    /\ fst (config.get_settings
              (snd (fastapi.serve (main.app g)
                      [ {| method := "GET"; path := "/" |} ]
                      (spec.after_import spec.defaults))))
       = main.settings g.
Proof.
  assert (Hbody : config.Settings_body ∅ = Return spec.defaults) by reflexivity.
  assert (Hok : spec.startable spec.defaults = true) by reflexivity.
  destruct (import_startable ∅ spec.defaults Hbody Hok) as (g & Himport & _).
  exists g. split; [exact Himport|].
  exact (proj1 (settings_object_survives_requests ∅ g _
                  [ {| method := "GET"; path := "/" |} ] Himport)).
Defined.

(** X12.  The application carries exactly one middleware, the CORS one:
    it allows credentials, every method and every header, and its origins
    are the comma-split of CORS_ORIGINS, a list that is never empty and
    whose items hold no comma; an unset variable allows every origin. *)
Theorem cors_middleware_configured (environ : gmap string string) g m :
  main.import environ = Return (g, m) ->
  exists mw,
    fastapi.user_middleware (main.app g) = [mw]
    /\ fastapi.allow_credentials mw = true
    /\ fastapi.allow_methods mw = ["*"]
    /\ fastapi.allow_headers mw = ["*"]
    /\ fastapi.allow_origins mw
       = Py.split "," (config.getenv environ "CORS_ORIGINS" "*")
    /\ fastapi.allow_origins mw <> []
    /\ Forall (fun origin => spec.free_of "," origin = true) (fastapi.allow_origins mw)
    /\ (environ !! "CORS_ORIGINS" = None -> fastapi.allow_origins mw = ["*"]).
Proof.
  intros Himport.
  destruct (import_inv _ _ _ Himport)
    as (cls & _ & _ & _ & _ & _ & _ & _ & _ & Hbody & _ & _ & _ & _ & _ & _ & Hmw & _).
  destruct (Settings_body_inv environ cls Hbody) as (_ & _ & _ & _ & _ & _ & Hcors & _).
  eexists. split; [exact Hmw|].
  cbn [fastapi.allow_credentials fastapi.allow_methods fastapi.allow_headers
       fastapi.allow_origins].
  rewrite Hcors. repeat split.
  - apply split_not_nil.
  - apply split_items_free.
  - intros Hv. now rewrite (getenv_unset environ _ _ Hv).
Qed.

Lemma cors_middleware_configured_witness :
  exists g mw,
    main.import ∅ = Return (g, spec.after_import spec.defaults)
    /\ fastapi.user_middleware (main.app g) = [mw]
    /\ fastapi.allow_origins mw = ["*"].
Proof.
  assert (Hbody : config.Settings_body ∅ = Return spec.defaults) by reflexivity.
  assert (Hok : spec.startable spec.defaults = true) by reflexivity.
  destruct (import_startable ∅ spec.defaults Hbody Hok) as (g & Himport & _).
  destruct (cors_middleware_configured ∅ g _ Himport)
    as (mw & Hmw & _ & _ & _ & _ & _ & _ & Hstar).
  exists g, mw. split; [exact Himport|]. split; [exact Hmw | exact (Hstar eq_refl)].
Defined.

(** X13.  A slash too many after the health path is not an error and not
    the health answer: the router finds no route for it, finds one for
    the path without the slash, and redirects there with 307. *)
Theorem trailing_slash_redirects (environ : gmap string string) cfg :
  config.Settings_body environ = Return cfg ->
  spec.startable cfg = true ->
  exists g,
    main.import environ = Return (g, spec.after_import cfg)
    /\ forall st,
         fastapi.handle (main.app g)
           {| method := "GET"; path := config.API_PREFIX cfg +:+ "/health/" |} st
         = ({| status_code := 307;
               body := Redirect (config.API_PREFIX cfg +:+ "/health") |}, st).
Proof.
  intros Hbody Hok.
  destruct (import_startable environ cfg Hbody Hok) as (g & Himport & Hlit).
  exists g. split; [exact Himport|]. intros st.
  exact (proj2 (health_trailing_slash environ g _ Himport Hlit st)).
Qed.

Lemma trailing_slash_redirects_witness :
  config.Settings_body ∅ = Return spec.defaults
  /\ spec.startable spec.defaults = true
  /\ exists g,
       main.import ∅ = Return (g, spec.after_import spec.defaults)
       /\ fst (fastapi.handle (main.app g)
                 {| method := "GET"; path := "/api/health/" |}
                 (spec.after_import spec.defaults))
          = {| status_code := 307; body := Redirect "/api/health" |}.
Proof.
  assert (Hbody : config.Settings_body ∅ = Return spec.defaults) by reflexivity.
  assert (Hok : spec.startable spec.defaults = true) by reflexivity.
  split; [exact Hbody|]. split; [exact Hok|].
  destruct (trailing_slash_redirects ∅ spec.defaults Hbody Hok)
    as (g & Himport & Hslash).
  exists g. split; [exact Himport | exact (f_equal fst (Hslash _))].
Defined.

(** X14.  From any state of the cache, calls of [get_settings] create at
    most one object.  When the cache is filled, [n] calls return the
    cached object [n] times, count [n] hits and allocate nothing.  When
    it is empty, the first of [n] calls, if there is one, creates one
    object, counts one miss and caches the object, and the other calls
    return that object and count as hits; with no call at all the state
    stays as it is.  The class attributes are left as they were. *)
Theorem get_settings_creates_at_most_one (m : config.module) (n : nat) :
  let r := config.call_get_settings n m in
  config.Settings_class (snd r) = config.Settings_class m
  /\ (forall obj, config.cache m = Some obj ->
        fst r = repeat obj n
        /\ config.cache (snd r) = Some obj
        /\ config.next_object (snd r) = config.next_object m
        /\ config.misses (snd r) = config.misses m
        /\ config.hits (snd r) = (n + config.hits m)%nat)
  /\ (config.cache m = None -> n = 0%nat -> r = ([], m))
  /\ (config.cache m = None -> (0 < n)%nat ->
        fst r = repeat (config.next_object m) n
        /\ config.cache (snd r) = Some (config.next_object m)
        /\ config.next_object (snd r) = S (config.next_object m)
        /\ config.misses (snd r) = S (config.misses m)
        /\ config.hits (snd r) = (n - 1 + config.hits m)%nat).
Proof.
  intros r. subst r.
  destruct (config.cache m) as [obj|] eqn:Hc.
  - rewrite (call_get_settings_cached n m obj Hc). cbn [fst snd].
    cbn [config.next_object config.misses config.hits config.cache
         config.Settings_class].
    split; [reflexivity|]. split; [intros obj' [= <-]; auto|].
    split; discriminate.
  - destruct n as [|n].
    + cbn. split; [reflexivity|]. split; [discriminate|].
      split; [reflexivity | lia].
    + cbn [config.call_get_settings]. unfold sbind.
      rewrite (get_settings_miss m Hc).
      erewrite call_get_settings_cached by reflexivity.
      unfold sret.
      cbn [fst snd config.next_object config.misses config.hits config.cache
           config.Settings_class].
      split; [reflexivity|]. split; [discriminate|].
      split; [discriminate|]. intros _ _.
      repeat split. f_equal. lia.
Qed.

Lemma get_settings_creates_at_most_one_witness :
  fst (config.call_get_settings 3
         {| config.Settings_class := spec.defaults; config.next_object := 5;
            config.cache := None; config.hits := 0; config.misses := 0 |})
  = [5; 5; 5]%nat
  /\ config.next_object
       (snd (config.call_get_settings 3
               {| config.Settings_class := spec.defaults; config.next_object := 5;
                  config.cache := None; config.hits := 0; config.misses := 0 |}))
     = 6%nat.
Proof.
  destruct (proj2 (proj2 (proj2
              (get_settings_creates_at_most_one
                 {| config.Settings_class := spec.defaults; config.next_object := 5;
                    config.cache := None; config.hits := 0; config.misses := 0 |} 3)))
              eq_refl (Nat.lt_0_succ 2))
    as (Hobjs & _ & Hnext & _).
  split; [exact Hobjs | exact Hnext].
Defined.
